(** * MultiModel-Doc: the extraction-and-recovery pipeline

    A shallow embedding of [src/fast_processor.py], [src/simple_processor.py]
    and [src/models/qwen_client.py], and the properties of the response
    normalizer, the page extractor, the document aggregator and the model
    gateway that the specification states about them.

    Python values are modelled by [pyvalue]; a Python [str] is the list of its
    code points; a [float] is a binary64 primitive float; a [dict] is an
    association list in insertion order with unique keys; code that may raise
    returns an [outcome].  Where releases of CPython differ in what the code
    computes (the built-in [sum], the lookup of a slice in a dictionary), the
    behaviour is taken from an [interpreter], over which the theorems
    quantify. *)

From Stdlib Require Import ZArith NArith String Ascii Bool Lia Arith DecimalString List.
From Stdlib Require Import Floats.PrimFloat Floats.SpecFloat Floats.FloatOps.
Import ListNotations.

Set Implicit Arguments.
Set Warnings "-register-all,-inexact-float".
Local Open Scope N_scope.

(* ================================================================== *)
(** ** Python strings *)
(* ================================================================== *)

(** A character is a Unicode code point. *)
Definition pychar := N.
Definition pystr := list pychar.

Definition ord (a : ascii) : pychar := N_of_ascii a.

(** [str "abc"] is the Python string [abc]. *)
Fixpoint str (s : string) : pystr :=
  match s with
  | EmptyString => []
  | String a r => ord a :: str r
  end.

Definition dquote : pychar := 34.
Definition squote : pychar := 39.

(** [jstr] reads a literal in which every apostrophe stands for a double
    quote, so that JSON texts can be written down legibly. *)
Definition jstr (s : string) : pystr :=
  map (fun c => if c =? squote then dquote else c) (str s).

Fixpoint str_eqb (a b : pystr) : bool :=
  match a, b with
  | [], [] => true
  | x :: a', y :: b' => (x =? y) && str_eqb a' b'
  | _, _ => false
  end.

(** [strip_prefix p s] is [Some r] when [s = p ++ r]. *)
Fixpoint strip_prefix (p s : pystr) : option pystr :=
  match p with
  | [] => Some s
  | x :: p' =>
      match s with
      | [] => None
      | y :: s' => if x =? y then strip_prefix p' s' else None
      end
  end.

(** Python's [s[:n]] for a non-negative [n]. *)
Definition slice_to (n : nat) (s : pystr) : pystr := firstn n s.

(** Membership of a character in a list of characters. *)
Definition char_in (c : pychar) (cs : list pychar) : bool :=
  existsb (N.eqb c) cs.

(** The characters [\s] matches in a [str] pattern: the Unicode white space
    of [str.isspace]. *)
Definition is_space (c : pychar) : bool :=
  ((9 <=? c) && (c <=? 13)) || ((28 <=? c) && (c <=? 32))
  || (c =? 133) || (c =? 160) || (c =? 5760)
  || ((8192 <=? c) && (c <=? 8202))
  || (c =? 8232) || (c =? 8233) || (c =? 8239) || (c =? 8287) || (c =? 12288).

(* ================================================================== *)
(** ** Regular expressions, as Python's [re] matches them *)
(* ================================================================== *)

(** The fragment of [re] syntax the processors use.  [RAny] is [.] under
    [re.DOTALL] (every use of [.] in the sources is under that flag). *)
Inductive regex : Type :=
| REps
| RLit (c : pychar)
| RStr (s : pystr)
| RAny
| RSpace
| RNoneOf (cs : list pychar)
| RSeq (r1 r2 : regex)
| RAlt (r1 r2 : regex)
| RStar (r : regex)
| RLazy (r : regex).

Definition cont := pystr -> option pystr.

(** One character of a class. *)
Definition match_class (p : pychar -> bool) (s : pystr) (k : cont) : option pystr :=
  match s with
  | c :: s' => if p c then k s' else None
  | [] => None
  end.

(** Greedy repetition: one more iteration first, the continuation when that
    fails.  An iteration that consumes nothing is not repeated. *)
Fixpoint star_greedy (mr : pystr -> cont -> option pystr) (k : cont)
  (fuel : nat) (s : pystr) : option pystr :=
  match fuel with
  | O => k s
  | S f =>
      match mr s (fun s1 => if (length s1 <? length s)%nat
                            then star_greedy mr k f s1 else None) with
      | Some x => Some x
      | None => k s
      end
  end.

(** Lazy repetition: the continuation first, one more iteration when that
    fails. *)
Fixpoint star_lazy (mr : pystr -> cont -> option pystr) (k : cont)
  (fuel : nat) (s : pystr) : option pystr :=
  match k s with
  | Some x => Some x
  | None =>
      match fuel with
      | O => None
      | S f => mr s (fun s1 => if (length s1 <? length s)%nat
                               then star_lazy mr k f s1 else None)
      end
  end.

(** The backtracking matcher: [re_match r s k] is the first success, in
    [re]'s order of preference, of matching [r] at the start of [s] and then
    [k] on what is left. *)
Fixpoint re_match (r : regex) (s : pystr) (k : cont) {struct r} : option pystr :=
  match r with
  | REps => k s
  | RLit c => match_class (N.eqb c) s k
  | RStr p => match strip_prefix p s with Some s' => k s' | None => None end
  | RAny => match_class (fun _ => true) s k
  | RSpace => match_class is_space s k
  | RNoneOf cs => match_class (fun c => negb (char_in c cs)) s k
  | RSeq r1 r2 => re_match r1 s (fun s1 => re_match r2 s1 k)
  | RAlt r1 r2 =>
      match re_match r1 s k with
      | Some x => Some x
      | None => re_match r2 s k
      end
  | RStar r1 => star_greedy (re_match r1) k (length s) s
  | RLazy r1 => star_lazy (re_match r1) k (length s) s
  end.

(** The match of [r] at the start of [s]: what is left after it. *)
Definition match_at (r : regex) (s : pystr) : option pystr := re_match r s Some.

(** [re.search(r, s)]: the match at the leftmost position that has one;
    the result is the matched text, [match.group(0)]. *)
Fixpoint re_search (r : regex) (s : pystr) : option pystr :=
  match match_at r s with
  | Some rest => Some (firstn (length s - length rest) s)
  | None =>
      match s with
      | [] => None
      | _ :: s' => re_search r s'
      end
  end.

(** [re.sub(r, '', s)]: every non-overlapping match, leftmost first, is
    deleted.  [skip] counts the characters of the current match still to be
    dropped.  A match of the empty string deletes nothing. *)
Fixpoint sub_del (r : regex) (skip : nat) (s : pystr) : pystr :=
  match s with
  | [] => []
  | c :: s' =>
      match skip with
      | S n => sub_del r n s'
      | O =>
          match match_at r s with
          | Some rest =>
              match (length s - length rest)%nat with
              | O => c :: sub_del r 0 s'
              | S n => sub_del r n s'
              end
          | None => c :: sub_del r 0 s'
          end
      end
  end.

Definition re_sub_empty (r : regex) (s : pystr) : pystr := sub_del r 0 s.

Definition rseq (rs : list regex) : regex := fold_right RSeq REps rs.

(** The patterns of the sources. *)

(** [<think>.*?</think>] with [re.DOTALL]. *)
Definition think_re : regex :=
  rseq [RStr (str "<think>"); RLazy RAny; RStr (str "</think>")].

(** [```json\s*|\s*```] (fast_processor.py). *)
Definition fence_re : regex :=
  RAlt (RSeq (RStr (str "```json")) (RStar RSpace))
       (RSeq (RStar RSpace) (RStr (str "```"))).

(** [```json\s*] and [```\s*] (simple_processor.py). *)
Definition fence_json_re : regex := RSeq (RStr (str "```json")) (RStar RSpace).
Definition fence_any_re : regex := RSeq (RStr (str "```")) (RStar RSpace).

Definition lbrace : pychar := 123.
Definition rbrace : pychar := 125.
Definition not_brace : regex := RNoneOf [lbrace; rbrace].

(** The brace span of fast_processor.py: an opening brace, characters other
    than braces, any number of groups made of an opening brace, characters
    other than braces, a closing brace and characters other than braces,
    and a closing brace; every repetition is greedy. *)
Definition json_re : regex :=
  rseq [RLit lbrace; RStar not_brace;
        RStar (rseq [RLit lbrace; RStar not_brace; RLit rbrace; RStar not_brace]);
        RLit rbrace].

(** [\{.*\}] with [re.DOTALL] (simple_processor.py). *)
Definition json_greedy_re : regex :=
  rseq [RLit lbrace; RStar RAny; RLit rbrace].

(* ================================================================== *)
(** ** Python values *)
(* ================================================================== *)

(** The values that flow through the pipeline: what [json.loads] can
    produce, and the dictionaries the processors build from them. *)
Inductive pyvalue : Type :=
| PyNone
| PyBool (b : bool)
| PyInt (z : Z)
| PyFloat (f : float)
| PyStr (s : pystr)
| PyList (l : list pyvalue)
| PyDict (d : list (pystr * pyvalue)).

Definition pydict := list (pystr * pyvalue).

(** [d.get(k)] / [k in d] *)
Fixpoint dict_get (d : pydict) (k : pystr) : option pyvalue :=
  match d with
  | [] => None
  | (k', v) :: d' => if str_eqb k' k then Some v else dict_get d' k
  end.

Definition dict_has (d : pydict) (k : pystr) : bool :=
  match dict_get d k with Some _ => true | None => false end.

(** [d.get(k, default)] *)
Definition dict_get_default (d : pydict) (k : pystr) (default : pyvalue) : pyvalue :=
  match dict_get d k with Some v => v | None => default end.

(** [d[k] = v]: an existing key keeps its place, a new key goes last. *)
Fixpoint dict_set (d : pydict) (k : pystr) (v : pyvalue) : pydict :=
  match d with
  | [] => [(k, v)]
  | (k', v') :: d' =>
      if str_eqb k' k then (k', v) :: d' else (k', v') :: dict_set d' k v
  end.

(** A dictionary display [{k1: v1, ...}], and [dict(pairs)]. *)
Definition dict_of (kvs : list (pystr * pyvalue)) : pydict :=
  fold_left (fun d kv => dict_set d (fst kv) (snd kv)) kvs [].

(** Truth value testing. *)
Definition truthy (v : pyvalue) : bool :=
  match v with
  | PyNone => false
  | PyBool b => b
  | PyInt z => negb (Z.eqb z 0)
  | PyFloat f => negb (PrimFloat.eqb f 0%float)
  | PyStr s => match s with [] => false | _ => true end
  | PyList l => match l with [] => false | _ => true end
  | PyDict d => match d with [] => false | _ => true end
  end.

(** Exceptions: the class, as far as the handlers of the sources tell
    classes apart, and [str(e)].  [requests.exceptions.Timeout] is a subclass
    of [RequestException]; every class here derives from [Exception]. *)
Inductive exc_class : Type :=
| ExcTimeout
| ExcRequestException
| ExcTypeError
| ExcKeyError
| ExcIndexError
| ExcValueError
| ExcOverflowError
| ExcOther.

Record exc : Type := { exc_cls : exc_class; exc_str : pystr }.

Inductive outcome (A : Type) : Type :=
| Ok (a : A)
| Raise (e : exc).
Arguments Ok {A} a.
Arguments Raise {A} e.

Definition bind {A B : Type} (m : outcome A) (f : A -> outcome B) : outcome B :=
  match m with
  | Ok a => f a
  | Raise e => Raise e
  end.

Notation "x <- m ;; k" := (bind m (fun x => k))
  (at level 61, m at next level, right associativity).

Definition raise_ {A : Type} (c : exc_class) (msg : string) : outcome A :=
  Raise {| exc_cls := c; exc_str := str msg |}.

(** [type(v).__name__], and the name in quotes as the messages of the
    built-in errors show it.  The messages below are those of CPython 3.11;
    other releases word some of them differently. *)
Definition py_type_name (v : pyvalue) : pystr :=
  match v with
  | PyNone => str "NoneType"
  | PyBool _ => str "bool"
  | PyInt _ => str "int"
  | PyFloat _ => str "float"
  | PyStr _ => str "str"
  | PyList _ => str "list"
  | PyDict _ => str "dict"
  end.

Definition quoted_type (v : pyvalue) : pystr := squote :: py_type_name v ++ [squote].

Definition raise_msg {A : Type} (c : exc_class) (msg : pystr) : outcome A :=
  Raise {| exc_cls := c; exc_str := msg |}.

(* ================================================================== *)
(** ** Numbers *)
(* ================================================================== *)

(** The binary64 value nearest to [p/q] (ties to even), with sign [neg]. *)
Definition float_of_ratio (neg : bool) (p q : positive) : float :=
  SF2Prim (SFdiv prec emax (S754_finite neg p 0) (S754_finite false q 0)).

(** The binary64 value nearest to the integer [z]; infinite when out of
    range. *)
Definition float_of_Z (z : Z) : float :=
  SF2Prim (binary_normalize prec emax z 0 false).

(** [float(z)] for a Python [int]. *)
Definition int_to_float (z : Z) : outcome float :=
  let f := float_of_Z z in
  if is_infinity f then raise_ ExcOverflowError "int too large to convert to float"
  else Ok f.

(** [a + b] on the values [sum] meets. *)
Definition py_add (a b : pyvalue) : outcome pyvalue :=
  let num (v : pyvalue) : option (Z + float) :=
    match v with
    | PyBool b => Some (inl (if b then 1 else 0)%Z)
    | PyInt z => Some (inl z)
    | PyFloat f => Some (inr f)
    | _ => None
    end in
  match num a, num b with
  | Some (inl x), Some (inl y) => Ok (PyInt (x + y))
  | Some (inl x), Some (inr g) => f <- int_to_float x ;; Ok (PyFloat (f + g))
  | Some (inr f), Some (inl y) => g <- int_to_float y ;; Ok (PyFloat (f + g))
  | Some (inr f), Some (inr g) => Ok (PyFloat (f + g))
  | _, _ => raise_msg ExcTypeError
              (str "unsupported operand type(s) for +: " ++ quoted_type a
               ++ str " and " ++ quoted_type b)
  end.

(** The interpreter, as far as the pipeline depends on it.  The built-in
    [sum] adds the items from the left, each addition rounded, up to
    CPython 3.11; from 3.12 on its loop over floats carries a compensation
    term (Neumaier's summation), and the result may differ in the last
    place; [Compensated] stands for the loops of CPython 3.12.  The fast
    loops of [sum] work on C [long] values, whose range
    [- long_max - 1 .. long_max] depends on the platform.  A slice can be
    hashed, and so looked up in a dictionary, from 3.12 on. *)
Inductive summation : Type :=
| LeftToRight
| Compensated.

Class interpreter : Type := {
  float_summation : summation;
  long_max : Z;
  hashable_slices : bool
}.

Definition cpython_3_11 : interpreter :=
  {| float_summation := LeftToRight; long_max := 2 ^ 63 - 1; hashable_slices := false |}.

Definition cpython_3_12 : interpreter :=
  {| float_summation := Compensated; long_max := 2 ^ 63 - 1; hashable_slices := true |}.

(** Closed examples that do not name an interpreter are evaluated on
    [cpython_3_11]; the theorems hold for every interpreter. *)
#[global] Existing Instance cpython_3_11.

(** The generic loop of [sum]: [result = result + item] for each item. *)
Definition sum_generic (start : outcome pyvalue) (vs : list pyvalue) : outcome pyvalue :=
  fold_left (fun acc v => a <- acc ;; py_add a v) vs start.

(** One step of the compensated loop on the running sum and its
    compensation, and the sum it returns: the compensation is added unless
    it is zero, infinite or NaN. *)
Definition neumaier_step (acc : float * float) (x : float) : float * float :=
  let '(f_result, c) := acc in
  let t := (f_result + x)%float in
  (t, if (abs x <=? abs f_result)%float
      then (c + ((f_result - t) + x))%float
      else (c + ((x - t) + f_result))%float).

Definition compensated (acc : float * float) : float :=
  let '(f_result, c) := acc in
  if negb (is_zero c) && is_finite c then (f_result + c)%float else f_result.

(** An [int] item, a [bool] included. *)
Definition int_item (v : pyvalue) : option Z :=
  match v with
  | PyInt z => Some z
  | PyBool b => Some (if b then 1 else 0)%Z
  | _ => None
  end.

Definition fits_long {py : interpreter} (z : Z) : bool :=
  ((- long_max - 1 <=? z) && (z <=? long_max))%Z.

(** The loop of [sum] over floats as CPython 3.12 has it: a float item goes
    through [neumaier_step], an [int] that fits a C [long] is added to the
    running sum as it is, and any other item ends the loop: the compensation
    is applied and the generic loop goes on from there. *)
Fixpoint sum_floats {py : interpreter} (acc : float * float) (vs : list pyvalue)
  : outcome pyvalue :=
  match vs with
  | [] => Ok (PyFloat (compensated acc))
  | v :: rest =>
      let generic := sum_generic (py_add (PyFloat (compensated acc)) v) rest in
      match v with
      | PyFloat x => sum_floats (neumaier_step acc x) rest
      | _ =>
          match int_item v with
          | Some z =>
              if fits_long z
              then sum_floats ((fst acc + float_of_Z z)%float, snd acc) rest
              else generic
          | None => generic
          end
      end
  end.

(** The loop of [sum] over ints, which the start value [0] enters: it adds
    as long as the items are ints and the total fits a C [long]; the first
    other item is added by [+], and the loop over floats or the generic
    loop goes on from the result. *)
Fixpoint sum_ints {py : interpreter} (i_result : Z) (vs : list pyvalue) : outcome pyvalue :=
  match vs with
  | [] => Ok (PyInt i_result)
  | v :: rest =>
      let other :=
        match py_add (PyInt i_result) v with
        | Ok (PyFloat f) => sum_floats (f, 0%float) rest
        | r => sum_generic r rest
        end in
      match int_item v with
      | Some b =>
          if fits_long b &&
             (if (0 <=? i_result)%Z then (b <=? long_max - i_result)%Z
              else (- long_max - 1 - i_result <=? b)%Z)
          then sum_ints (i_result + b) rest
          else other
      | None => other
      end
  end.

(** [sum(vs)], from the start value [0].  Up to CPython 3.11 the loops over
    ints and floats compute what the generic loop computes. *)
Definition py_sum {py : interpreter} (vs : list pyvalue) : outcome pyvalue :=
  match float_summation with
  | LeftToRight => sum_generic (Ok (PyInt 0)) vs
  | Compensated => sum_ints 0 vs
  end.

(** [total / n] for the result of a [sum] and a positive [int] [n]. *)
Definition py_truediv_int (total : pyvalue) (n : positive) : outcome float :=
  let int_div (z : Z) : outcome float :=
    match z with
    | Z0 => Ok 0%float
    | Zpos p =>
        let f := float_of_ratio false p n in
        if is_infinity f then raise_ ExcOverflowError "integer division result too large for a float"
        else Ok f
    | Zneg p =>
        let f := float_of_ratio true p n in
        if is_infinity f then raise_ ExcOverflowError "integer division result too large for a float"
        else Ok f
    end in
  match total with
  | PyInt z => int_div z
  | PyBool b => int_div (if b then 1 else 0)%Z
  | PyFloat f => Ok (f / float_of_Z (Zpos n))%float
  | _ => raise_msg ExcTypeError
            (str "unsupported operand type(s) for /: " ++ quoted_type total ++ str " and 'int'")
  end.

(** [round(x, 2)] for a [float]: the decimal with two places nearest to the
    exact value of [x] (ties to even), then the binary64 value nearest to
    that decimal; the sign of [x] is kept, and infinities and NaN round to
    themselves. *)
Definition round_half_even_div (a b : Z) : Z :=
  let q := (a / b)%Z in
  let r := (a mod b)%Z in
  match (2 * r ?= b)%Z with
  | Lt => q
  | Gt => (q + 1)%Z
  | Eq => if Z.even q then q else (q + 1)%Z
  end.

Definition round2 (x : float) : float :=
  match Prim2SF x with
  | S754_finite s m e =>
      let hundredths :=
        match e with
        | Zneg pe => round_half_even_div (Zpos m * 100) (Z.pow 2 (Zpos pe))
        | _ => (Zpos m * 100 * Z.pow 2 e)%Z
        end in
      match hundredths with
      | Zpos h => float_of_ratio s h 100
      | _ => if s then neg_zero else zero
      end
  | _ => x
  end.

(* ================================================================== *)
(** ** [json.loads] *)
(* ================================================================== *)

(** The decoder of Python's [json] module, which the normalizers call.
    It is library code: the theorems about the normalizers hold for every
    decoder (their parameter [loads]), and this one evaluates them on
    concrete texts.  [None] stands for a raised exception.  The interpreter's
    recursion limit is not modelled. *)

Definition json_ws (c : pychar) : bool :=
  (c =? 32) || (c =? 9) || (c =? 10) || (c =? 13).

Fixpoint skip_ws (s : pystr) : pystr :=
  match s with
  | c :: s' => if json_ws c then skip_ws s' else s
  | [] => []
  end.

Definition hex_val (c : pychar) : option N :=
  if (48 <=? c) && (c <=? 57) then Some (c - 48)
  else if (97 <=? c) && (c <=? 102) then Some (c - 87)
  else if (65 <=? c) && (c <=? 70) then Some (c - 55)
  else None.

Definition hex4 (a b c d : pychar) : option N :=
  match hex_val a, hex_val b, hex_val c, hex_val d with
  | Some x, Some y, Some z, Some w => Some (((x * 16 + y) * 16 + z) * 16 + w)
  | _, _, _, _ => None
  end.

Definition backslash : pychar := 92.

Definition unescape (e : pychar) : option pychar :=
  if e =? dquote then Some dquote
  else if e =? backslash then Some backslash
  else if e =? 47 then Some 47
  else if e =? 98 then Some 8
  else if e =? 102 then Some 12
  else if e =? 110 then Some 10
  else if e =? 114 then Some 13
  else if e =? 116 then Some 9
  else None.

Definition is_high_surrogate (u : N) : bool := (55296 <=? u) && (u <=? 56319).
Definition is_low_surrogate (u : N) : bool := (56320 <=? u) && (u <=? 57343).

(** The body of a string literal, after its opening quote: the decoded
    string and what follows the closing quote (strict mode). *)
Fixpoint scan_string (s : pystr) : option (pystr * pystr) :=
  let cons_to c r :=
    match r with
    | Some (t, rest) => Some (c :: t, rest)
    | None => None
    end in
  match s with
  | [] => None
  | c :: s1 =>
      if c =? dquote then Some ([], s1)
      else if c <? 32 then None
      else if c =? backslash then
        match s1 with
        | [] => None
        | e :: s2 =>
            if e =? 117 then
              match s2 with
              | h1 :: h2 :: h3 :: h4 :: s3 =>
                  match hex4 h1 h2 h3 h4 with
                  | None => None
                  | Some u =>
                      if is_high_surrogate u then
                        match s3 with
                        | b :: s3' =>
                            match s3' with
                            | l :: g =>
                                if (b =? backslash) && (l =? 117) then
                                  match g with
                                  | g1 :: g2 :: g3 :: g4 :: s4 =>
                                      match hex4 g1 g2 g3 g4 with
                                      | None => None
                                      | Some u2 =>
                                          if is_low_surrogate u2
                                          then cons_to (65536 + (u - 55296) * 1024 + (u2 - 56320))
                                                       (scan_string s4)
                                          else cons_to u (scan_string s3)
                                      end
                                  | _ => None
                                  end
                                else cons_to u (scan_string s3)
                            | [] => cons_to u (scan_string s3)
                            end
                        | [] => cons_to u (scan_string s3)
                        end
                      else cons_to u (scan_string s3)
                  end
              | _ => None
              end
            else
              match unescape e with
              | Some c' => cons_to c' (scan_string s2)
              | None => None
              end
        end
      else cons_to c (scan_string s1)
  end.

Definition is_digit (c : pychar) : bool := (48 <=? c) && (c <=? 57).

Fixpoint take_digits (s : pystr) : pystr * pystr :=
  match s with
  | c :: s' =>
      if is_digit c then let (ds, r) := take_digits s' in (c :: ds, r)
      else ([], s)
  | [] => ([], [])
  end.

Definition digits_val (ds : pystr) : Z :=
  fold_left (fun a d => (10 * a + Z.of_N (d - 48))%Z) ds 0%Z.

(** [float(text)] for the number literal with integer digits [ip],
    fraction digits [fp] and decimal exponent [e]. *)
Definition float_of_literal (neg : bool) (ip fp : pystr) (e : Z) : float :=
  let m := digits_val (ip ++ fp) in
  let e10 := (e - Z.of_nat (length fp))%Z in
  match m with
  | Zpos p =>
      match e10 with
      | Zneg k => float_of_ratio neg p (Pos.pow 10 k)
      | _ => SF2Prim (binary_normalize prec emax
                        ((if neg then -1 else 1) * Zpos p * Z.pow 10 e10) 0 false)
      end
  | _ => if neg then neg_zero else zero
  end.

(** The longest number literal at the start of [s]. *)
Definition scan_number (s : pystr) : option (pyvalue * pystr) :=
  let '(neg, s1) := match s with
                    | c :: r => if c =? 45 then (true, r) else (false, s)
                    | [] => (false, s)
                    end in
  match s1 with
  | [] => None
  | d :: r =>
      if is_digit d then
        let '(ip, r1) := if d =? 48 then ([d], r)
                         else let (ds, r') := take_digits r in (d :: ds, r') in
        let '(fp, r2) :=
          match r1 with
          | c :: r' =>
              if c =? 46 then
                match take_digits r' with
                | ([], _) => ([], r1)
                | (fs, r'') => (fs, r'')
                end
              else ([], r1)
          | [] => ([], r1)
          end in
        let '(ep, r3) :=
          match r2 with
          | c :: r' =>
              if (c =? 101) || (c =? 69) then
                let '(eneg, r'') :=
                  match r' with
                  | sg :: t => if sg =? 45 then (true, t)
                               else if sg =? 43 then (false, t) else (false, r')
                  | [] => (false, r')
                  end in
                match take_digits r'' with
                | ([], _) => (None, r2)
                | (es, t) => (Some (if eneg then (- digits_val es)%Z else digits_val es), t)
                end
              else (None, r2)
          | [] => (None, r2)
          end in
        match fp, ep with
        | [], None =>
            if (4300 <? length ip)%nat then None
            else Some (PyInt (if neg then (- digits_val ip)%Z else digits_val ip), r3)
        | _, _ =>
            Some (PyFloat (float_of_literal neg ip fp
                             (match ep with Some e => e | None => 0%Z end)), r3)
        end
      else None
  end.

Definition colon : pychar := 58.
Definition comma : pychar := 44.
Definition lbracket : pychar := 91.
Definition rbracket : pychar := 93.

(** One JSON value at the start of [s], and what follows it.  [fuel] bounds
    the number of nested calls; the length of the text is enough. *)
Fixpoint parse_value (fuel : nat) (s : pystr) {struct fuel} : option (pyvalue * pystr) :=
  match fuel with
  | O => None
  | S f =>
      match s with
      | [] => None
      | c :: s' =>
          if c =? dquote then
            match scan_string s' with
            | Some (t, rest) => Some (PyStr t, rest)
            | None => None
            end
          else if c =? lbrace then
            match skip_ws s' with
            | c1 :: s2 =>
                if c1 =? rbrace then Some (PyDict [], s2)
                else if c1 =? dquote then parse_members f s2 []
                else None
            | [] => None
            end
          else if c =? lbracket then
            match skip_ws s' with
            | c1 :: s2 =>
                if c1 =? rbracket then Some (PyList [], s2)
                else parse_elems f (c1 :: s2) []
            | [] => None
            end
          else
            match strip_prefix (str "null") s, strip_prefix (str "true") s,
                  strip_prefix (str "false") s, strip_prefix (str "NaN") s,
                  strip_prefix (str "Infinity") s, strip_prefix (str "-Infinity") s with
            | Some r, _, _, _, _, _ => Some (PyNone, r)
            | _, Some r, _, _, _, _ => Some (PyBool true, r)
            | _, _, Some r, _, _, _ => Some (PyBool false, r)
            | _, _, _, Some r, _, _ => Some (PyFloat nan, r)
            | _, _, _, _, Some r, _ => Some (PyFloat infinity, r)
            | _, _, _, _, _, Some r => Some (PyFloat neg_infinity, r)
            | _, _, _, _, _, _ => scan_number s
            end
      end
  end
with parse_members (fuel : nat) (s : pystr) (acc : pydict) {struct fuel}
  : option (pyvalue * pystr) :=
  match fuel with
  | O => None
  | S f =>
      match scan_string s with
      | None => None
      | Some (key, r0) =>
          match skip_ws r0 with
          | c :: r1 =>
              if c =? colon then
                match parse_value f (skip_ws r1) with
                | None => None
                | Some (v, r2) =>
                    let acc' := dict_set acc key v in
                    match skip_ws r2 with
                    | c2 :: r3 =>
                        if c2 =? rbrace then Some (PyDict acc', r3)
                        else if c2 =? comma then
                          match skip_ws r3 with
                          | c3 :: r4 => if c3 =? dquote then parse_members f r4 acc' else None
                          | [] => None
                          end
                        else None
                    | [] => None
                    end
                end
              else None
          | [] => None
          end
      end
  end
with parse_elems (fuel : nat) (s : pystr) (acc : list pyvalue) {struct fuel}
  : option (pyvalue * pystr) :=
  match fuel with
  | O => None
  | S f =>
      match parse_value f s with
      | None => None
      | Some (v, r0) =>
          match skip_ws r0 with
          | c :: r1 =>
              if c =? rbracket then Some (PyList (acc ++ [v]), r1)
              else if c =? comma then parse_elems f (skip_ws r1) (acc ++ [v])
              else None
          | [] => None
          end
      end
  end.

Definition json_loads (s : pystr) : option pyvalue :=
  match parse_value (S (length s)) (skip_ws s) with
  | Some (v, rest) =>
      match skip_ws rest with
      | [] => Some v
      | _ => None
      end
  | None => None
  end.

(* ================================================================== *)
(** ** Shared pieces of the two processors *)
(* ================================================================== *)

Definition decoder := pystr -> option pyvalue.

(** [obj[key] = v] for a string [key]. *)
Definition py_setitem (obj : pyvalue) (key : pystr) (v : pyvalue) : outcome pydict :=
  match obj with
  | PyDict d => Ok (dict_set d key v)
  | PyList _ => raise_ ExcTypeError "list indices must be integers or slices, not str"
  | _ => raise_msg ExcTypeError (quoted_type obj ++ str " object does not support item assignment")
  end.

(** [d[key]] on a dictionary; [str] of a [KeyError] is the [repr] of the
    key. *)
Definition dict_getitem (d : pydict) (key : pystr) : outcome pyvalue :=
  match dict_get d key with
  | Some v => Ok v
  | None => Raise {| exc_cls := ExcKeyError; exc_str := squote :: key ++ [squote] |}
  end.

(** [str(i)] for an [int]. *)
Definition str_of_int (i : Z) : pystr := str (NilZero.string_of_int (Z.to_int i)).

(** What a processor passes to [qwen_client.query]. *)
Record request (image : Type) : Type := {
  req_text : pystr;
  req_images : list image;
  req_max_tokens : Z;
  req_temperature : float
}.

(** A client: [query] may depend on, and change, the state of the world
    (the endpoint), and a client other than [Qwen3VLClient] may raise. *)
Definition gateway (world image : Type) : Type :=
  world -> request image -> outcome pydict * world.

(** [ext.get('success')] as a condition. *)
Definition succeeded (ext : pydict) : bool :=
  truthy (dict_get_default ext (str "success") PyNone).

(** A format specification [:.2f] applied to [v]. *)
Definition format_2f (v : pyvalue) : outcome unit :=
  match v with
  | PyFloat _ => Ok tt
  | PyBool _ => Ok tt
  | PyInt z => _ <- int_to_float z ;; Ok tt
  | PyStr _ => raise_ ExcValueError "Unknown format code 'f' for object of type 'str'"
  | _ => raise_msg ExcTypeError
            (str "unsupported format string passed to " ++ py_type_name v ++ str ".__format__")
  end.

(* ================================================================== *)
(** ** fast_processor.py *)
(* ================================================================== *)

Module FastDocumentProcessor.

(** [_parse_json].  Both fallbacks read [response] after it has been
    reassigned by the two [re.sub] calls. *)
Definition _parse_json (loads : decoder) (response : pystr) : pyvalue :=
  let response := re_sub_empty think_re response in
  let response := re_sub_empty fence_re response in
  match re_search json_re response with
  | Some m =>
      match loads m with
      | Some v => v
      | None =>
          PyDict (dict_of [(str "type", PyStr (str "document"));
                           (str "confidence", PyFloat 0.5%float);
                           (str "raw", PyStr (slice_to 200 response))])
      end
  | None =>
      PyDict (dict_of [(str "type", PyStr (str "document"));
                       (str "confidence", PyFloat 0.6%float);
                       (str "main_content", PyStr (slice_to 200 response))])
  end.

(** What [_parse_json] does with a [content] that is not a [str]: [re.sub]
    raises [TypeError], the bare [except] catches it, and its [response[:200]]
    succeeds on a list and raises again on anything else; on a mapping the
    slice is looked up as a key, which the mappings of [json.loads] do not
    have. *)
Definition _parse_json_dyn {py : interpreter} (loads : decoder) (content : pyvalue)
  : outcome pyvalue :=
  match content with
  | PyStr s => Ok (_parse_json loads s)
  | PyList l =>
      Ok (PyDict (dict_of [(str "type", PyStr (str "document"));
                           (str "confidence", PyFloat 0.5%float);
                           (str "raw", PyList (firstn 200 l))]))
  | PyDict _ =>
      if hashable_slices then raise_ ExcKeyError "slice(None, 200, None)"
      else raise_ ExcTypeError "unhashable type: 'slice'"
  | _ => raise_msg ExcTypeError (quoted_type content ++ str " object is not subscriptable")
  end.

Definition prompt : pystr :=
  jstr "Analyze this document. Return JSON only:

{
  'type': 'invoice/receipt/form/table/report/letter/other',
  'confidence': 0.9,
  'main_content': 'brief summary',
  'key_data': {'field': 'value'},
  'amounts': {'total': ''},
  'dates': ['']
}

Be concise. JSON only, no explanation.".

(** The record [_extract_page_fast] builds from the gateway's answer. *)
Definition page_record {py : interpreter} (loads : decoder) (result : pydict) (page_num : Z)
  : outcome pydict :=
  success <- dict_getitem result (str "success") ;;
  if truthy success then
    content <- dict_getitem result (str "content") ;;
    parsed <- _parse_json_dyn loads content ;;
    parsed <- py_setitem parsed (str "page") (PyInt page_num) ;;
    py_setitem (PyDict parsed) (str "success") (PyBool true)
  else
    Ok (dict_of [(str "page", PyInt page_num);
                 (str "success", PyBool false);
                 (str "error", dict_get_default result (str "error") (PyStr (str "Unknown error")));
                 (str "type", PyStr (str "unknown"));
                 (str "confidence", PyFloat 0%float)]).

(** [_extract_page_fast] *)
Definition _extract_page_fast {py : interpreter} {world image : Type}
  (query : gateway world image)
  (loads : decoder) (w : world) (img : image) (page_num : Z) : outcome pydict * world :=
  let '(r, w') := query w {| req_text := prompt; req_images := [img];
                             req_max_tokens := 500; req_temperature := 0.1%float |} in
  (result <- r ;; page_record loads result page_num, w').

(** The loop of [_combine_simple] that picks the document type. *)
Fixpoint doc_type_loop (extractions : list pydict) (doc_type : pyvalue) : pyvalue :=
  match extractions with
  | [] => doc_type
  | ext :: rest =>
      if succeeded ext && dict_has ext (str "type")
      then dict_get_default ext (str "type") PyNone
      else doc_type_loop rest doc_type
  end.

(** [[e.get('confidence', 0.5) for e in extractions if e.get('success')]] *)
Definition confidences (extractions : list pydict) : list pyvalue :=
  map (fun e => dict_get_default e (str "confidence") (PyFloat 0.5%float))
      (filter succeeded extractions).

(** [sum(confidences) / len(confidences) if confidences else 0.6] *)
Definition avg_conf {py : interpreter} (cs : list pyvalue) : outcome float :=
  match cs with
  | [] => Ok 0.6%float
  | _ :: _ => total <- py_sum cs ;; py_truediv_int total (Pos.of_nat (length cs))
  end.

(** [_combine_simple] *)
Definition _combine_simple {py : interpreter} (extractions : list pydict) (total_pages : Z)
  : outcome pydict :=
  let doc_type := doc_type_loop extractions (PyStr (str "document")) in
  avg <- avg_conf (confidences extractions) ;;
  Ok (dict_of [(str "document_type", doc_type);
               (str "total_pages", PyInt total_pages);
               (str "processed_pages", PyInt (Z.of_nat (length extractions)));
               (str "confidence", PyFloat (round2 avg));
               (str "extracted_content",
                 PyDict (dict_of [(str "pages", PyList (map PyDict extractions))]));
               (str "status", PyStr (str "success"));
               (str "note", PyStr (if (3 <? total_pages)%Z
                                   then str "Fast mode - first 3 pages only"
                                   else str "Fast mode"))]).

(** The loop of [process_document]: [enumerate(pages_to_process, 1)]. *)
Fixpoint extract_loop {py : interpreter} {world image : Type}
  (query : gateway world image) (loads : decoder)
  (w : world) (i : Z) (pages : list image) (extractions : list pydict)
  : outcome (list pydict) * world :=
  match pages with
  | [] => (Ok extractions, w)
  | img :: rest =>
      match _extract_page_fast query loads w img i with
      | (Ok extraction, w') => extract_loop query loads w' (i + 1) rest (extractions ++ [extraction])
      | (Raise e, w') => (Raise e, w')
      end
  end.

(** [process_document].  The logging line formats [result['confidence']],
    which is a [float] here, so it does not raise. *)
Definition process_document {py : interpreter} {world image : Type}
  (query : gateway world image)
  (loads : decoder) (w : world) (images : list image) : outcome pydict * world :=
  let pages_to_process := firstn (Nat.min 3 (length images)) images in
  match extract_loop query loads w 1 pages_to_process [] with
  | (Ok extractions, w') => (_combine_simple extractions (Z.of_nat (length images)), w')
  | (Raise e, w') => (Raise e, w')
  end.

End FastDocumentProcessor.

(* ================================================================== *)
(** ** simple_processor.py *)
(* ================================================================== *)

Module SimpleDocumentProcessor.

(** [_parse_response] *)
Definition _parse_response (loads : decoder) (response : pystr) : pyvalue :=
  let response := re_sub_empty fence_json_re response in
  let response := re_sub_empty fence_any_re response in
  let response := re_sub_empty think_re response in
  match re_search json_greedy_re response with
  | Some m =>
      match loads m with
      | Some v => v
      | None => PyDict (dict_of [(str "raw_content", PyStr response)])
      end
  | None => PyDict (dict_of [(str "raw_content", PyStr response)])
  end.

(** [_parse_response] on a [content] that is not a [str]: [re.sub] raises
    [TypeError], which [except Exception] catches. *)
Definition _parse_response_dyn (loads : decoder) (content : pyvalue) : pyvalue :=
  match content with
  | PyStr s => _parse_response loads s
  | _ => PyDict (dict_of [(str "raw_content", content)])
  end.

Definition prompt (i : Z) : pystr :=
  str "Analyze this document page " ++ str_of_int i ++
  jstr " and extract ALL information in JSON format.

Provide:
{
  'document_type': '[invoice/receipt/form/report/research_paper/letter/other]',
  'confidence': 0.0-1.0,
  'text_content': 'all readable text',
  'key_fields': {
    'field_name': 'value'
  },
  'tables': [
    {'description': 'table description', 'data': []}
  ],
  'amounts': {'subtotal': '', 'tax': '', 'total': ''},
  'dates': [],
  'important_info': []
}

Extract EVERYTHING you see. Return ONLY valid JSON, no explanation.".

(** The record [_extract_all_pages] appends for page [i]. *)
Definition page_record (loads : decoder) (result : pydict) (i : Z) : outcome pydict :=
  success <- dict_getitem result (str "success") ;;
  if truthy success then
    content <- dict_getitem result (str "content") ;;
    py_setitem (_parse_response_dyn loads content) (str "page_number") (PyInt i)
  else
    error <- dict_getitem result (str "error") ;;
    Ok (dict_of [(str "page_number", PyInt i); (str "error", error)]).

(** The loop of [_extract_all_pages]: [enumerate(images, 1)]. *)
Fixpoint extract_loop {world image : Type} (query : gateway world image) (loads : decoder)
  (w : world) (i : Z) (images : list image) (results : list pydict)
  : outcome (list pydict) * world :=
  match images with
  | [] => (Ok results, w)
  | img :: rest =>
      let '(r, w') := query w {| req_text := prompt i; req_images := [img];
                                 req_max_tokens := 800; req_temperature := 0.1%float |} in
      match (result <- r ;; page_record loads result i) with
      | Ok rec => extract_loop query loads w' (i + 1) rest (results ++ [rec])
      | Raise e => (Raise e, w')
      end
  end.

(** [_extract_all_pages] *)
Definition _extract_all_pages {world image : Type} (query : gateway world image)
  (loads : decoder) (w : world) (images : list image) : outcome (list pydict) * world :=
  extract_loop query loads w 1 images [].

(** [_format_single_page] *)
Definition _format_single_page (extraction : pydict) : pydict :=
  dict_of [(str "document_type", dict_get_default extraction (str "document_type") (PyStr (str "unknown")));
           (str "total_pages", PyInt 1);
           (str "confidence", dict_get_default extraction (str "confidence") (PyFloat 0.7%float));
           (str "extracted_content", PyDict extraction);
           (str "processing_time", PyStr (str "fast"));
           (str "status", PyStr (str "success"))].

(** [[e.get('confidence', 0.5) for e in extractions if 'confidence' in e]] *)
Definition confidences (extractions : list pydict) : list pyvalue :=
  map (fun e => dict_get_default e (str "confidence") (PyFloat 0.5%float))
      (filter (fun e => dict_has e (str "confidence")) extractions).

(** [sum(confidences) / len(confidences) if confidences else 0.7] *)
Definition avg_confidence {py : interpreter} (cs : list pyvalue) : outcome float :=
  match cs with
  | [] => Ok 0.7%float
  | _ :: _ => total <- py_sum cs ;; py_truediv_int total (Pos.of_nat (length cs))
  end.

(** [_combine_pages] *)
Definition _combine_pages {py : interpreter} (extractions : list pydict) : outcome pydict :=
  match extractions with
  | [] => raise_ ExcIndexError "list index out of range"
  | first :: _ =>
      let doc_type := dict_get_default first (str "document_type") (PyStr (str "unknown")) in
      avg <- avg_confidence (confidences extractions) ;;
      let combined := dict_of [(str "document_type", doc_type);
                               (str "pages", PyList (map PyDict extractions))] in
      Ok (dict_of [(str "document_type", doc_type);
                   (str "total_pages", PyInt (Z.of_nat (length extractions)));
                   (str "confidence", PyFloat avg);
                   (str "extracted_content", PyDict combined);
                   (str "processing_time", PyStr (str "optimized"));
                   (str "status", PyStr (str "success"))])
  end.

(** [process_document]; the logging line formats
    [final_result.get('confidence', 0)] with [:.2f] before the result is
    returned. *)
Definition process_document {py : interpreter} {world image : Type}
  (query : gateway world image)
  (loads : decoder) (w : world) (images : list image) : outcome pydict * world :=
  match _extract_all_pages query loads w images with
  | (Raise e, w') => (Raise e, w')
  | (Ok extractions, w') =>
      (final_result <-
         (if (length images =? 1)%nat
          then match extractions with
               | first :: _ => Ok (_format_single_page first)
               | [] => raise_ ExcIndexError "list index out of range"
               end
          else _combine_pages extractions) ;;
       _ <- format_2f (dict_get_default final_result (str "confidence") (PyInt 0)) ;;
       Ok final_result, w')
  end.

End SimpleDocumentProcessor.


(* ================================================================== *)
(** ** models/qwen_client.py *)
(* ================================================================== *)

(** [needle in haystack] for two strings. *)
Fixpoint is_substring (needle hay : pystr) : bool :=
  match strip_prefix needle hay with
  | Some _ => true
  | None =>
      match hay with
      | [] => false
      | _ :: hay' => is_substring needle hay'
      end
  end.

(** [key in obj] for a string [key]. *)
Definition py_contains (obj : pyvalue) (key : pystr) : outcome bool :=
  match obj with
  | PyDict d => Ok (dict_has d key)
  | PyList l => Ok (existsb (fun v => match v with PyStr s => str_eqb s key | _ => false end) l)
  | PyStr s => Ok (is_substring key s)
  | _ => raise_msg ExcTypeError
            (str "argument of type " ++ quoted_type obj ++ str " is not iterable")
  end.

(** [obj[key]] for a string [key]. *)
Definition py_getitem_str (obj : pyvalue) (key : pystr) : outcome pyvalue :=
  match obj with
  | PyDict d => dict_getitem d key
  | PyList _ => raise_ ExcTypeError "list indices must be integers or slices, not str"
  | PyStr _ => raise_ ExcTypeError "string indices must be integers, not 'str'"
  | _ => raise_msg ExcTypeError (quoted_type obj ++ str " object is not subscriptable")
  end.

(** [obj[0]] *)
Definition py_getitem_0 (obj : pyvalue) : outcome pyvalue :=
  match obj with
  | PyList (v :: _) => Ok v
  | PyList [] => raise_ ExcIndexError "list index out of range"
  | PyStr (c :: _) => Ok (PyStr [c])
  | PyStr [] => raise_ ExcIndexError "string index out of range"
  | PyDict _ => raise_ ExcKeyError "0"
  | _ => raise_msg ExcTypeError (quoted_type obj ++ str " object is not subscriptable")
  end.

(** [len(obj)] *)
Definition py_len (obj : pyvalue) : outcome nat :=
  match obj with
  | PyList l => Ok (length l)
  | PyStr s => Ok (length s)
  | PyDict d => Ok (length d)
  | _ => raise_msg ExcTypeError (str "object of type " ++ quoted_type obj ++ str " has no len()")
  end.

(** [obj.get(key, default)] *)
Definition py_get (obj : pyvalue) (key : pystr) (default : pyvalue) : outcome pyvalue :=
  match obj with
  | PyDict d => Ok (dict_get_default d key default)
  | _ => raise_msg ExcOther (quoted_type obj ++ str " object has no attribute 'get'")
  end.

(** The items [for m in obj] visits: the items of a list, the keys of a
    dictionary, the characters of a string. *)
Definition py_iter (obj : pyvalue) : outcome (list pyvalue) :=
  match obj with
  | PyList l => Ok l
  | PyDict d => Ok (map (fun kv => PyStr (fst kv)) d)
  | PyStr s => Ok (map (fun c => PyStr [c]) s)
  | _ => raise_msg ExcTypeError (quoted_type obj ++ str " object is not iterable")
  end.

Module Qwen3VLClient.

(** What [query] accepts as an image: a path, a PIL image, or anything
    else (given by the name of its type). *)
Inductive image_input (image : Type) : Type :=
| InPath (path : pystr)
| InImage (img : image)
| InOther (type_name : pystr).
Arguments InPath {image} path.
Arguments InImage {image} img.
Arguments InOther {image} type_name.

(** The collaborators of one call: the file system, PIL, [base64] and the
    [requests] session.  Each may raise any exception that derives from
    [Exception]; signals such as [KeyboardInterrupt] are not modelled. *)
Record environment (image response : Type) : Type := {
  read_file : pystr -> outcome (list N);
  save_png : image -> outcome (list N);
  b64encode : list N -> pystr;
  session_post : pystr -> pyvalue -> Z -> outcome response;
  raise_for_status : response -> outcome unit;
  response_json : response -> outcome pyvalue
}.

(** The attributes [__init__] sets. *)
Record client : Type := {
  base_url : pystr;
  model_name : pystr;
  timeout : Z
}.

Definition default_client : client :=
  {| base_url := str "http://localhost:1234/v1";
     model_name := str "qwen3vl-4b";
     timeout := 240 |}.

Section Query.
Context {image response : Type}.
Variable env : environment image response.
Variable self : client.

(** [_image_to_base64]: its handler logs and raises the exception again. *)
Definition _image_to_base64 (image_input_ : image_input image) : outcome pystr :=
  match image_input_ with
  | InPath path => img_bytes <- read_file env path ;; Ok (b64encode env img_bytes)
  | InImage img => png <- save_png env img ;; Ok (b64encode env png)
  | InOther type_name =>
      Raise {| exc_cls := ExcValueError;
               exc_str := str "Unsupported image input type: " ++ type_name |}
  end.

(** The loop that appends one [image_url] part per image. *)
Fixpoint add_images (images : list (image_input image)) (content : list pyvalue)
  : outcome (list pyvalue) :=
  match images with
  | [] => Ok content
  | img :: rest =>
      img_b64 <- _image_to_base64 img ;;
      add_images rest
        (content ++
         [PyDict (dict_of
            [(str "type", PyStr (str "image_url"));
             (str "image_url",
               PyDict (dict_of [(str "url", PyStr (str "data:image/png;base64," ++ img_b64))]))])])
  end.

Definition failure (error : pystr) : pydict :=
  dict_of [(str "success", PyBool false);
           (str "content", PyStr []);
           (str "error", PyStr error)].

(** The body of the [try] statement of [query]. *)
Definition query_try (text : pystr) (images : option (list (image_input image)))
  (max_tokens : Z) (temperature : float) (stream : bool)
  (kwargs : list (pystr * pyvalue)) : outcome pydict :=
  let content := [PyDict (dict_of [(str "type", PyStr (str "text")); (str "text", PyStr text)])] in
  content <- match images with
             | Some (i :: rest) => add_images (i :: rest) content
             | _ => Ok content
             end ;;
  let payload :=
    PyDict (dict_of
      ([(str "model", PyStr (model_name self));
        (str "messages",
          PyList [PyDict (dict_of [(str "role", PyStr (str "user"));
                                   (str "content", PyList content)])]);
        (str "max_tokens", PyInt max_tokens);
        (str "temperature", PyFloat temperature);
        (str "stream", PyBool stream)] ++ kwargs)) in
  resp <- session_post env (base_url self ++ str "/chat/completions") payload (timeout self) ;;
  _ <- raise_for_status env resp ;;
  result <- response_json env resp ;;
  has_choices <- py_contains result (str "choices") ;;
  nonempty <- (if has_choices
               then choices <- py_getitem_str result (str "choices") ;;
                    n <- py_len choices ;;
                    Ok (0 <? n)%nat
               else Ok false) ;;
  if nonempty then
    choices <- py_getitem_str result (str "choices") ;;
    choice <- py_getitem_0 choices ;;
    message <- py_getitem_str choice (str "message") ;;
    content <- py_getitem_str message (str "content") ;;
    match result with
    | PyDict d =>
        Ok (dict_of [(str "success", PyBool true);
                     (str "content", content);
                     (str "model", dict_get_default d (str "model") (PyStr (model_name self)));
                     (str "usage", dict_get_default d (str "usage") (PyDict []));
                     (str "raw_response", result)])
    | _ => raise_msg ExcOther (quoted_type result ++ str " object has no attribute 'get'")
    end
  else Ok (failure (str "Unexpected response format")).

(** The three [except] clauses of [query], in their order: [Timeout], then
    [RequestException] (of which [Timeout] is a subclass), then
    [Exception]. *)
Definition is_timeout (e : exc) : bool :=
  match exc_cls e with ExcTimeout => true | _ => false end.

Definition is_request_exception (e : exc) : bool :=
  match exc_cls e with ExcTimeout | ExcRequestException => true | _ => false end.

Definition is_exception (e : exc) : bool := true.

(** [query] *)
Definition query (text : pystr) (images : option (list (image_input image)))
  (max_tokens : Z) (temperature : float) (stream : bool)
  (kwargs : list (pystr * pyvalue)) : outcome pydict :=
  match query_try text images max_tokens temperature stream kwargs with
  | Ok d => Ok d
  | Raise e =>
      if is_timeout e then Ok (failure (str "Request timeout"))
      else if is_request_exception e then Ok (failure (exc_str e))
      else if is_exception e then Ok (failure (exc_str e))
      else Raise e
  end.

End Query.

(** The client as a [gateway]: the world is the number of calls made so
    far, and [envs n] is what the call after [n] calls meets. *)
Definition as_gateway {image response : Type} (envs : nat -> environment image response)
  (self : client) : gateway nat image :=
  fun n req =>
    (query (envs n) self (req_text req) (Some (map InImage (req_images req)))
           (req_max_tokens req) (req_temperature req) false [], S n).

(** What [test_connection] and [get_available_models] use of the session:
    [session.get], and the status code and the decoded body of its
    response. *)
Record models_endpoint (response : Type) : Type := {
  session_get : pystr -> Z -> outcome response;
  status_code : response -> Z;
  models_json : response -> outcome pyvalue
}.

Section Models.
Context {response : Type}.
Variable env : models_endpoint response.
Variable self : client.

(** [test_connection]: its bare [except] turns every exception into
    [False]. *)
Definition test_connection : bool :=
  match session_get env (base_url self ++ str "/models") 5 with
  | Ok resp => (status_code env resp =? 200)%Z
  | Raise _ => false
  end.

(** [[m['id'] for m in ms]] *)
Fixpoint model_ids (ms : list pyvalue) : outcome (list pyvalue) :=
  match ms with
  | [] => Ok []
  | m :: rest =>
      id <- py_getitem_str m (str "id") ;;
      ids <- model_ids rest ;;
      Ok (id :: ids)
  end.

(** The body of the [try] statement of [get_available_models]. *)
Definition get_available_models_try : outcome (list pyvalue) :=
  resp <- session_get env (base_url self ++ str "/models") 5 ;;
  if (status_code env resp =? 200)%Z then
    data <- models_json env resp ;;
    entries <- py_get data (str "data") (PyList []) ;;
    ms <- py_iter entries ;;
    model_ids ms
  else Ok [].

(** [get_available_models]: its bare [except] turns every exception into
    the empty list. *)
Definition get_available_models : list pyvalue :=
  match get_available_models_try with
  | Ok ids => ids
  | Raise _ => []
  end.

End Models.

End Qwen3VLClient.


(* ================================================================== *)
(** ** utils/document_processor.py *)
(* ================================================================== *)

Module DocumentProcessor.

(** The collaborators: [pathlib] and [str.lower], [pdf2image], [pdfplumber]
    and PIL.  A document that [pdfplumber] opened is given by its pages,
    each with what [extract_text] does on it, and by what closing it does
    when the [with] block is left. *)
Record environment (image : Type) : Type := {
  path_suffix : pystr -> pystr;
  str_lower : pystr -> pystr;
  convert_from_path : pystr -> Z -> option pystr -> outcome (list image);
  pdfplumber_open : pystr -> outcome (list (outcome (option pystr)));
  pdfplumber_close : pystr -> outcome unit;
  image_open : pystr -> outcome image;
  image_mode : image -> pystr;
  image_convert : image -> pystr -> outcome image
}.

(** The attributes [__init__] sets. *)
Record processor : Type := {
  dpi : Z;
  poppler_path : option pystr
}.

Definition default_processor : processor := {| dpi := 200; poppler_path := None |}.

Definition supported_extensions : list pystr :=
  [str ".pdf"; str ".png"; str ".jpg"; str ".jpeg"; str ".tiff"; str ".bmp"].

Section Methods.
Context {image : Type}.
Variable env : environment image.
Variable self : processor.

(** [is_supported] *)
Definition is_supported (file_path : pystr) : bool :=
  existsb (str_eqb (str_lower env (path_suffix env file_path))) supported_extensions.

(** [pdf_to_images]: its handler logs and raises the exception again. *)
Definition pdf_to_images (pdf_path : pystr) : outcome (list image) :=
  convert_from_path env pdf_path (dpi self) (poppler_path self).

(** The loop of [extract_text_pdfplumber]: [page.extract_text() or ""] is
    appended for each page. *)
Fixpoint page_texts (pages : list (outcome (option pystr))) (texts : list pystr)
  : outcome (list pystr) :=
  match pages with
  | [] => Ok texts
  | page :: rest =>
      text <- page ;;
      page_texts rest (texts ++ [match text with
                                 | Some (c :: t) => c :: t
                                 | _ => []
                                 end])
  end.

(** [extract_text_pdfplumber]: every exception gives the empty list. *)
Definition extract_text_pdfplumber (pdf_path : pystr) : list pystr :=
  match (pages <- pdfplumber_open env pdf_path ;;
         match page_texts pages [] with
         | Ok texts => _ <- pdfplumber_close env pdf_path ;; Ok texts
         | Raise e => match pdfplumber_close env pdf_path with
                      | Ok _ => Raise e
                      | Raise e' => Raise e'
                      end
         end) with
  | Ok texts => texts
  | Raise _ => []
  end.

(** [load_image]: its handler logs and raises the exception again. *)
Definition load_image (image_path : pystr) : outcome image :=
  img <- image_open env image_path ;;
  if str_eqb (image_mode env img) (str "RGB") then Ok img
  else image_convert env img (str "RGB").

(** [process_document] *)
Definition process_document (file_path : pystr) : outcome (list image * list pystr) :=
  if negb (is_supported file_path) then
    Raise {| exc_cls := ExcValueError;
             exc_str := str "Unsupported file type: " ++ path_suffix env file_path |}
  else if str_eqb (str_lower env (path_suffix env file_path)) (str ".pdf") then
    images <- pdf_to_images file_path ;;
    Ok (images, extract_text_pdfplumber file_path)
  else
    img <- load_image file_path ;;
    Ok ([img], []).

End Methods.

End DocumentProcessor.

(* ================================================================== *)
(** ** demo_fast.py *)
(* ================================================================== *)

Module DemoFast.

(** The collaborators of [process_file]: the progress bar of Gradio, the
    clock ([time n] is what the call of [time.time()] after [n] calls
    returns), the formatting of the f-string ([format_value] for a
    replacement field without format specification, [format_1f] for
    [:.1f]), [str.upper] and [json.dumps(..., indent=2)]. *)
Record environment : Type := {
  progress : float -> pystr -> outcome unit;
  time : nat -> float;
  format_value : pyvalue -> outcome pystr;
  format_1f : float -> pystr;
  str_upper : pystr -> pystr;
  json_dumps : pyvalue -> outcome pystr
}.

(** The objects the module creates when it is loaded. *)
Definition client : Qwen3VLClient.client :=
  {| Qwen3VLClient.base_url := str "http://localhost:1234/v1";
     Qwen3VLClient.model_name := str "qwen3vl-4b";
     Qwen3VLClient.timeout := 120 |}.

Definition doc_utils : DocumentProcessor.processor :=
  {| DocumentProcessor.dpi := 100; DocumentProcessor.poppler_path := None |}.

Definition warning_sign : pystr := [9888; 65039].
Definition check_mark : pystr := [9989].
Definition cross_mark : pystr := [10060].

(** [type(v).__name__] *)
Definition type_name (v : pyvalue) : pystr :=
  match v with
  | PyNone => str "NoneType"
  | PyBool _ => str "bool"
  | PyInt _ => str "int"
  | PyFloat _ => str "float"
  | PyStr _ => str "str"
  | PyList _ => str "list"
  | PyDict _ => str "dict"
  end.

(** What [process_file] returns: status, extracted JSON, confidence and
    elapsed time. *)
Definition outputs : Type := (pystr * pystr * pyvalue * float)%type.

Section ProcessFile.
Context {py : interpreter} {world image : Type}.
Variable env : environment.
Variable docs : DocumentProcessor.environment image.
Variable query : gateway world image.
Variable loads : decoder.

(** [doc_type.upper()] *)
Definition upper (doc_type : pyvalue) : outcome pystr :=
  match doc_type with
  | PyStr s => Ok (str_upper env s)
  | _ => Raise {| exc_cls := ExcOther;
                  exc_str := squote :: type_name doc_type
                             ++ squote :: str " object has no attribute 'upper'" |}
  end.

(** The loading step: a PDF goes through [process_document], any other
    file through [load_image]. *)
Definition load (file_path : pystr) : outcome (list image) :=
  if str_eqb (DocumentProcessor.str_lower docs (DocumentProcessor.path_suffix docs file_path))
             (str ".pdf")
  then
    r <- DocumentProcessor.process_document docs doc_utils file_path ;;
    Ok (fst r)
  else
    img <- DocumentProcessor.load_image docs file_path ;;
    Ok [img].

(** What follows [processor.process_document] in the [try] body. *)
Definition format_result (start : float) (result : pydict) : outcome outputs :=
  _ <- progress env 1%float (str "Done!") ;;
  let elapsed := (time env 1 - start)%float in
  let doc_type := dict_get_default result (str "document_type") (PyStr (str "unknown")) in
  let confidence := dict_get_default result (str "confidence") (PyFloat 0%float) in
  let pages := dict_get_default result (str "total_pages") (PyInt 0) in
  pages_text <- format_value env pages ;;
  type_text <- upper doc_type ;;
  let status := check_mark ++ str " **" ++ pages_text ++ str " page(s)** processed in **"
                ++ format_1f env elapsed ++ str "s** | Type: **" ++ type_text ++ str "**" in
  extracted <- json_dumps env (dict_get_default result (str "extracted_content") (PyDict [])) ;;
  Ok (status, extracted, confidence, elapsed).

(** The body of the [try] statement of [process_file], for the file whose
    [name] is [file_name]. *)
Definition process_file_try (w : world) (file_name : pystr) : outcome outputs * world :=
  match progress env 0%float (str "Loading document...") with
  | Raise e => (Raise e, w)
  | Ok _ =>
      let start := time env 0 in
      match load file_name with
      | Raise e => (Raise e, w)
      | Ok images =>
          match progress env 0.3%float (str "Processing with AI...") with
          | Raise e => (Raise e, w)
          | Ok _ =>
              match FastDocumentProcessor.process_document query loads w images with
              | (Raise e, w') => (Raise e, w')
              | (Ok result, w') => (format_result start result, w')
              end
          end
      end
  end.

(** [process_file] *)
Definition process_file (w : world) (file : option pystr) : outputs * world :=
  match file with
  | None => ((warning_sign ++ str " Upload a document", str "{}", PyFloat 0%float, 0%float), w)
  | Some file_name =>
      match process_file_try w file_name with
      | (Ok out, w') => (out, w')
      | (Raise e, w') =>
          ((cross_mark ++ str " Error: " ++ exc_str e, str "{}", PyFloat 0%float, 0%float), w')
      end
  end.

End ProcessFile.

End DemoFast.


(* ================================================================== *)
(** ** Definitions used to state the properties *)
(* ================================================================== *)

(** *** Characters and texts *)

Definition lt_char : pychar := 60.
Definition backtick : pychar := 96.

(** [absent c s]: the character [c] does not occur in [s]. *)
Definition absent (c : pychar) (s : pystr) : bool :=
  forallb (fun x => negb (x =? c)) s.

(** The same as a proposition. *)
Definition lacks (c : pychar) (s : pystr) : Prop := Forall (fun x => x <> c) s.

(** [s] without its longest prefix of characters that satisfy [p]. *)
Fixpoint drop_while (p : pychar -> bool) (s : pystr) : pystr :=
  match s with
  | c :: s' => if p c then drop_while p s' else s
  | [] => []
  end.

(** *** What the matcher does with its continuation and its text *)

(** A matcher uses its continuation only through its values. *)
Definition ext_in_cont (mr : pystr -> cont -> option pystr) : Prop :=
  forall s k1 k2, (forall x, k1 x = k2 x) -> mr s k1 = mr s k2.

(** The characters a pattern can consume. *)
Fixpoint consumes (r : regex) (c : pychar) : bool :=
  match r with
  | REps => false
  | RLit c' => c' =? c
  | RStr p => char_in c p
  | RAny => true
  | RSpace => is_space c
  | RNoneOf cs => negb (char_in c cs)
  | RSeq r1 r2 | RAlt r1 r2 => consumes r1 c || consumes r2 c
  | RStar r1 | RLazy r1 => consumes r1 c
  end.

(** A success of a matcher is a success of its continuation on a suffix of
    the text, and the characters before that suffix satisfy [ok]. *)
Definition inv_spec (ok : pychar -> bool) (mr : pystr -> cont -> option pystr) : Prop :=
  forall s k x, mr s k = Some x ->
    exists m s', s = m ++ s' /\ k s' = Some x /\ Forall (fun c => ok c = true) m.

(** *** Brace spans *)

(** The end of a brace span, scanned from just after its opening brace:
    [inner] tells whether the scan is inside a nested pair of braces. *)
Fixpoint span_end (inner : bool) (s : pystr) : option pystr :=
  match s with
  | [] => None
  | c :: s' =>
      if c =? lbrace then (if inner then None else span_end true s')
      else if c =? rbrace then (if inner then span_end false s' else Some s')
      else span_end inner s'
  end.

(** A brace span with at most one level of nesting, every brace character
    counted: an opening brace, then text in which every further opening
    brace is closed before the next one opens, up to the closing brace that
    ends the text. *)
Definition one_level (obj : pystr) : bool :=
  match obj with
  | c :: body =>
      (c =? lbrace) &&
      match span_end false body with
      | Some [] => true
      | _ => false
      end
  | [] => false
  end.

(** What follows the last closing brace of [s]. *)
Fixpoint after_last_rbrace (s : pystr) : option pystr :=
  match s with
  | [] => None
  | c :: s' =>
      match after_last_rbrace s' with
      | Some r => Some r
      | None => if rbrace =? c then Some s' else None
      end
  end.

(** The character class, the group and the last step of [json_re]. *)
Definition is_plain (c : pychar) : bool := negb (char_in c [lbrace; rbrace]).

Definition group_re : regex :=
  rseq [RLit lbrace; RStar not_brace; RLit rbrace; RStar not_brace].

Definition k_close : cont := fun s => re_match (RLit rbrace) s (fun s' => re_match REps s' Some).

(** *** Wrapped model output *)

(** A text between braces. *)
Definition braced (mid : pystr) : pystr := lbrace :: mid ++ [rbrace].

(** A reasoning block. *)
Definition think_block (t : pystr) : pystr := str "<think>" ++ t ++ str "</think>".

(** The reasoning block in front of the answer, when there is one. *)
Definition wrapper (think : option pystr) : pystr :=
  match think with
  | Some t => think_block t
  | None => []
  end.

(** The text [p] does not occur in the reasoning block, when there is
    one. *)
Definition think_lacks (p : pystr) (think : option pystr) : bool :=
  match think with
  | Some t => negb (is_substring p t)
  | None => true
  end.

(** [c] does not occur in the reasoning block, when there is one. *)
Definition think_absent (c : pychar) (think : option pystr) : bool :=
  match think with
  | Some t => absent c t
  | None => true
  end.

(** A text before the object that the thorough normalizer leaves harmless:
    no [<] and no opening brace. *)
Definition plain_prefix (x : pystr) : Prop :=
  Forall (fun z => z <> lt_char /\ z <> lbrace) x.

(** A decoder, applied to a text that starts with an opening brace, gives a
    mapping when it does not raise. *)
Definition decodes_objects (loads : decoder) : Prop :=
  forall m v, loads (lbrace :: m) = Some v -> exists d, v = PyDict d.

(** An answer as the model gives it: a reasoning block, then a fenced JSON
    object with one nested object and no [confidence]. *)
Definition fenced_answer : pystr :=
  jstr "<think>The page is an invoice.</think>```json
{'type': 'invoice', 'total': {'amount': 12.5}}
```".

(** *** Aggregation *)

(** The arithmetic mean of a list of floats, as the specification words it:
    the sum divided by the count.  The sum is the one the interpreter's
    [sum] gives for floats: the additions from the left, each rounded, or
    the compensated sum. *)
Definition float_sum {py : interpreter} (fs : list float) : float :=
  match float_summation with
  | LeftToRight => fold_left PrimFloat.add fs 0%float
  | Compensated =>
      match fs with
      | [] => 0%float
      | f :: rest => compensated (fold_left neumaier_step rest ((0 + f)%float, 0%float))
      end
  end.

Definition spec_mean {py : interpreter} (fs : list float) : float :=
  (float_sum fs / float_of_Z (Z.of_nat (length fs)))%float.

(** Three successful page records whose confidences the two summations
    of [sum] add to different floats. *)
Definition three_confidences : list pydict :=
  map (fun c => [(str "type", PyStr (str "invoice")); (str "confidence", PyFloat c);
                 (str "success", PyBool true)])
      [0.037%float; 0.482%float; 0.186%float].

(** A record of a successful page that has a [type]. *)
Definition typed_success (e : pydict) : bool := succeeded e && dict_has e (str "type").

Definition float_or_absent (v : option pyvalue) : Prop :=
  match v with
  | None => True
  | Some (PyFloat _) => True
  | Some _ => False
  end.

(** The confidence of a record, when it has one, is a float. *)
Definition conf_ok (e : pydict) : Prop := float_or_absent (dict_get e (str "confidence")).

(** A record without a confidence. *)
Definition no_conf (e : pydict) : Prop := dict_has e (str "confidence") = false.

(** *** Gateways *)

(** An answer of the gateway from which a record with a float confidence is
    built: a failure, or a success whose content is a text that the
    normalizer turns into a mapping whose confidence, if any, is a float. *)
Definition good_answer (loads : decoder) (result : pydict) : Prop :=
  exists sv, dict_get result (str "success") = Some sv /\
    (truthy sv = true ->
     exists s d, dict_get result (str "content") = Some (PyStr s) /\
       FastDocumentProcessor._parse_json loads s = PyDict d /\ conf_ok d).

(** A failure with its reason. *)
Definition failed_answer (result : pydict) : Prop :=
  exists sv err, dict_get result (str "success") = Some sv /\ truthy sv = false /\
    dict_get result (str "error") = Some err.

(** Every call of the gateway returns an answer that satisfies [P]. *)
Definition answers {world image : Type} (query : gateway world image)
  (P : pydict -> Prop) : Prop :=
  forall w req, exists result w', query w req = (Ok result, w') /\ P result.

(** The text the endpoint generated, read off the decoded response. *)
Definition generated_content (result : pyvalue) : outcome pyvalue :=
  choices <- py_getitem_str result (str "choices") ;;
  choice <- py_getitem_0 choices ;;
  message <- py_getitem_str choice (str "message") ;;
  py_getitem_str message (str "content").

(** An endpoint that answers every request with the completion [content]. *)
Definition answering_env (content : pyvalue) : Qwen3VLClient.environment unit unit :=
  {| Qwen3VLClient.read_file := fun _ => Ok [];
     Qwen3VLClient.save_png := fun _ => Ok [137; 80; 78; 71];
     Qwen3VLClient.b64encode := fun _ => str "iVBORw==";
     Qwen3VLClient.session_post := fun _ _ _ => Ok tt;
     Qwen3VLClient.raise_for_status := fun _ => Ok tt;
     Qwen3VLClient.response_json := fun _ =>
       Ok (PyDict [(str "choices",
                    PyList [PyDict [(str "message",
                                     PyDict [(str "content", content)])]])]) |}.

(** An endpoint at which [session.post] raises [e]. *)
Definition post_raising_env (e : exc) : Qwen3VLClient.environment unit unit :=
  {| Qwen3VLClient.read_file := fun _ => Ok [];
     Qwen3VLClient.save_png := fun _ => Ok [137; 80; 78; 71];
     Qwen3VLClient.b64encode := fun _ => str "iVBORw==";
     Qwen3VLClient.session_post := fun _ _ _ => Raise e;
     Qwen3VLClient.raise_for_status := fun _ => Ok tt;
     Qwen3VLClient.response_json := fun _ => Ok PyNone |}.

(** An environment in which PIL fails to encode the image with [e]. *)
Definition save_raising_env (e : exc) : Qwen3VLClient.environment unit unit :=
  {| Qwen3VLClient.read_file := fun _ => Ok [];
     Qwen3VLClient.save_png := fun _ => Raise e;
     Qwen3VLClient.b64encode := fun _ => str "iVBORw==";
     Qwen3VLClient.session_post := fun _ _ _ => Ok tt;
     Qwen3VLClient.raise_for_status := fun _ => Ok tt;
     Qwen3VLClient.response_json := fun _ => Ok PyNone |}.

(** *** Page lists *)

(** The records [recs] carry, under [key], the numbers [start], [start + 1],
    ... in their order. *)
Definition numbered (key : pystr) (start : Z) (recs : list pydict) : Prop :=
  forall j e, nth_error recs j = Some e ->
    dict_get e key = Some (PyInt (start + Z.of_nat j)).

(** A content that is neither a text nor a container. *)
Definition scalar (c : pyvalue) : bool :=
  match c with
  | PyNone | PyBool _ | PyInt _ | PyFloat _ => true
  | _ => false
  end.

(** A value that is not a number. *)
Definition not_a_number (c : pyvalue) : bool :=
  match c with
  | PyNone | PyStr _ | PyList _ | PyDict _ => true
  | _ => false
  end.

(** *** The request of [query] *)

(** The parts of the message content: the text, and one image. *)
Definition text_part (text : pystr) : pyvalue :=
  PyDict [(str "type", PyStr (str "text")); (str "text", PyStr text)].

Definition image_part (img_b64 : pystr) : pyvalue :=
  PyDict [(str "type", PyStr (str "image_url"));
          (str "image_url",
            PyDict [(str "url", PyStr (str "data:image/png;base64," ++ img_b64))])].

(** The body [query] posts, for a message content. *)
Definition payload (self : Qwen3VLClient.client) (content : list pyvalue)
  (max_tokens : Z) (temperature : float) (stream : bool)
  (kwargs : list (pystr * pyvalue)) : pydict :=
  dict_of ([(str "model", PyStr (Qwen3VLClient.model_name self));
            (str "messages",
              PyList [PyDict [(str "role", PyStr (str "user"));
                              (str "content", PyList content)]]);
            (str "max_tokens", PyInt max_tokens);
            (str "temperature", PyFloat temperature);
            (str "stream", PyBool stream)] ++ kwargs).

(** What [query] makes of the decoded response. *)
Definition read_response (self : Qwen3VLClient.client) (result : pyvalue) : outcome pydict :=
  has_choices <- py_contains result (str "choices") ;;
  nonempty <- (if has_choices
               then choices <- py_getitem_str result (str "choices") ;;
                    n <- py_len choices ;;
                    Ok (0 <? n)%nat
               else Ok false) ;;
  if nonempty then
    choices <- py_getitem_str result (str "choices") ;;
    choice <- py_getitem_0 choices ;;
    message <- py_getitem_str choice (str "message") ;;
    content <- py_getitem_str message (str "content") ;;
    match result with
    | PyDict d =>
        Ok [(str "success", PyBool true);
            (str "content", content);
            (str "model", dict_get_default d (str "model")
                            (PyStr (Qwen3VLClient.model_name self)));
            (str "usage", dict_get_default d (str "usage") (PyDict []));
            (str "raw_response", result)]
    | _ => raise_msg ExcOther (quoted_type result ++ str " object has no attribute 'get'")
    end
  else Ok (Qwen3VLClient.failure (str "Unexpected response format")).

(** The reason [query] reports for an exception of its [try] body. *)
Definition reason_of (e : exc) : pystr :=
  if Qwen3VLClient.is_timeout e then str "Request timeout" else exc_str e.

(** An entry of the model list from which [get_available_models] reads the
    identifier [id]. *)
Definition entry_id (m id : pyvalue) : Prop :=
  exists dm, m = PyDict dm /\ dict_get dm (str "id") = Some id.

(** *** Documents *)

(** The text [extract_text_pdfplumber] keeps for a page. *)
Definition page_text (page : outcome (option pystr)) : pystr :=
  match page with
  | Ok (Some t) => t
  | _ => []
  end.

(** A page on which [extract_text] returns. *)
Definition page_read (page : outcome (option pystr)) : Prop :=
  exists t, page = Ok t.

(** *** Sample environments *)

(** An endpoint that answers every request with the decoded body [body]. *)
Definition replying_env (body : pyvalue) : Qwen3VLClient.environment unit unit :=
  {| Qwen3VLClient.read_file := fun _ => Ok [];
     Qwen3VLClient.save_png := fun _ => Ok [137; 80; 78; 71];
     Qwen3VLClient.b64encode := fun _ => str "iVBORw==";
     Qwen3VLClient.session_post := fun _ _ _ => Ok tt;
     Qwen3VLClient.raise_for_status := fun _ => Ok tt;
     Qwen3VLClient.response_json := fun _ => Ok body |}.

(** An endpoint whose [/models] answers with [status] and [body], and one
    that cannot be reached. *)
Definition models_env (status : Z) (body : pyvalue) : Qwen3VLClient.models_endpoint unit :=
  {| Qwen3VLClient.session_get := fun _ _ => Ok tt;
     Qwen3VLClient.status_code := fun _ => status;
     Qwen3VLClient.models_json := fun _ => Ok body |}.

Definition unreachable_models_env (e : exc) : Qwen3VLClient.models_endpoint unit :=
  {| Qwen3VLClient.session_get := fun _ _ => Raise e;
     Qwen3VLClient.status_code := fun _ => 0%Z;
     Qwen3VLClient.models_json := fun _ => Ok PyNone |}.

(** Suffixes and letter case of ASCII file names. *)
Fixpoint after_last_dot (p : pystr) : option pystr :=
  match p with
  | [] => None
  | c :: r =>
      match after_last_dot r with
      | Some s => Some s
      | None => if c =? 46 then Some r else None
      end
  end.

Definition ascii_suffix (p : pystr) : pystr :=
  match after_last_dot p with
  | Some (c :: r) => 46 :: c :: r
  | _ => []
  end.

Definition ascii_lower (s : pystr) : pystr :=
  map (fun c => if (65 <=? c) && (c <=? 90) then c + 32 else c) s.

Definition ascii_upper (s : pystr) : pystr :=
  map (fun c => if (97 <=? c) && (c <=? 122) then c - 32 else c) s.

(** A file system with a PDF of [n] pages whose text layer is [pages], and
    images in RGB mode. *)
Definition sample_docs (n : nat) (pages : list (outcome (option pystr)))
  : DocumentProcessor.environment unit :=
  {| DocumentProcessor.path_suffix := ascii_suffix;
     DocumentProcessor.str_lower := ascii_lower;
     DocumentProcessor.convert_from_path := fun _ _ _ => Ok (repeat tt n);
     DocumentProcessor.pdfplumber_open := fun _ => Ok pages;
     DocumentProcessor.pdfplumber_close := fun _ => Ok tt;
     DocumentProcessor.image_open := fun _ => Ok tt;
     DocumentProcessor.image_mode := fun _ => str "RGB";
     DocumentProcessor.image_convert := fun img _ => Ok img |}.

(** A run of the demo that takes two and a half seconds. *)
Definition sample_demo : DemoFast.environment :=
  {| DemoFast.progress := fun _ _ => Ok tt;
     DemoFast.time := fun n => match n with O => 100%float | _ => 102.5%float end;
     DemoFast.format_value := fun v => match v with
                                       | PyInt z => Ok (str_of_int z)
                                       | PyStr s => Ok s
                                       | _ => Ok []
                                       end;
     DemoFast.format_1f := fun _ => str "2.5";
     DemoFast.str_upper := ascii_upper;
     DemoFast.json_dumps := fun _ => Ok (str "{}") |}.

(** *** The outcome of [query] *)

(** The message content [query] builds: the text part, then one
    [image_url] part for each image, when there are images. *)
Definition message_content {image response : Type}
  (env : Qwen3VLClient.environment image response) (text : pystr)
  (images : option (list (Qwen3VLClient.image_input image))) : outcome (list pyvalue) :=
  match images with
  | Some (i :: rest) => Qwen3VLClient.add_images env (i :: rest) [text_part text]
  | _ => Ok [text_part text]
  end.

(** The response of the endpoint to the request of [query], decoded: the
    statements of the [try] body up to [result = response.json()]. *)
Definition decoded_response {image response : Type}
  (env : Qwen3VLClient.environment image response) (self : Qwen3VLClient.client)
  (text : pystr) (images : option (list (Qwen3VLClient.image_input image)))
  (max_tokens : Z) (temperature : float) (stream : bool)
  (kwargs : list (pystr * pyvalue)) : outcome pyvalue :=
  content <- message_content env text images ;;
  resp <- Qwen3VLClient.session_post env
            (Qwen3VLClient.base_url self ++ str "/chat/completions")
            (PyDict (payload self content max_tokens temperature stream kwargs))
            (Qwen3VLClient.timeout self) ;;
  _ <- Qwen3VLClient.raise_for_status env resp ;;
  Qwen3VLClient.response_json env resp.

(** The condition ['choices' in result and len(result['choices']) > 0]. *)
Definition nonempty_choices (result : pyvalue) : outcome bool :=
  has_choices <- py_contains result (str "choices") ;;
  if has_choices
  then choices <- py_getitem_str result (str "choices") ;;
       n <- py_len choices ;;
       Ok (0 <? n)%nat
  else Ok false.
(* ================================================================== *)
(** ** The embedding on concrete inputs *)
(* ================================================================== *)

Example sub_think_ex :
  re_sub_empty think_re (str "<think>a{b</think>x<think>y</think>z") = str "xz".
Proof. vm_compute. reflexivity. Qed.

Example sub_fence_ex :
  re_sub_empty fence_re (jstr "Here:  ```json  {'a': 1}  ```  end") = jstr "Here:json  {'a': 1}  end".
Proof. vm_compute. reflexivity. Qed.

Example search_json_ex :
  re_search json_re (jstr "x {'a': {'b': 1}, 'c': {}} y {}") = Some (jstr "{'a': {'b': 1}, 'c': {}}").
Proof. vm_compute. reflexivity. Qed.

Example search_json_deep_ex :
  re_search json_re (jstr "{'a': {'b': {'c': 1}}}") = Some (jstr "{'b': {'c': 1}}").
Proof. vm_compute. reflexivity. Qed.

Example search_greedy_ex :
  re_search json_greedy_re (jstr "x {'a': {'b': {'c': 1}}} y } z") = Some (jstr "{'a': {'b': {'c': 1}}} y }").
Proof. vm_compute. reflexivity. Qed.

Example round2_ex1 : round2 0.125%float = 0.12%float.
Proof. vm_compute. reflexivity. Qed.
Example round2_ex2 : round2 0.9075%float = 0.91%float.
Proof. vm_compute. reflexivity. Qed.
Example round2_ex3 : round2 2.675%float = 2.67%float.
Proof. vm_compute. reflexivity. Qed.
Example round2_ex4 : round2 0.6%float = 0.6%float.
Proof. vm_compute. reflexivity. Qed.
Example float_of_ratio_ex : float_of_ratio false 9 10 = 0.9%float.
Proof. vm_compute. reflexivity. Qed.

Example json_loads_ex1 :
  json_loads (jstr " {'a': 1, 'a': 2, 'b': [true, null, 'xA\n'], 'c': {'d': -0.5e1}} ")
  = Some (PyDict [(str "a", PyInt 2);
                  (str "b", PyList [PyBool true; PyNone; PyStr (str "xA" ++ [10])]);
                  (str "c", PyDict [(str "d", PyFloat (-5)%float)])]).
Proof. vm_compute. reflexivity. Qed.

Example json_loads_ex2 : json_loads (jstr "{'a': '}") = None.
Proof. vm_compute. reflexivity. Qed.

Example json_loads_ex3 : json_loads (jstr "{'confidence': 0.9}") = Some (PyDict [(str "confidence", PyFloat 0.9%float)]).
Proof. vm_compute. reflexivity. Qed.

Example json_loads_ex4 : json_loads (jstr "{'a': 1,}") = None /\ json_loads (jstr "{'a': 01}") = None
  /\ json_loads (jstr "[1, 2.]") = None /\ json_loads (jstr "{} x") = None.
Proof. vm_compute. repeat split. Qed.

Example parse_json_ex1 :
  FastDocumentProcessor._parse_json json_loads
    (jstr "<think>The page {looks} like an invoice.</think>

```json
{'type': 'invoice', 'confidence': 0.9, 'amounts': {'total': '$500'}}
```")
  = PyDict [(str "type", PyStr (str "invoice"));
            (str "confidence", PyFloat 0.9%float);
            (str "amounts", PyDict [(str "total", PyStr (str "$500"))])].
Proof. vm_compute. reflexivity. Qed.

Example parse_json_ex2 :
  FastDocumentProcessor._parse_json json_loads (str "<think>hm</think>I cannot read this page.")
  = PyDict [(str "type", PyStr (str "document"));
            (str "confidence", PyFloat 0.6%float);
            (str "main_content", PyStr (str "I cannot read this page."))].
Proof. vm_compute. reflexivity. Qed.

Example parse_response_ex1 :
  SimpleDocumentProcessor._parse_response json_loads
    (jstr "```json
{'document_type': 'invoice', 'key_fields': {'a': {'b': 1}}}
```")
  = PyDict [(str "document_type", PyStr (str "invoice"));
            (str "key_fields", PyDict [(str "a", PyDict [(str "b", PyInt 1)])])].
Proof. vm_compute. reflexivity. Qed.

(* ================================================================== *)
(** ** Strings and prefixes *)
(* ================================================================== *)

Lemma str_eqb_refl (a : pystr) : str_eqb a a = true.
Proof. induction a as [|x a IH]; simpl; [reflexivity|]. now rewrite N.eqb_refl. Qed.

Lemma str_eqb_eq (a b : pystr) : str_eqb a b = true <-> a = b.
Proof.
  split.
  - revert b. induction a as [|x a IH]; intros [|y b]; simpl; try discriminate; auto.
    intros H. apply andb_true_iff in H as [H1 H2].
    apply N.eqb_eq in H1. f_equal; auto.
  - intros ->. apply str_eqb_refl.
Qed.

Lemma strip_prefix_app (p s : pystr) : strip_prefix p (p ++ s) = Some s.
Proof. induction p as [|x p IH]; simpl; [reflexivity|]. now rewrite N.eqb_refl. Qed.

Lemma strip_prefix_Some (p s r : pystr) : strip_prefix p s = Some r -> s = p ++ r.
Proof.
  revert s. induction p as [|x p IH]; simpl; intros s H.
  - now inversion H.
  - destruct s as [|y s]; [discriminate|].
    destruct (x =? y) eqn:E; [|discriminate].
    apply N.eqb_eq in E. subst y. f_equal. auto.
Qed.

Lemma strip_prefix_head (x : pychar) (p s : pystr) (c : pychar) :
  c <> x -> strip_prefix (x :: p) (c :: s) = None.
Proof. intros H. simpl. destruct (x =? c) eqn:E; [|reflexivity]. apply N.eqb_eq in E. congruence. Qed.

Lemma neq_eqb (a b : pychar) : a <> b -> (a =? b) = false.
Proof. apply N.eqb_neq. Qed.

Lemma strip_prefix_app_Some (p u w r : pystr) :
  strip_prefix p u = Some r -> strip_prefix p (u ++ w) = Some (r ++ w).
Proof.
  revert u. induction p as [|x p IH]; intros u H; cbn [strip_prefix] in *.
  - now inversion H.
  - destruct u as [|y u]; [discriminate|]. cbn [app]. destruct (x =? y); [auto|discriminate].
Qed.

Lemma strip_prefix_app_None (p u w : pystr) :
  strip_prefix p (u ++ w) = None -> strip_prefix p u = None.
Proof.
  intros H. destruct (strip_prefix p u) as [r|] eqn:E; [|reflexivity].
  rewrite (strip_prefix_app_Some _ _ w E) in H. discriminate.
Qed.

(** A text that does not start with [p] still does not when it is followed
    by a character that [p] does not contain. *)
Lemma strip_prefix_barrier (p u : pystr) (e : pychar) (v : pystr) :
  ~ In e p -> strip_prefix p u = None -> strip_prefix p (u ++ e :: v) = None.
Proof.
  revert u. induction p as [|x p IH]; intros u He H; [discriminate|].
  destruct u as [|y u]; cbn [app strip_prefix] in *.
  - rewrite neq_eqb; [reflexivity|]. intros ->. apply He. now left.
  - destruct (x =? y); [|reflexivity]. apply IH; [|exact H]. intros Hin. apply He. now right.
Qed.

(** The same when the text is followed by [p] itself, provided the first
    character of [p] does not occur again in [p]. *)
Lemma strip_prefix_own_head (x : pychar) (p u v : pystr) :
  ~ In x p -> u <> [] -> strip_prefix (x :: p) u = None ->
  strip_prefix (x :: p) (u ++ x :: v) = None.
Proof.
  intros Hx Hu H. destruct u as [|y u]; [congruence|].
  cbn [app strip_prefix] in *. destruct (x =? y); [|reflexivity].
  now apply strip_prefix_barrier.
Qed.

Lemma strip_prefix_longer (p q s : pystr) :
  strip_prefix p s = None -> strip_prefix (p ++ q) s = None.
Proof.
  revert s. induction p as [|x p IH]; intros s H; [discriminate|].
  destruct s as [|y s]; cbn [app strip_prefix] in *; [reflexivity|].
  destruct (x =? y); [auto|reflexivity].
Qed.

Lemma is_substring_cons (p : pystr) (c : pychar) (s : pystr) :
  is_substring p (c :: s) = false ->
  strip_prefix p (c :: s) = None /\ is_substring p s = false.
Proof.
  cbn [is_substring]. destruct (strip_prefix p (c :: s)); [discriminate|]. auto.
Qed.

Lemma is_substring_nil (p : pystr) : is_substring p [] = false -> strip_prefix p [] = None.
Proof. cbn [is_substring]. now destruct (strip_prefix p []). Qed.

(** A text in which [p] does not occur has no suffix that starts with
    [p]. *)
Lemma is_substring_suffix (p s : pystr) :
  is_substring p s = false ->
  forall s1 s2, s = s1 ++ s2 -> strip_prefix p s2 = None.
Proof.
  intros H s1. revert s H. induction s1 as [|c s1 IH]; intros s H s2 E; cbn [app] in E; subst s.
  - destruct s2; [now apply is_substring_nil|now apply is_substring_cons in H].
  - apply is_substring_cons in H as [_ H]. eapply IH; eauto.
Qed.

Lemma is_substring_app_false (p u w : pystr) :
  is_substring p (u ++ w) = false -> is_substring p u = false.
Proof.
  induction u as [|c u IH]; cbn [app]; intros H.
  - destruct w as [|y w].
    + exact H.
    + apply is_substring_cons in H as [H _]. cbn [is_substring].
      destruct p; [discriminate|reflexivity].
  - apply is_substring_cons in H as [H1 H2]. cbn [is_substring].
    change (c :: u ++ w) with ((c :: u) ++ w) in H1.
    rewrite (strip_prefix_app_None _ _ _ H1). auto.
Qed.

(* ================================================================== *)
(** ** The matcher: continuations and what a match consumes *)
(* ================================================================== *)

Lemma match_class_ext (p : pychar -> bool) : ext_in_cont (match_class p).
Proof. intros [|c s] k1 k2 H; simpl; [reflexivity|]. destruct (p c); auto. Qed.

Lemma star_greedy_ext (mr : pystr -> cont -> option pystr) :
  ext_in_cont mr ->
  forall fuel s k1 k2, (forall x, k1 x = k2 x) ->
    star_greedy mr k1 fuel s = star_greedy mr k2 fuel s.
Proof.
  intros Hmr fuel. induction fuel as [|f IH]; intros s k1 k2 H; simpl; [apply H|].
  rewrite (Hmr s _ (fun s1 => if (length s1 <? length s)%nat
                              then star_greedy mr k2 f s1 else None)).
  - now rewrite H.
  - intros x. destruct (length x <? length s)%nat; auto.
Qed.

Lemma star_lazy_ext (mr : pystr -> cont -> option pystr) :
  ext_in_cont mr ->
  forall fuel s k1 k2, (forall x, k1 x = k2 x) ->
    star_lazy mr k1 fuel s = star_lazy mr k2 fuel s.
Proof.
  intros Hmr fuel. induction fuel as [|f IH]; intros s k1 k2 H; simpl; rewrite H; [reflexivity|].
  destruct (k2 s); [reflexivity|].
  apply Hmr. intros x. destruct (length x <? length s)%nat; auto.
Qed.

Lemma re_match_ext (r : regex) : ext_in_cont (re_match r).
Proof.
  induction r as [|c|p| | |cs|r1 IHr1 r2 IHr2|r1 IHr1 r2 IHr2|r1 IHr|r1 IHr];
    intros s k1 k2 H; simpl.
  - apply H.
  - now apply match_class_ext.
  - destruct (strip_prefix p s); auto.
  - now apply match_class_ext.
  - now apply match_class_ext.
  - now apply match_class_ext.
  - apply IHr1. intros x. now apply IHr2.
  - rewrite (IHr1 s k1 k2 H), (IHr2 s k1 k2 H). reflexivity.
  - now apply star_greedy_ext.
  - now apply star_lazy_ext.
Qed.

Lemma match_class_inv (p ok : pychar -> bool) :
  (forall c, p c = true -> ok c = true) -> inv_spec ok (match_class p).
Proof.
  intros Hp [|c s] k x H; simpl in H; [discriminate|].
  destruct (p c) eqn:E; [|discriminate].
  exists [c], s. repeat split; auto.
Qed.

Lemma star_greedy_inv (ok : pychar -> bool) (mr : pystr -> cont -> option pystr) :
  inv_spec ok mr -> forall fuel, inv_spec ok (fun s k' => star_greedy mr k' fuel s).
Proof.
  intros Hmr fuel. induction fuel as [|f IH]; intros s k' x H; simpl in H.
  - exists [], s. auto.
  - destruct (mr s _) eqn:E.
    + inversion H; subst p. apply Hmr in E as (m1 & s1 & -> & Hk & Hm1).
      destruct (length s1 <? length (m1 ++ s1))%nat; [|discriminate].
      apply IH in Hk as (m2 & s2 & -> & Hk2 & Hm2).
      exists (m1 ++ m2), s2. rewrite app_assoc. repeat split; auto.
      apply Forall_app; auto.
    + exists [], s. auto.
Qed.

Lemma star_lazy_inv (ok : pychar -> bool) (mr : pystr -> cont -> option pystr) :
  inv_spec ok mr -> forall fuel, inv_spec ok (fun s k' => star_lazy mr k' fuel s).
Proof.
  intros Hmr fuel. induction fuel as [|f IH]; intros s k' x H; simpl in H.
  - destruct (k' s) eqn:E; [|discriminate]. exists [], s. inversion H; subst. auto.
  - destruct (k' s) eqn:E.
    + exists [], s. inversion H; subst. auto.
    + apply Hmr in H as (m1 & s1 & -> & Hk & Hm1).
      destruct (length s1 <? length (m1 ++ s1))%nat; [|discriminate].
      apply IH in Hk as (m2 & s2 & -> & Hk2 & Hm2).
      exists (m1 ++ m2), s2. rewrite app_assoc. repeat split; auto.
      apply Forall_app; auto.
Qed.

Lemma char_in_true (c : pychar) (cs : list pychar) : char_in c cs = true <-> In c cs.
Proof.
  unfold char_in. rewrite existsb_exists. split.
  - intros (x & Hx & E). apply N.eqb_eq in E. now subst.
  - intros H. exists c. split; auto. apply N.eqb_refl.
Qed.

(** A match consumes only characters of the pattern's alphabet. *)
Lemma re_match_inv (r : regex) : inv_spec (consumes r) (re_match r).
Proof.
  induction r as [|c|p| | |cs|r1 IHr1 r2 IHr2|r1 IHr1 r2 IHr2|r1 IHr|r1 IHr]; simpl.
  - intros s k x H. exists [], s. auto.
  - apply match_class_inv. auto.
  - intros t k x H. simpl in H. destruct (strip_prefix p t) as [q|] eqn:E; [|discriminate].
    apply strip_prefix_Some in E. subst t. exists p, q. repeat split; auto.
    apply Forall_forall. intros c Hc. now apply char_in_true.
  - apply match_class_inv. auto.
  - apply match_class_inv. auto.
  - apply match_class_inv. auto.
  - intros s k x H. simpl in H.
    apply IHr1 in H as (m1 & s1 & -> & Hk & Hm1).
    apply IHr2 in Hk as (m2 & s2 & -> & Hk2 & Hm2).
    exists (m1 ++ m2), s2. rewrite app_assoc. repeat split; auto.
    apply Forall_app; split; (eapply Forall_impl; [|eassumption]); simpl; intros a Ha; rewrite Ha;
      auto using orb_true_r.
  - intros s k x H. simpl in H. destruct (re_match r1 s k) eqn:E.
    + inversion H; subst p. apply IHr1 in E as (m & s' & -> & Hk & Hm).
      exists m, s'. repeat split; auto. eapply Forall_impl; [|exact Hm]. simpl. intros a ->. auto.
    + apply IHr2 in H as (m & s' & -> & Hk & Hm).
      exists m, s'. repeat split; auto. eapply Forall_impl; [|exact Hm]. simpl. intros a ->.
      auto using orb_true_r.
  - intros s k x H. simpl in H. eapply (star_greedy_inv IHr (length s)); eauto.
  - intros s k x H. simpl in H. eapply (star_lazy_inv IHr (length s)); eauto.
Qed.

Lemma inv_spec_none (ok : pychar -> bool) (mr : pystr -> cont -> option pystr) :
  inv_spec ok mr -> forall s k, (forall x, k x = None) -> mr s k = None.
Proof.
  intros H s k Hk. destruct (mr s k) eqn:E; [|reflexivity].
  apply H in E as (m & s' & _ & Hs & _). rewrite Hk in Hs. discriminate.
Qed.

(** With enough fuel, the amount of fuel of a repetition does not matter. *)
Lemma star_greedy_fuel (mr : pystr -> cont -> option pystr) (k : cont) :
  ext_in_cont mr -> (forall s k', (forall x, k' x = None) -> mr s k' = None) ->
  forall f1 f2 s, (length s <= f1)%nat -> (length s <= f2)%nat ->
    star_greedy mr k f1 s = star_greedy mr k f2 s.
Proof.
  intros Hmr Hnone f1. induction f1 as [|f1 IH]; intros f2 s H1 H2.
  - destruct s; [|simpl in H1; lia]. destruct f2; simpl; [reflexivity|].
    rewrite Hnone; [reflexivity|]. intros x. reflexivity.
  - destruct f2 as [|f2].
    + destruct s; [|simpl in H2; lia]. simpl.
      rewrite Hnone; [reflexivity|]. intros x. reflexivity.
    + simpl.
      rewrite (Hmr s _ (fun s1 => if (length s1 <? length s)%nat
                                  then star_greedy mr k f2 s1 else None)); [reflexivity|].
      intros x. destruct (length x <? length s)%nat eqn:E; [|reflexivity].
      apply Nat.ltb_lt in E. apply IH; lia.
Qed.

Lemma match_at_inv (r : regex) (s rest : pystr) :
  match_at r s = Some rest ->
  exists m, s = m ++ rest /\ Forall (fun c => consumes r c = true) m.
Proof.
  intros H. apply re_match_inv in H as (m & s' & -> & Hk & Hm).
  inversion Hk; subst. eauto.
Qed.



(* ================================================================== *)
(** ** Repetition of a character class *)
(* ================================================================== *)

Lemma star_class_unfold (p : pychar -> bool) (k : cont) (c : pychar) (s : pystr) :
  star_greedy (match_class p) k (length (c :: s)) (c :: s) =
  if p c then match star_greedy (match_class p) k (length s) s with
              | Some x => Some x
              | None => k (c :: s)
              end
  else k (c :: s).
Proof.
  simpl. destruct (p c); [|reflexivity].
  assert (E : (length s <? S (length s))%nat = true) by (apply Nat.ltb_lt; lia).
  now rewrite E.
Qed.

(** When the continuation cannot start with a character of the class, the
    repetition takes the whole run and never gives a character back. *)
Lemma star_class_fail (p : pychar -> bool) (k : cont) :
  (forall c s, p c = true -> k (c :: s) = None) ->
  forall s, star_greedy (match_class p) k (length s) s = k (drop_while p s).
Proof.
  intros Hk s. induction s as [|c s IH]; [reflexivity|].
  rewrite star_class_unfold. simpl drop_while. destruct (p c) eqn:E; [|reflexivity].
  rewrite IH. destruct (k (drop_while p s)) eqn:E2; [reflexivity|]. now apply Hk.
Qed.

Lemma drop_while_idem (p : pychar -> bool) (s : pystr) :
  drop_while p (drop_while p s) = drop_while p s.
Proof.
  induction s as [|c s IH]; [reflexivity|]. simpl. destruct (p c) eqn:E; [exact IH|].
  simpl. now rewrite E.
Qed.

Lemma drop_while_length (p : pychar -> bool) (s : pystr) :
  (length (drop_while p s) <= length s)%nat.
Proof. induction s as [|c s IH]; simpl; [lia|]. destruct (p c); simpl; lia. Qed.

Lemma drop_while_head (p : pychar -> bool) (s : pystr) (c : pychar) (r : pystr) :
  drop_while p s = c :: r -> p c = false.
Proof.
  induction s as [|x s IH]; simpl; [discriminate|].
  destruct (p x) eqn:E; [exact IH|]. intros H. inversion H; subst. exact E.
Qed.

(* ================================================================== *)
(** ** The patterns of the sources *)
(* ================================================================== *)

(** *** [think_re] *)

Lemma re_match_str (p s : pystr) (k : cont) :
  re_match (RStr p) s k = match strip_prefix p s with Some s' => k s' | None => None end.
Proof. reflexivity. Qed.

Lemma re_match_seq (r1 r2 : regex) (s : pystr) (k : cont) :
  re_match (RSeq r1 r2) s k = re_match r1 s (fun s1 => re_match r2 s1 k).
Proof. reflexivity. Qed.

Lemma re_match_str_head (x : pychar) (p : pystr) (c : pychar) (s : pystr) (k : cont) :
  c <> x -> re_match (RStr (x :: p)) (c :: s) k = None.
Proof. intros H. rewrite re_match_str. now rewrite strip_prefix_head. Qed.

Lemma think_no_start (c : pychar) (s : pystr) :
  c <> lt_char -> match_at think_re (c :: s) = None.
Proof.
  intros H. unfold match_at, think_re, rseq. cbn [fold_right].
  rewrite re_match_seq. now apply re_match_str_head.
Qed.

Lemma think_needs_tag (s : pystr) :
  strip_prefix (str "<think>") s = None -> match_at think_re s = None.
Proof.
  intros H. unfold match_at, think_re, rseq. cbn [fold_right].
  now rewrite re_match_seq, re_match_str, H.
Qed.

Lemma lazy_any_until (k : cont) (t rest : pystr) (x : pystr) :
  (forall t1 c t2, t = t1 ++ c :: t2 -> k (c :: t2 ++ rest) = None) ->
  k rest = Some x ->
  forall fuel, (length t <= fuel)%nat ->
    star_lazy (re_match RAny) k fuel (t ++ rest) = Some x.
Proof.
  intros Hk Hrest. induction t as [|c t IH]; intros fuel Hf.
  - simpl. destruct fuel; simpl; now rewrite Hrest.
  - destruct fuel as [|f]; [simpl in Hf; lia|].
    cbn [star_lazy app]. rewrite (Hk [] c t eq_refl).
    cbn [re_match match_class].
    assert (E : (length (t ++ rest) <? length (c :: t ++ rest))%nat = true)
      by (apply Nat.ltb_lt; simpl; lia).
    rewrite E. apply IH; [|simpl in Hf; lia].
    intros t1 c' t2 ->. apply (Hk (c :: t1) c' t2 eq_refl).
Qed.

Lemma think_match_block (t rest : pystr) :
  is_substring (str "</think>") t = false ->
  match_at think_re (think_block t ++ rest) = Some rest.
Proof.
  intros Ht. unfold match_at, think_re, rseq, think_block. cbn [fold_right].
  rewrite re_match_seq, re_match_str, <- app_assoc, strip_prefix_app.
  rewrite re_match_seq, <- app_assoc.
  change (re_match (RLazy RAny) (t ++ str "</think>" ++ rest)
            (fun s1 => re_match (RSeq (RStr (str "</think>")) REps) s1 Some))
    with (star_lazy (re_match RAny)
            (fun s1 => re_match (RSeq (RStr (str "</think>")) REps) s1 Some)
            (length (t ++ str "</think>" ++ rest)) (t ++ str "</think>" ++ rest)).
  apply lazy_any_until.
  - intros t1 c t2 E. cbv beta. rewrite re_match_seq, re_match_str.
    change (str "</think>" ++ rest) with (lt_char :: str "/think>" ++ rest).
    change (c :: t2 ++ lt_char :: str "/think>" ++ rest)
      with ((c :: t2) ++ lt_char :: str "/think>" ++ rest).
    change (str "</think>") with (lt_char :: str "/think>").
    rewrite strip_prefix_own_head; [reflexivity| |discriminate|].
    + intros Hin. vm_compute in Hin. intuition discriminate.
    + eapply is_substring_suffix; eauto.
  - cbv beta. now rewrite re_match_seq, re_match_str, strip_prefix_app.
  - rewrite length_app. lia.
Qed.

(** *** The fence patterns *)

Lemma re_match_alt (r1 r2 : regex) (s : pystr) (k : cont) :
  re_match (RAlt r1 r2) s k =
  match re_match r1 s k with Some x => Some x | None => re_match r2 s k end.
Proof. reflexivity. Qed.

Lemma re_match_star_space (s : pystr) (k : cont) :
  re_match (RStar RSpace) s k = star_greedy (match_class is_space) k (length s) s.
Proof. reflexivity. Qed.

(** [fence_re] has no match at a position where the first character that
    is not white space is not a backtick. *)
Lemma fence_no_start (s : pystr) (c : pychar) (r : pystr) :
  drop_while is_space s = c :: r -> c <> backtick ->
  match_at fence_re s = None.
Proof.
  intros Hd Hc. unfold match_at, fence_re. rewrite re_match_alt, !re_match_seq.
  assert (H1 : re_match (RStr (str "```json")) s
                 (fun s1 => re_match (RStar RSpace) s1 Some) = None).
  { destruct s as [|x s]; [reflexivity|].
    apply re_match_str_head. simpl in Hd. destruct (is_space x) eqn:E.
    - intros ->. discriminate.
    - inversion Hd; subst. exact Hc. }
  rewrite H1, re_match_star_space.
  rewrite star_class_fail.
  - rewrite Hd. now apply re_match_str_head.
  - intros x t Hx. apply re_match_str_head. intros ->. discriminate.
Qed.

Lemma fence_json_needs_fence (s : pystr) :
  strip_prefix (str "```") s = None -> match_at fence_json_re s = None.
Proof.
  intros H. unfold match_at, fence_json_re. rewrite re_match_seq, re_match_str.
  change (str "```json") with (str "```" ++ str "json").
  now rewrite (strip_prefix_longer _ (str "json") _ H).
Qed.

Lemma fence_any_needs_fence (s : pystr) :
  strip_prefix (str "```") s = None -> match_at fence_any_re s = None.
Proof.
  intros H. unfold match_at, fence_any_re. now rewrite re_match_seq, re_match_str, H.
Qed.

(** [fence_re] has no match where the text, white space skipped, does not
    start with a fence. *)
Lemma fence_needs_fence (s : pystr) :
  strip_prefix (str "```") (drop_while is_space s) = None -> match_at fence_re s = None.
Proof.
  intros H. unfold match_at, fence_re. rewrite re_match_alt, !re_match_seq.
  assert (H1 : re_match (RStr (str "```json")) s
                 (fun s1 => re_match (RStar RSpace) s1 Some) = None).
  { rewrite re_match_str. change (str "```json") with (str "```" ++ str "json").
    rewrite strip_prefix_longer; [reflexivity|].
    destruct s as [|x s]; [reflexivity|]. cbn [drop_while] in H.
    destruct (is_space x) eqn:E; [|exact H].
    change (str "```") with (backtick :: str "``"). apply strip_prefix_head.
    intros ->. discriminate. }
  rewrite H1, re_match_star_space, star_class_fail.
  - now rewrite re_match_str, H.
  - intros x t Hx. apply re_match_str_head. intros ->. discriminate.
Qed.

(** *** Every match of the substituted patterns is at least one character
    long, so that [re_sub_empty] never meets an empty match *)

Lemma match_str_first (p : pystr) (r : regex) (s rest : pystr) :
  p <> [] -> match_at (RSeq (RStr p) r) s = Some rest -> (length rest < length s)%nat.
Proof.
  intros Hp H. unfold match_at in H. rewrite re_match_seq, re_match_str in H.
  destruct (strip_prefix p s) as [s1|] eqn:E; [|discriminate].
  apply strip_prefix_Some in E. subst s.
  apply re_match_inv in H as (m & s' & -> & Hk & _). inversion Hk; subst.
  rewrite !length_app. destruct p; [congruence|]. simpl. lia.
Qed.

Lemma match_str_last (p : pystr) (r : regex) (s rest : pystr) :
  p <> [] -> match_at (RSeq r (RStr p)) s = Some rest -> (length rest < length s)%nat.
Proof.
  intros Hp H. unfold match_at in H. rewrite re_match_seq in H.
  apply re_match_inv in H as (m & s1 & -> & Hk & _).
  rewrite re_match_str in Hk.
  destruct (strip_prefix p s1) as [s2|] eqn:E; [|discriminate].
  apply strip_prefix_Some in E. inversion Hk; subst.
  rewrite !length_app. destruct p; [congruence|]. simpl. lia.
Qed.

Lemma sub_patterns_consume (r : regex) (s rest : pystr) :
  In r [think_re; fence_re; fence_json_re; fence_any_re] ->
  match_at r s = Some rest -> (length rest < length s)%nat.
Proof.
  intros [<- | [<- | [<- | [<- | []]]]] H.
  - eapply match_str_first; [|exact H]. discriminate.
  - unfold match_at, fence_re in H. rewrite re_match_alt in H.
    destruct (re_match (RSeq (RStr (str "```json")) (RStar RSpace)) s Some) eqn:E.
    + inversion H; subst. eapply match_str_first; [|exact E]. discriminate.
    + eapply match_str_last; [|exact H]. discriminate.
  - eapply match_str_first; [|exact H]. discriminate.
  - eapply match_str_first; [|exact H]. discriminate.
Qed.

(** *** [json_re] *)

Lemma is_plain_false (c : pychar) : is_plain c = false -> c = lbrace \/ c = rbrace.
Proof.
  unfold is_plain, char_in. simpl. rewrite orb_false_r.
  destruct (c =? lbrace) eqn:E1; [apply N.eqb_eq in E1; auto|].
  destruct (c =? rbrace) eqn:E2; [apply N.eqb_eq in E2; auto|]. discriminate.
Qed.

Lemma is_plain_true (c : pychar) : is_plain c = true -> c <> lbrace /\ c <> rbrace.
Proof.
  unfold is_plain, char_in. simpl. rewrite orb_false_r.
  destruct (c =? lbrace) eqn:E1; [discriminate|].
  destruct (c =? rbrace) eqn:E2; [discriminate|].
  apply N.eqb_neq in E1, E2. auto.
Qed.

Lemma span_end_drop (inner : bool) (s : pystr) :
  span_end inner (drop_while is_plain s) = span_end inner s.
Proof.
  induction s as [|c s IH]; [reflexivity|]. simpl.
  destruct (is_plain c) eqn:E; [|reflexivity].
  apply is_plain_true in E as [E1 E2].
  apply N.eqb_neq in E1, E2. now rewrite E1, E2.
Qed.

Lemma star_greedy_S (mr : pystr -> cont -> option pystr) (k : cont) (f : nat) (s : pystr) :
  star_greedy mr k (S f) s =
  match mr s (fun s1 => if (length s1 <? length s)%nat
                        then star_greedy mr k f s1 else None) with
  | Some x => Some x
  | None => k s
  end.
Proof. reflexivity. Qed.

Lemma k_close_cons (c : pychar) (s : pystr) :
  k_close (c :: s) = if rbrace =? c then Some s else None.
Proof. reflexivity. Qed.

Lemma group_unfold (c : pychar) (r : pystr) (k : cont) :
  re_match group_re (c :: r) k =
  if lbrace =? c then
    star_greedy (match_class is_plain)
      (fun s1 => match_class (N.eqb rbrace) s1
                   (fun s2 => star_greedy (match_class is_plain) k (length s2) s2))
      (length r) r
  else None.
Proof. reflexivity. Qed.

Lemma brace_neq : rbrace <> lbrace.
Proof. discriminate. Qed.

Lemma group_star_plain (c : pychar) (s : pystr) (f : nat) :
  is_plain c = true -> star_greedy (re_match group_re) k_close f (c :: s) = None.
Proof.
  intros H. apply is_plain_true in H as [H1 H2].
  assert (E1 : (lbrace =? c) = false) by (apply N.eqb_neq; congruence).
  assert (E2 : (rbrace =? c) = false) by (apply N.eqb_neq; congruence).
  destruct f.
  - cbn [star_greedy]. now rewrite k_close_cons, E2.
  - now rewrite star_greedy_S, group_unfold, E1, k_close_cons, E2.
Qed.

Lemma group_star_spec (n : nat) :
  forall s, (length s <= n)%nat -> drop_while is_plain s = s ->
    star_greedy (re_match group_re) k_close (length s) s = span_end false s.
Proof.
  induction n as [n IH] using lt_wf_ind. intros s Hn Hs.
  destruct s as [|c r]; [reflexivity|].
  assert (Hc : is_plain c = false) by (eapply drop_while_head; eauto).
  cbn [length]. rewrite star_greedy_S, group_unfold, k_close_cons. cbn [span_end].
  apply is_plain_false in Hc as [-> | ->].
  - (* an opening brace: one more group, or no match *)
    rewrite !N.eqb_refl, (neq_eqb brace_neq).
    rewrite star_class_fail.
    2:{ intros x t Hx. apply is_plain_true in Hx as [_ Hx].
        cbn [match_class]. rewrite neq_eqb; congruence. }
    rewrite <- (span_end_drop true r).
    pose proof (drop_while_length is_plain r) as Hlen.
    destruct (drop_while is_plain r) as [|x q] eqn:Er; [reflexivity|].
    assert (Hx : is_plain x = false) by (eapply drop_while_head; eauto).
    cbn [match_class span_end].
    apply is_plain_false in Hx as [-> | ->].
    + now rewrite N.eqb_refl, (neq_eqb brace_neq).
    + rewrite !N.eqb_refl, (neq_eqb brace_neq).
      rewrite star_class_fail.
      2:{ intros y t Hy.
          destruct (length (y :: t) <? length (lbrace :: r))%nat; [|reflexivity].
          now apply group_star_plain. }
      pose proof (drop_while_length is_plain q) as Hlen2.
      simpl in Hlen, Hn.
      assert (E : (length (drop_while is_plain q) <? length (lbrace :: r))%nat = true)
        by (apply Nat.ltb_lt; simpl; lia).
      rewrite E.
      rewrite <- (span_end_drop false q).
      rewrite (@star_greedy_fuel (re_match group_re) k_close (re_match_ext group_re)
                 (inv_spec_none (re_match_inv group_re))
                 (length r) (length (drop_while is_plain q)) (drop_while is_plain q)) by lia.
      rewrite (IH (length (drop_while is_plain q))) by (auto using drop_while_idem; lia).
      now destruct (span_end false (drop_while is_plain q)).
  - (* a closing brace: the span ends here *)
    assert (E : (lbrace =? rbrace) = false) by reflexivity.
    now rewrite E, !N.eqb_refl, (neq_eqb brace_neq).
Qed.

Lemma json_match_cons (c : pychar) (s : pystr) :
  match_at json_re (c :: s) = if lbrace =? c then span_end false s else None.
Proof.
  change (match_at json_re (c :: s))
    with (if lbrace =? c
          then star_greedy (match_class is_plain)
                 (fun s1 => star_greedy (re_match group_re) k_close (length s1) s1)
                 (length s) s
          else None).
  destruct (lbrace =? c); [|reflexivity].
  rewrite star_class_fail.
  - rewrite <- (span_end_drop false s).
    apply (group_star_spec (n := length (drop_while is_plain s))); auto using drop_while_idem.
  - intros x t Hx. now apply group_star_plain.
Qed.

(** *** [json_greedy_re] *)

Lemma star_any_spec (s : pystr) :
  star_greedy (match_class (fun _ => true)) k_close (length s) s = after_last_rbrace s.
Proof.
  induction s as [|c s IH]; [reflexivity|].
  rewrite star_class_unfold, IH, k_close_cons. reflexivity.
Qed.

Lemma json_greedy_match_cons (c : pychar) (s : pystr) :
  match_at json_greedy_re (c :: s) = if lbrace =? c then after_last_rbrace s else None.
Proof.
  change (match_at json_greedy_re (c :: s))
    with (if lbrace =? c
          then star_greedy (match_class (fun _ => true)) k_close (length s) s
          else None).
  now rewrite star_any_spec.
Qed.

Lemma after_last_rbrace_app (u v : pystr) :
  lacks rbrace v -> after_last_rbrace (u ++ rbrace :: v) = Some v.
Proof.
  intros Hv.
  assert (Hn : after_last_rbrace v = None).
  { induction Hv as [|c v Hc _ IH]; [reflexivity|]. cbn [after_last_rbrace]. rewrite IH.
    rewrite neq_eqb; congruence. }
  induction u as [|c u IH]; cbn [after_last_rbrace app].
  - now rewrite Hn, N.eqb_refl.
  - now rewrite IH.
Qed.



(* ================================================================== *)
(** ** [re.search] and [re.sub] over a text in three parts *)
(* ================================================================== *)

Lemma search_skip (r : regex) (P : pychar -> Prop) (a s : pystr) :
  (forall c t, P c -> match_at r (c :: t) = None) ->
  Forall P a -> re_search r (a ++ s) = re_search r s.
Proof.
  intros Hr Ha. induction Ha as [|c a Hc _ IH]; [reflexivity|].
  cbn [app re_search]. now rewrite (Hr c (a ++ s) Hc).
Qed.

Lemma re_search_eq (r : regex) (s : pystr) :
  re_search r s =
  match match_at r s with
  | Some rest => Some (firstn (length s - length rest) s)
  | None => match s with [] => None | _ :: s' => re_search r s' end
  end.
Proof. destruct s; reflexivity. Qed.

Lemma search_hit (r : regex) (obj b : pystr) :
  match_at r (obj ++ b) = Some b -> re_search r (obj ++ b) = Some obj.
Proof.
  intros H. rewrite re_search_eq, H. f_equal.
  rewrite length_app, Nat.add_sub.
  rewrite firstn_app, firstn_all, Nat.sub_diag. simpl. apply app_nil_r.
Qed.

Lemma sub_del_skip (r : regex) (a b : pystr) :
  sub_del r (length a) (a ++ b) = sub_del r 0 b.
Proof.
  induction a as [|c a IH]; [reflexivity|]. exact IH.
Qed.

Lemma sub_del_cons_none (r : regex) (c : pychar) (s : pystr) :
  match_at r (c :: s) = None -> sub_del r 0 (c :: s) = c :: sub_del r 0 s.
Proof. intros H. cbn [sub_del]. now rewrite H. Qed.

(** Characters at which no match starts are copied. *)
Lemma sub_del_copy (r : regex) (P : pychar -> Prop) (a s : pystr) :
  (forall c t, P c -> match_at r (c :: t) = None) ->
  Forall P a -> sub_del r 0 (a ++ s) = a ++ sub_del r 0 s.
Proof.
  intros Hr Ha. induction Ha as [|c a Hc _ IH]; [reflexivity|].
  cbn [app]. rewrite sub_del_cons_none by auto. now rewrite IH.
Qed.

(** [re.sub] only deletes. *)
Lemma sub_del_Forall (r : regex) (P : pychar -> Prop) (s : pystr) :
  Forall P s -> forall n, Forall P (sub_del r n s).
Proof.
  induction 1 as [|c s Hc Hs IH]; intros n; [constructor|].
  cbn [sub_del]. destruct n as [|n]; [|apply IH].
  destruct (match_at r (c :: s)) as [rest|].
  - destruct (length (c :: s) - length rest)%nat; [constructor|]; auto.
  - constructor; auto.
Qed.

Lemma prefix_bound (Q : pychar -> Prop) (c : pychar) (l1 l2 m rest : pystr) :
  l1 ++ c :: l2 = m ++ rest -> Forall Q m -> ~ Q c -> (length m <= length l1)%nat.
Proof.
  revert m. induction l1 as [|x l1 IH]; intros m E Hm Hc.
  - destruct m as [|y m]; [simpl; lia|].
    inversion E; subst. inversion Hm; subst. contradiction.
  - destruct m as [|y m]; [simpl; lia|].
    inversion E; subst. inversion Hm; subst. simpl.
    apply le_n_S. eapply IH; eauto.
Qed.

(** A match that starts before a character the pattern cannot consume ends
    before it: what [re.sub] makes of the text up to that character is
    made of characters of that text. *)
Lemma sub_del_barrier (r : regex) (P : pychar -> Prop) (c : pychar) (s : pystr) :
  consumes r c = false ->
  forall a n, (n <= length a)%nat -> Forall P a ->
    exists x, sub_del r n (a ++ c :: s) = x ++ sub_del r 0 (c :: s) /\ Forall P x.
Proof.
  intros Hc a. induction a as [|y a IH]; intros n Hn Ha.
  - exists []. destruct n; [auto|simpl in Hn; lia].
  - inversion Ha as [|? ? Hy Ha']; subst.
    cbn [app sub_del]. destruct n as [|n].
    + destruct (match_at r (y :: a ++ c :: s)) as [rest|] eqn:E.
      * apply match_at_inv in E as (m & E & Hm).
        assert (Hlen : (length m <= length (y :: a))%nat).
        { apply (@prefix_bound (fun z => consumes r z = true) c (y :: a) s m rest); auto.
          rewrite Hc. discriminate. }
        replace (length (y :: a ++ c :: s) - length rest)%nat with (length m).
        2:{ cbn [app] in E. rewrite E, length_app. lia. }
        destruct (length m) as [|k] eqn:Ek.
        -- destruct (IH 0%nat) as (x & Hx & Px); [lia|auto|].
           exists (y :: x). cbn [app]. rewrite Hx. auto.
        -- apply IH; [simpl in Hlen; lia|auto].
      * destruct (IH 0%nat) as (x & Hx & Px); [lia|auto|].
        exists (y :: x). cbn [app]. rewrite Hx. auto.
    + apply IH; [simpl in Hn; lia|auto].
Qed.

(** *** The object itself is left as it is *)

(** Up to a character that [p] does not contain, a text in which [p] does
    not occur is copied by the substitution of a pattern that needs [p]. *)
Lemma sub_del_copy_before (r : regex) (p u : pystr) (e : pychar) (v : pystr) :
  (forall s, strip_prefix p s = None -> match_at r s = None) ->
  is_substring p u = false -> ~ In e p ->
  sub_del r 0 (u ++ e :: v) = u ++ sub_del r 0 (e :: v).
Proof.
  intros Hr Hu He. induction u as [|c u IH]; [reflexivity|].
  apply is_substring_cons in Hu as [H1 H2].
  cbn [app]. rewrite sub_del_cons_none.
  - now rewrite IH.
  - apply Hr. change (c :: u ++ e :: v) with ((c :: u) ++ e :: v).
    now apply strip_prefix_barrier.
Qed.

Lemma sub_del_copy_through (r : regex) (p u : pystr) (e : pychar) (b : pystr) :
  (forall s, strip_prefix p s = None -> match_at r s = None) ->
  is_substring p (u ++ [e]) = false -> ~ In e p ->
  sub_del r 0 ((u ++ [e]) ++ b) = (u ++ [e]) ++ sub_del r 0 b.
Proof.
  intros Hr Hu He. rewrite <- !app_assoc. cbn [app].
  rewrite (sub_del_copy_before r p u e b Hr (is_substring_app_false _ _ _ Hu) He).
  rewrite sub_del_cons_none; [reflexivity|].
  apply Hr. apply (strip_prefix_barrier p [] e b He).
  apply is_substring_nil. now apply (is_substring_app_false p [] (u ++ [e])).
Qed.

Lemma drop_while_solid (l : pystr) (e : pychar) (b : pystr) :
  is_space e = false ->
  exists l1 l2, l = l1 ++ l2 /\ drop_while is_space (l ++ e :: b) = l2 ++ e :: b.
Proof.
  intros He. induction l as [|x l IH]; cbn [app drop_while].
  - rewrite He. now exists [], [].
  - destruct (is_space x).
    + destruct IH as (l1 & l2 & -> & E). now exists (x :: l1), l2.
    + now exists [], (x :: l).
Qed.

Lemma sub_del_fence_copy (o : pystr) (e : pychar) (b : pystr) :
  is_substring (str "```") (o ++ [e]) = false -> is_space e = false -> e <> backtick ->
  sub_del fence_re 0 ((o ++ [e]) ++ b) = (o ++ [e]) ++ sub_del fence_re 0 b.
Proof.
  intros Ho He Hb.
  assert (Hin : ~ In e (str "```")).
  { intros Hin. vm_compute in Hin. unfold backtick in Hb. intuition congruence. }
  induction o as [|c o IH].
  - cbn [app]. rewrite sub_del_cons_none; [reflexivity|].
    apply fence_needs_fence. cbn [drop_while]. rewrite He.
    apply (strip_prefix_barrier (str "```") [] e b Hin). reflexivity.
  - pose proof Ho as Hall. cbn [app] in Ho. apply is_substring_cons in Ho as [_ Ho2].
    cbn [app]. rewrite sub_del_cons_none.
    + now rewrite IH.
    + apply fence_needs_fence.
      destruct (@drop_while_solid (c :: o) e b He) as (l1 & l2 & El & E).
      change (c :: (o ++ [e]) ++ b) with (((c :: o) ++ [e]) ++ b).
      rewrite <- app_assoc. cbn [app]. cbn [app] in E. rewrite E.
      apply strip_prefix_barrier; [exact Hin|].
      apply (strip_prefix_app_None _ _ [e]).
      apply (@is_substring_suffix _ _ Hall l1).
      rewrite El, <- app_assoc. reflexivity.
Qed.

(** *** Brace spans *)

Lemma span_end_app (b : pystr) (s : pystr) :
  forall inner, span_end inner s = Some [] -> span_end inner (s ++ b) = Some b.
Proof.
  induction s as [|c s IH]; intros inner H; [discriminate|].
  cbn [app span_end] in *.
  destruct (c =? lbrace).
  - destruct inner; [discriminate|]. auto.
  - destruct (c =? rbrace).
    + destruct inner; [auto|]. inversion H; subst. reflexivity.
    + auto.
Qed.

Lemma span_end_last (s : pystr) :
  forall inner, span_end inner s = Some [] -> exists s0, s = s0 ++ [rbrace].
Proof.
  induction s as [|c s IH]; intros inner H; [discriminate|].
  cbn [span_end] in H.
  assert (Hrec : forall i, span_end i s = Some [] -> exists s0, c :: s = s0 ++ [rbrace]).
  { intros i Hi. destruct (IH i Hi) as (s0 & ->). now exists (c :: s0). }
  destruct (c =? lbrace).
  - destruct inner; [discriminate|]. eauto.
  - destruct (c =? rbrace) eqn:E.
    + destruct inner; [eauto|]. inversion H; subst.
      apply N.eqb_eq in E. subst. now exists [].
    + eauto.
Qed.

Lemma one_level_inv (obj : pystr) :
  one_level obj = true ->
  exists body, obj = lbrace :: body /\ span_end false body = Some [].
Proof.
  destruct obj as [|c body]; [discriminate|]. unfold one_level.
  intros H. apply andb_true_iff in H as [H1 H2]. apply N.eqb_eq in H1. subst.
  exists body. split; [reflexivity|].
  destruct (span_end false body) as [[|? ?]|]; try discriminate. reflexivity.
Qed.



(* ================================================================== *)
(** ** Round trip through the normalizers *)
(* ================================================================== *)

Lemma absent_lacks (c : pychar) (s : pystr) : absent c s = true -> lacks c s.
Proof.
  unfold absent, lacks. rewrite forallb_forall, Forall_forall.
  intros H x Hx. specialize (H x Hx). apply negb_true_iff, N.eqb_neq in H. exact H.
Qed.

Lemma sub_del_match (r : regex) (m rest : pystr) :
  m <> [] -> match_at r (m ++ rest) = Some rest ->
  sub_del r 0 (m ++ rest) = sub_del r 0 rest.
Proof.
  intros Hm H. destruct m as [|c m]; [congruence|].
  cbn [app sub_del] in *. rewrite H.
  replace (length (c :: m ++ rest) - length rest)%nat with (S (length m))
    by (cbn [length]; rewrite length_app; lia).
  apply sub_del_skip.
Qed.

Lemma sub_think_wrapper (think : option pystr) (s : pystr) :
  think_lacks (str "</think>") think = true ->
  sub_del think_re 0 (wrapper think ++ s) = sub_del think_re 0 s.
Proof.
  intros H. destruct think as [t|]; [|reflexivity].
  apply sub_del_match; [discriminate|].
  apply think_match_block. cbn [think_lacks] in H. now apply negb_true_iff in H.
Qed.

Lemma sub_think_copy (a s : pystr) :
  lacks lt_char a -> sub_del think_re 0 (a ++ s) = a ++ sub_del think_re 0 s.
Proof. apply sub_del_copy. intros c t Hc. now apply think_no_start. Qed.

Lemma brace_not_in_tag (e : pychar) :
  e = lbrace \/ e = rbrace -> ~ In e (str "<think>") /\ ~ In e (str "```").
Proof.
  intros [-> | ->]; split; intros Hin; vm_compute in Hin; intuition discriminate.
Qed.

Section FastRoundTrip.
Variable loads : decoder.
Variables (think : option pystr) (a obj b : pystr) (v : pyvalue).
Hypothesis Hthink : think_lacks (str "</think>") think = true.
Hypothesis Ha_think : is_substring (str "<think>") a = false.
Hypothesis Ha_brace : lacks lbrace a.
Hypothesis Hobj_think : is_substring (str "<think>") obj = false.
Hypothesis Hobj_fence : is_substring (str "```") obj = false.
Hypothesis Hobj : one_level obj = true.
Hypothesis Hloads : loads obj = Some v.

Lemma fast_clean_think :
  re_sub_empty think_re (wrapper think ++ a ++ obj ++ b)
  = a ++ obj ++ re_sub_empty think_re b.
Proof.
  unfold re_sub_empty. rewrite sub_think_wrapper by exact Hthink.
  destruct (one_level_inv _ Hobj) as (body & Eobj & Hspan).
  destruct (span_end_last _ _ Hspan) as (body0 & Ebody).
  assert (E : obj = (lbrace :: body0) ++ [rbrace]) by (rewrite Eobj, Ebody; reflexivity).
  rewrite E in *. cbn [app].
  rewrite (sub_del_copy_before think_re (str "<think>") a lbrace ((body0 ++ [rbrace]) ++ b)
             think_needs_tag Ha_think (proj1 (brace_not_in_tag (or_introl eq_refl)))).
  f_equal.
  change (lbrace :: (body0 ++ [rbrace]) ++ b) with (((lbrace :: body0) ++ [rbrace]) ++ b).
  apply (sub_del_copy_through think_re (str "<think>") (lbrace :: body0) rbrace b
           think_needs_tag Hobj_think (proj1 (brace_not_in_tag (or_intror eq_refl)))).
Qed.

Lemma fast_clean_fence (b' : pystr) :
  exists x, re_sub_empty fence_re (a ++ obj ++ b') = x ++ obj ++ re_sub_empty fence_re b'
            /\ lacks lbrace x.
Proof.
  unfold re_sub_empty.
  destruct (one_level_inv _ Hobj) as (body & Eobj & Hspan).
  destruct (span_end_last _ _ Hspan) as (body0 & Ebody).
  assert (Hc : consumes fence_re lbrace = false) by reflexivity.
  rewrite Eobj. cbn [app].
  destruct (@sub_del_barrier fence_re (fun z => z <> lbrace) lbrace (body ++ b') Hc a 0%nat)
    as (x & Hx & Px); [lia|exact Ha_brace|].
  exists x. split; [|exact Px]. rewrite Hx. f_equal.
  change (lbrace :: body ++ b') with ((lbrace :: body) ++ b').
  rewrite Ebody.
  change (lbrace :: body0 ++ [rbrace]) with ((lbrace :: body0) ++ [rbrace]).
  apply sub_del_fence_copy; [|reflexivity|discriminate].
  change ((lbrace :: body0) ++ [rbrace]) with (lbrace :: body0 ++ [rbrace]).
  rewrite <- Ebody, <- Eobj. exact Hobj_fence.
Qed.

Lemma fast_search (x b' : pystr) :
  lacks lbrace x -> re_search json_re (x ++ obj ++ b') = Some obj.
Proof.
  intros Hx. rewrite (@search_skip json_re (fun z => z <> lbrace)); auto.
  2:{ intros c t Hc. rewrite json_match_cons, neq_eqb; congruence. }
  apply search_hit.
  destruct (one_level_inv _ Hobj) as (body & -> & Hspan).
  cbn [app]. rewrite json_match_cons, N.eqb_refl. now apply span_end_app.
Qed.

Lemma fast_roundtrip :
  FastDocumentProcessor._parse_json loads (wrapper think ++ a ++ obj ++ b) = v.
Proof.
  unfold FastDocumentProcessor._parse_json.
  rewrite fast_clean_think.
  destruct (fast_clean_fence (re_sub_empty think_re b)) as (x & -> & Hx).
  rewrite fast_search by exact Hx.
  now rewrite Hloads.
Qed.

End FastRoundTrip.

Section SimpleRoundTrip.
Variable loads : decoder.
Variables (think : option pystr) (a mid b : pystr) (v : pyvalue).
Hypothesis Hthink_tag : think_lacks (str "</think>") think = true.
Hypothesis Hthink_tick : forall t, think = Some t -> lacks backtick t.
Hypothesis Ha_lt : lacks lt_char a.
Hypothesis Ha_brace : lacks lbrace a.
Hypothesis Hobj_think : is_substring (str "<think>") (braced mid) = false.
Hypothesis Hobj_fence : is_substring (str "```") (braced mid) = false.
Hypothesis Hb : lacks rbrace b.
Hypothesis Hloads : loads (braced mid) = Some v.

Lemma wrapper_lacks_tick : lacks backtick (wrapper think).
Proof.
  destruct think as [t|] eqn:E; [|constructor].
  unfold wrapper, think_block. apply Forall_app. split; [|apply Forall_app; split].
  - apply absent_lacks. reflexivity.
  - now apply Hthink_tick.
  - apply absent_lacks. reflexivity.
Qed.

(** One of the two fence substitutions of [_parse_response]. *)
Lemma simple_clean_fence (r : regex) (x b' : pystr) :
  (forall s, strip_prefix (str "```") s = None -> match_at r s = None) ->
  consumes r lbrace = false ->
  plain_prefix x -> lacks rbrace b' ->
  exists x' b'',
    re_sub_empty r (wrapper think ++ x ++ braced mid ++ b')
    = wrapper think ++ x' ++ braced mid ++ b''
    /\ plain_prefix x' /\ lacks rbrace b''.
Proof.
  intros Hneeds Hc Hx Hb'. unfold re_sub_empty.
  rewrite (@sub_del_copy r (fun z => z <> backtick)); [| |exact wrapper_lacks_tick].
  2:{ intros c t Hc'. apply Hneeds. change (str "```") with (backtick :: str "``").
      now apply strip_prefix_head. }
  unfold braced. cbn [app].
  destruct (@sub_del_barrier r (fun z => z <> lt_char /\ z <> lbrace) lbrace
              ((mid ++ [rbrace]) ++ b') Hc x 0%nat) as (x' & Hx' & Px'); [lia|exact Hx|].
  exists x', (sub_del r 0 b'). rewrite Hx'. split; [|split; [exact Px'|]].
  - do 2 f_equal.
    change (lbrace :: (mid ++ [rbrace]) ++ b') with (((lbrace :: mid) ++ [rbrace]) ++ b').
    apply (sub_del_copy_through r (str "```") (lbrace :: mid) rbrace b' Hneeds Hobj_fence
             (proj2 (brace_not_in_tag (or_intror eq_refl)))).
  - now apply sub_del_Forall.
Qed.

Lemma simple_search (x b' : pystr) :
  plain_prefix x -> lacks rbrace b' ->
  re_search json_greedy_re (x ++ braced mid ++ b') = Some (braced mid).
Proof.
  intros Hx Hb'.
  rewrite (@search_skip json_greedy_re (fun z => z <> lt_char /\ z <> lbrace)); auto.
  2:{ intros c t [_ Hc]. rewrite json_greedy_match_cons, neq_eqb; congruence. }
  apply search_hit. unfold braced. cbn [app].
  rewrite json_greedy_match_cons, N.eqb_refl, <- app_assoc. cbn [app].
  now apply after_last_rbrace_app.
Qed.

Lemma simple_roundtrip :
  SimpleDocumentProcessor._parse_response loads (wrapper think ++ a ++ braced mid ++ b) = v.
Proof.
  unfold SimpleDocumentProcessor._parse_response.
  assert (Ha : plain_prefix a).
  { unfold plain_prefix. unfold lacks in *. rewrite Forall_forall in *. auto. }
  destruct (@simple_clean_fence fence_json_re a b) as (x1 & b1 & -> & Hx1 & Hb1); auto.
  { apply fence_json_needs_fence. }
  destruct (@simple_clean_fence fence_any_re x1 b1) as (x2 & b2 & -> & Hx2 & Hb2); auto.
  { apply fence_any_needs_fence. }
  unfold re_sub_empty at 1 2. rewrite sub_think_wrapper by exact Hthink_tag.
  rewrite sub_think_copy.
  2:{ unfold plain_prefix in Hx2. unfold lacks. rewrite Forall_forall in *.
      intros z Hz. now apply Hx2. }
  change (braced mid ++ b2) with (((lbrace :: mid) ++ [rbrace]) ++ b2).
  rewrite (sub_del_copy_through think_re (str "<think>") (lbrace :: mid) rbrace b2
             think_needs_tag Hobj_think (proj1 (brace_not_in_tag (or_intror eq_refl)))).
  change ((lbrace :: mid) ++ [rbrace]) with (braced mid).
  rewrite simple_search; auto.
  - now rewrite Hloads.
  - now apply sub_del_Forall.
Qed.

End SimpleRoundTrip.

(* ================================================================== *)
(** ** Dictionaries *)
(* ================================================================== *)

Lemma dict_get_set_same (d : pydict) (k : pystr) (v : pyvalue) :
  dict_get (dict_set d k v) k = Some v.
Proof.
  induction d as [|[k' v'] d IH]; simpl.
  - now rewrite str_eqb_refl.
  - destruct (str_eqb k' k) eqn:E; simpl; now rewrite E.
Qed.

Lemma dict_get_set_other (d : pydict) (k k' : pystr) (v : pyvalue) :
  str_eqb k k' = false -> dict_get (dict_set d k v) k' = dict_get d k'.
Proof.
  intros H. induction d as [|[k0 v0] d IH]; simpl.
  - now rewrite H.
  - destruct (str_eqb k0 k) eqn:E; simpl.
    + apply str_eqb_eq in E. subst k0. now rewrite H.
    + now rewrite IH.
Qed.

(* ================================================================== *)
(** ** The aggregate confidence *)
(* ================================================================== *)

Lemma py_sum_floats_from (fs : list float) (acc : float) :
  fold_left (fun a v => x <- a ;; py_add x v) (map PyFloat fs) (Ok (PyFloat acc))
  = Ok (PyFloat (fold_left PrimFloat.add fs acc)).
Proof. revert acc. induction fs as [|f fs IH]; intros acc; [reflexivity|]. simpl. apply IH. Qed.

Lemma sum_floats_floats {py : interpreter} (fs : list float) (acc : float * float) :
  sum_floats acc (map PyFloat fs) = Ok (PyFloat (compensated (fold_left neumaier_step fs acc))).
Proof.
  revert acc. induction fs as [|f fs IH]; intros acc; [reflexivity|].
  cbn [map sum_floats fold_left]. apply IH.
Qed.

Lemma py_sum_floats {py : interpreter} (f : float) (fs : list float) :
  py_sum (map PyFloat (f :: fs)) = Ok (PyFloat (float_sum (f :: fs))).
Proof.
  unfold py_sum, float_sum. destruct float_summation.
  - unfold sum_generic. cbn [map fold_left].
    change (x <- Ok (PyInt 0) ;; py_add x (PyFloat f)) with (Ok (PyFloat (0 + f)%float)).
    apply py_sum_floats_from.
  - cbn [map sum_ints int_item].
    change (py_add (PyInt 0) (PyFloat f)) with (Ok (PyFloat (0 + f)%float)).
    apply sum_floats_floats.
Qed.

Lemma mean_of_floats {py : interpreter} (f : float) (fs : list float) :
  (total <- py_sum (map PyFloat (f :: fs)) ;;
   py_truediv_int total (Pos.of_nat (length (map PyFloat (f :: fs)))))
  = Ok (spec_mean (f :: fs)).
Proof.
  rewrite py_sum_floats. cbn [bind py_truediv_int]. unfold spec_mean.
  rewrite length_map. do 3 f_equal.
  cbn [length]. now rewrite <- Pos.of_nat_succ.
Qed.



(** The confidence values that enter the mean. *)

Lemma round2_default : round2 0.6%float = 0.6%float.
Proof. vm_compute. reflexivity. Qed.

Lemma fast_confidence {py : interpreter}
  (extractions : list pydict) (total_pages : Z) (fs : list float) :
  FastDocumentProcessor.confidences extractions = map PyFloat fs ->
  exists r, FastDocumentProcessor._combine_simple extractions total_pages = Ok r /\
    dict_get r (str "confidence")
    = Some (PyFloat (match fs with
                     | [] => 0.6%float
                     | _ :: _ => round2 (spec_mean fs)
                     end)).
Proof.
  intros H. unfold FastDocumentProcessor._combine_simple. rewrite H.
  destruct fs as [|f fs].
  - cbn [map FastDocumentProcessor.avg_conf bind]. eexists. split; [reflexivity|].
    rewrite <- round2_default at 2. reflexivity.
  - change (FastDocumentProcessor.avg_conf (map PyFloat (f :: fs)))
      with (total <- py_sum (map PyFloat (f :: fs)) ;;
            py_truediv_int total (Pos.of_nat (length (map PyFloat (f :: fs))))).
    rewrite mean_of_floats. cbn [bind]. eexists. split; reflexivity.
Qed.

Lemma simple_confidence {py : interpreter} (extractions : list pydict) (fs : list float) :
  extractions <> [] ->
  SimpleDocumentProcessor.confidences extractions = map PyFloat fs ->
  exists r, SimpleDocumentProcessor._combine_pages extractions = Ok r /\
    dict_get r (str "confidence")
    = Some (PyFloat (match fs with
                     | [] => 0.7%float
                     | _ :: _ => spec_mean fs
                     end)).
Proof.
  intros Hne H. unfold SimpleDocumentProcessor._combine_pages.
  destruct extractions as [|first rest]; [congruence|]. rewrite H.
  destruct fs as [|f fs].
  - cbn [map SimpleDocumentProcessor.avg_confidence bind]. eexists. split; reflexivity.
  - change (SimpleDocumentProcessor.avg_confidence (map PyFloat (f :: fs)))
      with (total <- py_sum (map PyFloat (f :: fs)) ;;
            py_truediv_int total (Pos.of_nat (length (map PyFloat (f :: fs))))).
    rewrite mean_of_floats. cbn [bind]. eexists. split; reflexivity.
Qed.

Lemma doc_type_loop_find (extractions : list pydict) (default : pyvalue) :
  Some (FastDocumentProcessor.doc_type_loop extractions default)
  = match find typed_success extractions with
    | Some e => dict_get e (str "type")
    | None => Some default
    end.
Proof.
  induction extractions as [|e rest IH]; [reflexivity|].
  cbn [FastDocumentProcessor.doc_type_loop find]. unfold typed_success at 1.
  destruct (succeeded e && dict_has e (str "type")) eqn:E; [|exact IH].
  apply andb_true_iff in E as [_ E]. unfold dict_has, dict_get_default in *.
  now destruct (dict_get e (str "type")).
Qed.

Lemma fast_document_type {py : interpreter}
  (extractions : list pydict) (total_pages : Z) (r : pydict) :
  FastDocumentProcessor._combine_simple extractions total_pages = Ok r ->
  dict_get r (str "document_type")
  = match find typed_success extractions with
    | Some e => dict_get e (str "type")
    | None => Some (PyStr (str "document"))
    end.
Proof.
  unfold FastDocumentProcessor._combine_simple.
  destruct (FastDocumentProcessor.avg_conf _) as [avg|e]; cbn [bind]; [|discriminate].
  intros H. inversion H; subst r. rewrite <- doc_type_loop_find. reflexivity.
Qed.

Lemma simple_document_type {py : interpreter} (extractions : list pydict) (r : pydict) :
  SimpleDocumentProcessor._combine_pages extractions = Ok r ->
  exists first rest, extractions = first :: rest /\
    dict_get r (str "document_type")
    = Some (dict_get_default first (str "document_type") (PyStr (str "unknown"))).
Proof.
  unfold SimpleDocumentProcessor._combine_pages.
  destruct extractions as [|first rest]; [discriminate|].
  destruct (SimpleDocumentProcessor.avg_confidence _) as [avg|e]; cbn [bind]; [|discriminate].
  intros H. inversion H; subst r. exists first, rest. split; reflexivity.
Qed.

(* ================================================================== *)
(** ** What the normalizers return *)
(* ================================================================== *)

Lemma span_end_len (s : pystr) :
  forall inner r, span_end inner s = Some r -> (length r < length s)%nat.
Proof.
  induction s as [|c s IH]; intros inner r H; [discriminate|].
  cbn [span_end] in H. cbn [length].
  destruct (c =? lbrace).
  - destruct inner; [discriminate|]. apply IH in H. lia.
  - destruct (c =? rbrace).
    + destruct inner; [apply IH in H; lia|]. inversion H; subst. lia.
    + apply IH in H. lia.
Qed.

Lemma after_last_rbrace_len (s r : pystr) :
  after_last_rbrace s = Some r -> (length r < length s)%nat.
Proof.
  revert r. induction s as [|c s IH]; intros r H; [discriminate|].
  cbn [after_last_rbrace] in H. cbn [length].
  destruct (after_last_rbrace s) as [r'|].
  - inversion H; subst. specialize (IH r eq_refl). lia.
  - destruct (rbrace =? c); [|discriminate]. inversion H; subst. lia.
Qed.

Lemma search_head (r : regex) (s m : pystr) :
  match_at r [] = None ->
  (forall c t rest, match_at r (c :: t) = Some rest ->
     c = lbrace /\ (length rest <= length t)%nat) ->
  re_search r s = Some m -> exists m', m = lbrace :: m'.
Proof.
  intros Hnil Hcons. revert m. induction s as [|c s IH]; intros m H; rewrite re_search_eq in H.
  - rewrite Hnil in H. discriminate.
  - destruct (match_at r (c :: s)) as [rest|] eqn:E; [|now apply IH].
    apply Hcons in E as [-> Hlen].
    replace (length (lbrace :: s) - length rest)%nat with (S (length s - length rest)) in H
      by (cbn [length]; lia).
    cbn [firstn] in H. injection H as Hm. subst m. eexists. reflexivity.
Qed.

Lemma search_json_head (s m : pystr) :
  re_search json_re s = Some m -> exists m', m = lbrace :: m'.
Proof.
  apply search_head; [reflexivity|].
  intros c t rest H. rewrite json_match_cons in H.
  destruct (lbrace =? c) eqn:E; [|discriminate].
  apply N.eqb_eq in E. apply span_end_len in H. split; [auto|lia].
Qed.

Lemma search_json_greedy_head (s m : pystr) :
  re_search json_greedy_re s = Some m -> exists m', m = lbrace :: m'.
Proof.
  apply search_head; [reflexivity|].
  intros c t rest H. rewrite json_greedy_match_cons in H.
  destruct (lbrace =? c) eqn:E; [|discriminate].
  apply N.eqb_eq in E. apply after_last_rbrace_len in H. split; [auto|lia].
Qed.

Lemma parse_json_dict (loads : decoder) (response : pystr) :
  decodes_objects loads ->
  exists d, FastDocumentProcessor._parse_json loads response = PyDict d.
Proof.
  intros Hl. unfold FastDocumentProcessor._parse_json.
  destruct (re_search json_re _) as [m|] eqn:E; [|eauto].
  destruct (loads m) as [v|] eqn:El; [|eauto].
  apply search_json_head in E as (m' & ->). eapply Hl; eauto.
Qed.

Lemma parse_response_dict (loads : decoder) (response : pystr) :
  decodes_objects loads ->
  exists d, SimpleDocumentProcessor._parse_response loads response = PyDict d.
Proof.
  intros Hl. unfold SimpleDocumentProcessor._parse_response.
  destruct (re_search json_greedy_re _) as [m|] eqn:E; [|eauto].
  destruct (loads m) as [v|] eqn:El; [|eauto].
  apply search_json_greedy_head in E as (m' & ->). eapply Hl; eauto.
Qed.

(** The reference decoder decodes objects. *)
Lemma parse_members_dict (fuel : nat) :
  forall s acc v r, parse_members fuel s acc = Some (v, r) -> exists d, v = PyDict d.
Proof.
  induction fuel as [|f IH]; intros s acc v r H; [discriminate|].
  cbn [parse_members] in H.
  destruct (scan_string s) as [[key r0]|]; [|discriminate].
  destruct (skip_ws r0) as [|c r1]; [discriminate|].
  destruct (c =? colon); [|discriminate].
  destruct (parse_value f (skip_ws r1)) as [[v' r2]|]; [|discriminate].
  destruct (skip_ws r2) as [|c2 r3]; [discriminate|].
  destruct (c2 =? rbrace).
  - inversion H; subst. eauto.
  - destruct (c2 =? comma); [|discriminate].
    destruct (skip_ws r3) as [|c3 r4]; [discriminate|].
    destruct (c3 =? dquote); [|discriminate]. eauto.
Qed.

Lemma json_loads_objects : decodes_objects json_loads.
Proof.
  intros m v H. unfold json_loads in H.
  change (skip_ws (lbrace :: m)) with (lbrace :: m) in H.
  cbn [parse_value] in H.
  change (lbrace =? dquote) with false in H. change (lbrace =? lbrace) with true in H.
  cbv iota in H.
  destruct (skip_ws m) as [|c1 s2].
  - discriminate.
  - destruct (c1 =? rbrace).
    + cbv beta iota in H. destruct (skip_ws s2); [|discriminate]. inversion H; subst. eauto.
    + destruct (c1 =? dquote); [|discriminate].
      destruct (parse_members (length (lbrace :: m)) s2 []) as [[v' r]|] eqn:E; [|discriminate].
      destruct (skip_ws r); [|discriminate]. inversion H; subst.
      eapply parse_members_dict; eauto.
Qed.

(* ================================================================== *)
(** ** Page extractors *)
(* ================================================================== *)

Lemma fast_record_success {py : interpreter}
  (loads : decoder) (result : pydict) (n : Z) (sv : pyvalue)
  (rec : pydict) :
  dict_get result (str "success") = Some sv -> truthy sv = true ->
  FastDocumentProcessor.page_record loads result n = Ok rec ->
  dict_get rec (str "page") = Some (PyInt n) /\
  dict_get rec (str "success") = Some (PyBool true) /\
  exists content parsed,
    dict_get result (str "content") = Some content /\
    FastDocumentProcessor._parse_json_dyn loads content = Ok (PyDict parsed) /\
    rec = dict_set (dict_set parsed (str "page") (PyInt n)) (str "success") (PyBool true).
Proof.
  intros Hs Ht. unfold FastDocumentProcessor.page_record, dict_getitem.
  rewrite Hs. cbn [bind]. rewrite Ht.
  destruct (dict_get result (str "content")) as [content|]; cbn [bind]; [|discriminate].
  destruct (FastDocumentProcessor._parse_json_dyn loads content) as [parsed|e] eqn:Ep;
    cbn [bind]; [|discriminate].
  destruct parsed as [| | | | | |d]; cbn [py_setitem bind]; try discriminate.
  intros H. inversion H; subst rec. split; [|split].
  - rewrite dict_get_set_other by reflexivity. apply dict_get_set_same.
  - apply dict_get_set_same.
  - exists content, d. auto.
Qed.

Lemma fast_record_returns {py : interpreter}
  (loads : decoder) (result : pydict) (n : Z) (sv : pyvalue)
  (s : pystr) :
  decodes_objects loads ->
  dict_get result (str "success") = Some sv -> truthy sv = true ->
  dict_get result (str "content") = Some (PyStr s) ->
  exists d, FastDocumentProcessor._parse_json loads s = PyDict d /\
    FastDocumentProcessor.page_record loads result n
    = Ok (dict_set (dict_set d (str "page") (PyInt n)) (str "success") (PyBool true)).
Proof.
  intros Hl Hs Ht Hc. destruct (parse_json_dict s Hl) as (d & Hd). exists d. split; [exact Hd|].
  unfold FastDocumentProcessor.page_record, dict_getitem.
  rewrite Hs. cbn [bind]. rewrite Ht, Hc. cbn [bind FastDocumentProcessor._parse_json_dyn].
  rewrite Hd. reflexivity.
Qed.

Lemma fast_record_failure {py : interpreter}
  (loads : decoder) (result : pydict) (n : Z) (sv : pyvalue) :
  dict_get result (str "success") = Some sv -> truthy sv = false ->
  FastDocumentProcessor.page_record loads result n
  = Ok [(str "page", PyInt n);
        (str "success", PyBool false);
        (str "error", dict_get_default result (str "error") (PyStr (str "Unknown error")));
        (str "type", PyStr (str "unknown"));
        (str "confidence", PyFloat 0%float)].
Proof.
  intros Hs Ht. unfold FastDocumentProcessor.page_record, dict_getitem.
  rewrite Hs. cbn [bind]. rewrite Ht. reflexivity.
Qed.

Lemma simple_record_failure (loads : decoder) (result : pydict) (n : Z) (sv err : pyvalue) :
  dict_get result (str "success") = Some sv -> truthy sv = false ->
  dict_get result (str "error") = Some err ->
  SimpleDocumentProcessor.page_record loads result n
  = Ok [(str "page_number", PyInt n); (str "error", err)].
Proof.
  intros Hs Ht He. unfold SimpleDocumentProcessor.page_record, dict_getitem.
  rewrite Hs. cbn [bind]. rewrite Ht, He. reflexivity.
Qed.



(* ================================================================== *)
(** ** Document aggregators *)
(* ================================================================== *)

Lemma failed_answer_good (loads : decoder) (result : pydict) :
  failed_answer result -> good_answer loads result.
Proof.
  intros (sv & err & Hs & Ht & _). exists sv. split; [exact Hs|].
  intros H. congruence.
Qed.

Lemma page_record_good {py : interpreter} (loads : decoder) (result : pydict) (n : Z) :
  good_answer loads result ->
  exists rec, FastDocumentProcessor.page_record loads result n = Ok rec /\ conf_ok rec.
Proof.
  intros (sv & Hs & Hsucc). destruct (truthy sv) eqn:Ht.
  - destruct (Hsucc eq_refl) as (s & d & Hc & Hd & Hconf).
    exists (dict_set (dict_set d (str "page") (PyInt n)) (str "success") (PyBool true)).
    split.
    + unfold FastDocumentProcessor.page_record, dict_getitem.
      rewrite Hs. cbn [bind]. rewrite Ht, Hc. cbn [bind FastDocumentProcessor._parse_json_dyn].
      rewrite Hd. reflexivity.
    + unfold conf_ok. now rewrite !dict_get_set_other by reflexivity.
  - rewrite (fast_record_failure loads result n Hs Ht). eexists. split; [reflexivity|].
    exact I.
Qed.

Section FastLoop.
Context {py : interpreter} {world image : Type}.
Variable query : gateway world image.
Variable loads : decoder.

Lemma fast_loop_length (pages : list image) :
  forall w i acc exts w',
    FastDocumentProcessor.extract_loop query loads w i pages acc = (Ok exts, w') ->
    length exts = (length acc + length pages)%nat.
Proof.
  induction pages as [|img rest IH]; intros w i acc exts w' H; cbn [FastDocumentProcessor.extract_loop] in H.
  - inversion H; subst. simpl. lia.
  - destruct (FastDocumentProcessor._extract_page_fast query loads w img i) as [[e|x] w1];
      [|discriminate].
    apply IH in H. rewrite H, length_app. simpl. lia.
Qed.

Lemma fast_loop_good (pages : list image) :
  answers query (good_answer loads) ->
  forall w i acc, Forall conf_ok acc ->
    exists exts w',
      FastDocumentProcessor.extract_loop query loads w i pages acc = (Ok exts, w') /\
      Forall conf_ok exts.
Proof.
  intros Hq. induction pages as [|img rest IH]; intros w i acc Hacc;
    cbn [FastDocumentProcessor.extract_loop].
  - eauto.
  - unfold FastDocumentProcessor._extract_page_fast.
    destruct (Hq w {| req_text := FastDocumentProcessor.prompt; req_images := [img];
                      req_max_tokens := 500; req_temperature := 0.1%float |})
      as (result & w1 & -> & Hgood).
    cbn [bind]. destruct (page_record_good i Hgood) as (rec & -> & Hrec).
    apply IH. apply Forall_app. auto.
Qed.

End FastLoop.

Lemma confidences_floats (exts : list pydict) :
  Forall conf_ok exts -> exists fs, FastDocumentProcessor.confidences exts = map PyFloat fs.
Proof.
  unfold FastDocumentProcessor.confidences.
  induction 1 as [|e exts He _ (fs & IH)]; [now exists []|].
  cbn [filter]. destruct (succeeded e); [|eauto].
  cbn [map]. rewrite IH. unfold conf_ok, dict_get_default in *.
  destruct (dict_get e (str "confidence")) as [[| | |f| | |]|]; try contradiction.
  - now exists (f :: fs).
  - now exists (0.5%float :: fs).
Qed.

Lemma combine_simple_fields {py : interpreter} (exts : list pydict) (total : Z) (r : pydict) :
  FastDocumentProcessor._combine_simple exts total = Ok r ->
  dict_get r (str "total_pages") = Some (PyInt total) /\
  dict_get r (str "processed_pages") = Some (PyInt (Z.of_nat (length exts))) /\
  dict_get r (str "status") = Some (PyStr (str "success")) /\
  dict_get r (str "extracted_content")
  = Some (PyDict [(str "pages", PyList (map PyDict exts))]).
Proof.
  unfold FastDocumentProcessor._combine_simple.
  destruct (FastDocumentProcessor.avg_conf _) as [avg|e]; cbn [bind]; [|discriminate].
  intros H. inversion H; subst r. repeat split; reflexivity.
Qed.

Section FastProcess.
Context {py : interpreter} {world image : Type}.
Variable query : gateway world image.
Variable loads : decoder.

Lemma fast_process_fields (w : world) (images : list image) (r : pydict) (w' : world) :
  FastDocumentProcessor.process_document query loads w images = (Ok r, w') ->
  dict_get r (str "processed_pages") = Some (PyInt (Z.of_nat (Nat.min (length images) 3))) /\
  dict_get r (str "total_pages") = Some (PyInt (Z.of_nat (length images))) /\
  dict_get r (str "status") = Some (PyStr (str "success")).
Proof.
  unfold FastDocumentProcessor.process_document.
  destruct (FastDocumentProcessor.extract_loop _ _ _ _ _ _) as [[exts|e] w1] eqn:E;
    [|discriminate].
  intros H. inversion H; subst w1.
  apply fast_loop_length in E. cbn [length] in E.
  rewrite length_firstn in E.
  apply combine_simple_fields in H1 as (Ht & Hp & Hs & _).
  rewrite Hp, Ht, Hs, E. repeat split. do 3 f_equal. lia.
Qed.

Lemma fast_process_returns (w : world) (images : list image) :
  answers query (good_answer loads) ->
  exists r w', FastDocumentProcessor.process_document query loads w images = (Ok r, w').
Proof.
  intros Hq. unfold FastDocumentProcessor.process_document.
  destruct (@fast_loop_good _ _ _ query loads
              (firstn (Nat.min 3 (length images)) images) Hq w 1%Z [])
    as (exts & w' & -> & Hexts); [constructor|].
  destruct (confidences_floats Hexts) as (fs & Hfs).
  destruct (fast_confidence exts (Z.of_nat (length images)) fs Hfs) as (r & -> & _).
  eauto.
Qed.

End FastProcess.

(** *** The thorough profile *)

Section SimpleProcess.
Context {py : interpreter} {world image : Type}.
Variable query : gateway world image.
Variable loads : decoder.

Lemma simple_loop_length (images : list image) :
  forall w i acc exts w',
    SimpleDocumentProcessor.extract_loop query loads w i images acc = (Ok exts, w') ->
    length exts = (length acc + length images)%nat.
Proof.
  induction images as [|img rest IH]; intros w i acc exts w' H;
    cbn [SimpleDocumentProcessor.extract_loop] in H.
  - inversion H; subst. simpl. lia.
  - destruct (query w _) as [r w1].
    destruct (result <- r ;; SimpleDocumentProcessor.page_record loads result i) as [rec|x];
      [|discriminate].
    apply IH in H. rewrite H, length_app. simpl. lia.
Qed.

Lemma simple_loop_failed (images : list image) :
  answers query failed_answer ->
  forall w i acc, Forall no_conf acc ->
    exists exts w',
      SimpleDocumentProcessor.extract_loop query loads w i images acc = (Ok exts, w') /\
      Forall no_conf exts.
Proof.
  intros Hq. induction images as [|img rest IH]; intros w i acc Hacc;
    cbn [SimpleDocumentProcessor.extract_loop].
  - eauto.
  - destruct (Hq w {| req_text := SimpleDocumentProcessor.prompt i; req_images := [img];
                      req_max_tokens := 800; req_temperature := 0.1%float |})
      as (result & w1 & -> & sv & err & Hs & Ht & He).
    cbn [bind]. rewrite (simple_record_failure loads result i Hs Ht He).
    apply IH. apply Forall_app. split; [exact Hacc|]. repeat constructor.
Qed.

Lemma simple_process_status (w : world) (images : list image) (r : pydict) (w' : world) :
  SimpleDocumentProcessor.process_document query loads w images = (Ok r, w') ->
  dict_get r (str "status") = Some (PyStr (str "success")).
Proof.
  unfold SimpleDocumentProcessor.process_document.
  destruct (SimpleDocumentProcessor._extract_all_pages _ _ _ _) as [[exts|e] w1];
    [|discriminate].
  intros H. inversion H as [[H1 H2]]. clear H H2.
  destruct (length images =? 1)%nat.
  - destruct exts as [|first rest]; [discriminate|]. cbn [bind] in H1.
    destruct (format_2f _); [|discriminate]. cbn [bind] in H1. inversion H1; subst r.
    reflexivity.
  - unfold SimpleDocumentProcessor._combine_pages in H1.
    destruct exts as [|first rest]; [discriminate|].
    destruct (SimpleDocumentProcessor.avg_confidence _) as [avg|e]; [|discriminate].
    cbn [bind] in H1.
    destruct (format_2f _); [|discriminate]. cbn [bind] in H1. inversion H1; subst r.
    reflexivity.
Qed.

Lemma no_conf_confidences (exts : list pydict) :
  Forall no_conf exts -> SimpleDocumentProcessor.confidences exts = [].
Proof.
  unfold SimpleDocumentProcessor.confidences.
  induction 1 as [|e exts He _ IH]; [reflexivity|].
  cbn [filter]. unfold no_conf in He. now rewrite He.
Qed.

Lemma simple_process_returns_failed (w : world) (images : list image) :
  answers query failed_answer -> images <> [] ->
  exists r w', SimpleDocumentProcessor.process_document query loads w images = (Ok r, w').
Proof.
  intros Hq Hne. unfold SimpleDocumentProcessor.process_document,
    SimpleDocumentProcessor._extract_all_pages.
  destruct (simple_loop_failed images Hq w 1%Z (acc := [])) as (exts & w' & E & Hexts);
    [constructor|].
  rewrite E. apply simple_loop_length in E. cbn [length] in E.
  destruct exts as [|first rest]; [destruct images; [congruence|discriminate]|].
  destruct (length images =? 1)%nat.
  - cbn [bind]. inversion Hexts as [|? ? Hfirst _]; subst.
    unfold no_conf, dict_has in Hfirst.
    assert (Hc : dict_get_default (SimpleDocumentProcessor._format_single_page first)
                   (str "confidence") (PyInt 0) = PyFloat 0.7%float).
    { unfold SimpleDocumentProcessor._format_single_page, dict_get_default at 3.
      destruct (dict_get first (str "confidence")); [discriminate|]. reflexivity. }
    rewrite Hc. cbn [format_2f bind]. eauto.
  - unfold SimpleDocumentProcessor._combine_pages.
    rewrite (no_conf_confidences Hexts). cbn [SimpleDocumentProcessor.avg_confidence bind].
    eexists. eexists. reflexivity.
Qed.

End SimpleProcess.



(* ================================================================== *)
(** ** The model gateway *)
(* ================================================================== *)

Section GatewayFacts.
Import Qwen3VLClient.
Context {image response : Type}.
Variable env : environment image response.
Variable self : client.
Variables (text : pystr) (images : option (list (image_input image))).
Variables (max_tokens : Z) (temperature : float) (stream : bool).
Variable kwargs : list (pystr * pyvalue).

Lemma query_try_ok (d : pydict) :
  query_try env self text images max_tokens temperature stream kwargs = Ok d ->
  d = failure (str "Unexpected response format") \/
  exists result content,
    generated_content result = Ok content /\
    dict_get d (str "success") = Some (PyBool true) /\
    dict_get d (str "content") = Some content /\
    dict_get d (str "raw_response") = Some result.
Proof.
  unfold query_try.
  destruct (match images with Some (i :: rest) => _ | _ => _ end) as [content|e];
    cbn [bind]; [|discriminate].
  destruct (session_post env _ _ _) as [resp|e]; cbn [bind]; [|discriminate].
  destruct (raise_for_status env resp) as [[]|e]; cbn [bind]; [|discriminate].
  destruct (response_json env resp) as [result|e]; cbn [bind]; [|discriminate].
  destruct (py_contains result (str "choices")) as [has|e]; cbn [bind]; [|discriminate].
  destruct (if has then _ else _) as [nonempty|e]; cbn [bind]; [|discriminate].
  destruct nonempty; [|intros H; inversion H; now left].
  destruct (py_getitem_str result (str "choices")) as [choices|e] eqn:E1; cbn [bind];
    [|discriminate].
  destruct (py_getitem_0 choices) as [choice|e] eqn:E2; cbn [bind]; [|discriminate].
  destruct (py_getitem_str choice (str "message")) as [message|e] eqn:E3; cbn [bind];
    [|discriminate].
  destruct (py_getitem_str message (str "content")) as [c|e] eqn:E4; cbn [bind];
    [|discriminate].
  destruct result as [| | | | | |dr]; try discriminate.
  intros H. inversion H; subst d. right. exists (PyDict dr), c.
  unfold generated_content. rewrite E1. cbn [bind]. rewrite E2. cbn [bind].
  rewrite E3. cbn [bind]. rewrite E4. repeat split; reflexivity.
Qed.

Lemma query_handlers :
  query env self text images max_tokens temperature stream kwargs
  = match query_try env self text images max_tokens temperature stream kwargs with
    | Ok d => Ok d
    | Raise e => Ok (failure (if is_timeout e then str "Request timeout" else exc_str e))
    end.
Proof.
  unfold query. destruct (query_try _ _ _ _ _ _ _ _) as [d|e]; [reflexivity|].
  destruct (is_timeout e); [reflexivity|].
  destruct (is_request_exception e); reflexivity.
Qed.

End GatewayFacts.


(** *** The client of the repository as the gateway of the processors *)

Lemma add_images_ok {image response : Type} (env : Qwen3VLClient.environment image response)
  (imgs : list image) :
  (forall i, exists png, Qwen3VLClient.save_png env i = Ok png) ->
  forall content, exists content',
    Qwen3VLClient.add_images env (map Qwen3VLClient.InImage imgs) content = Ok content'.
Proof.
  intros Hpng. induction imgs as [|i imgs IH]; intros content.
  - now exists content.
  - cbn [map Qwen3VLClient.add_images Qwen3VLClient._image_to_base64].
    destruct (Hpng i) as (png & ->). cbn [bind]. apply IH.
Qed.

Lemma answering_query (content : pyvalue) (self : Qwen3VLClient.client)
  (text : pystr) (imgs : list unit) (max_tokens : Z) (temperature : float) :
  Qwen3VLClient.query (answering_env content) self text
    (Some (map Qwen3VLClient.InImage imgs)) max_tokens temperature false []
  = Ok [(str "success", PyBool true);
        (str "content", content);
        (str "model", PyStr (Qwen3VLClient.model_name self));
        (str "usage", PyDict []);
        (str "raw_response",
          PyDict [(str "choices",
                   PyList [PyDict [(str "message", PyDict [(str "content", content)])]])])].
Proof.
  unfold Qwen3VLClient.query, Qwen3VLClient.query_try.
  destruct imgs as [|i imgs]; [reflexivity|].
  cbn [map].
  destruct (@add_images_ok unit unit (answering_env content) (i :: imgs)
              (fun _ => ex_intro _ _ eq_refl)
              [PyDict (dict_of [(str "type", PyStr (str "text")); (str "text", PyStr text)])])
    as (c & Hc).
  cbn [map] in Hc. rewrite Hc. reflexivity.
Qed.

Lemma post_raising_query (e : exc) (self : Qwen3VLClient.client)
  (text : pystr) (imgs : list unit) (max_tokens : Z) (temperature : float) :
  Qwen3VLClient.query (post_raising_env e) self text
    (Some (map Qwen3VLClient.InImage imgs)) max_tokens temperature false []
  = Ok (Qwen3VLClient.failure
          (if Qwen3VLClient.is_timeout e then str "Request timeout" else exc_str e)).
Proof.
  rewrite query_handlers. unfold Qwen3VLClient.query_try.
  destruct imgs as [|i imgs]; [reflexivity|].
  cbn [map].
  destruct (@add_images_ok unit unit (post_raising_env e) (i :: imgs)
              (fun _ => ex_intro _ _ eq_refl)
              [PyDict (dict_of [(str "type", PyStr (str "text")); (str "text", PyStr text)])])
    as (c & Hc).
  cbn [map] in Hc. rewrite Hc. reflexivity.
Qed.

(** An endpoint that always answers with a text that normalizes to a
    mapping with a float confidence is a gateway all of whose answers are
    good. *)
Lemma answering_gateway_good (s : pystr) (d : pydict) :
  FastDocumentProcessor._parse_json json_loads s = PyDict d -> conf_ok d ->
  answers (Qwen3VLClient.as_gateway (fun _ => answering_env (PyStr s))
             Qwen3VLClient.default_client)
          (good_answer json_loads).
Proof.
  intros Hd Hc w req. unfold Qwen3VLClient.as_gateway. rewrite answering_query.
  eexists. eexists. split; [reflexivity|].
  exists (PyBool true). split; [reflexivity|]. intros _. exists s, d. auto.
Qed.

(** An endpoint that never answers is a gateway all of whose calls fail. *)
Lemma failing_gateway_fails (e : exc) :
  answers (Qwen3VLClient.as_gateway (fun _ => post_raising_env e) Qwen3VLClient.default_client)
          failed_answer.
Proof.
  intros w req. unfold Qwen3VLClient.as_gateway. rewrite post_raising_query.
  eexists. eexists. split; [reflexivity|].
  exists (PyBool false). eexists. repeat split; reflexivity.
Qed.

(** The single-page scenario of the specification. *)
Example single_invoice_page :
  let query := Qwen3VLClient.as_gateway
                 (fun _ => answering_env
                    (PyStr (jstr "{'type':'invoice','confidence':0.9,'main_content':'...', 'amounts':{'total':'$500'}}")))
                 Qwen3VLClient.default_client in
  exists r,
    FastDocumentProcessor.process_document query json_loads 0%nat [tt] = (Ok r, 1%nat) /\
    dict_get r (str "document_type") = Some (PyStr (str "invoice")) /\
    dict_get r (str "confidence") = Some (PyFloat 0.9%float) /\
    dict_get r (str "processed_pages") = Some (PyInt 1) /\
    dict_get r (str "note") = Some (PyStr (str "Fast mode")).
Proof. eexists. split; [vm_compute; reflexivity|]. repeat split; vm_compute; reflexivity. Qed.

(** A page whose confidence is not a number: [sum] raises and no document
    result is returned. *)
Example confidence_not_a_number :
  let query := Qwen3VLClient.as_gateway
                 (fun _ => answering_env (PyStr (jstr "{'type': 'invoice', 'confidence': 'high'}")))
                 Qwen3VLClient.default_client in
  exists e, FastDocumentProcessor.process_document query json_loads 0%nat [tt] = (Raise e, 1%nat)
            /\ exc_cls e = ExcTypeError.
Proof. eexists. split; vm_compute; reflexivity. Qed.

(* ================================================================== *)
(** ** Text without reasoning block or fences is left as it is *)
(* ================================================================== *)

Lemma drop_while_In (p : pychar -> bool) (s : pystr) (c : pychar) (r : pystr) :
  drop_while p s = c :: r -> In c s.
Proof.
  induction s as [|x s IH]; cbn [drop_while]; [discriminate|].
  destruct (p x); intros H.
  - right. auto.
  - inversion H; subst. now left.
Qed.

Lemma fence_no_match_lacks (s : pystr) :
  lacks backtick s -> match_at fence_re s = None.
Proof.
  intros Hs. destruct (drop_while is_space s) as [|c r] eqn:E.
  - unfold match_at, fence_re. rewrite re_match_alt, !re_match_seq.
    assert (H1 : re_match (RStr (str "```json")) s
                   (fun s1 => re_match (RStar RSpace) s1 Some) = None).
    { destruct s as [|x s]; [reflexivity|]. apply re_match_str_head. now inversion Hs. }
    rewrite H1, re_match_star_space, star_class_fail.
    + now rewrite E.
    + intros x t Hx. apply re_match_str_head. intros ->. discriminate.
  - apply (@fence_no_start s c r E).
    unfold lacks in Hs. rewrite Forall_forall in Hs. apply Hs.
    eapply drop_while_In; eauto.
Qed.

Lemma sub_fence_id (s : pystr) : lacks backtick s -> re_sub_empty fence_re s = s.
Proof.
  unfold re_sub_empty. induction 1 as [|c s Hc Hs IH]; [reflexivity|].
  rewrite sub_del_cons_none; [now rewrite IH|].
  apply fence_no_match_lacks. now constructor.
Qed.

Lemma sub_think_id (s : pystr) : lacks lt_char s -> re_sub_empty think_re s = s.
Proof.
  intros H. unfold re_sub_empty. rewrite <- (app_nil_r s) at 1.
  rewrite sub_think_copy by exact H. apply app_nil_r.
Qed.

(* ================================================================== *)
(** ** Text without a brace has no brace span *)
(* ================================================================== *)

Lemma span_end_no_rbrace (s : pystr) :
  lacks rbrace s -> forall inner, span_end inner s = None.
Proof.
  induction 1 as [|c s Hc _ IH]; intros inner; [reflexivity|].
  cbn [span_end]. rewrite (neq_eqb Hc).
  destruct (c =? lbrace); [destruct inner|]; auto.
Qed.

Lemma after_last_rbrace_none (s : pystr) :
  lacks rbrace s -> after_last_rbrace s = None.
Proof.
  induction 1 as [|c s Hc _ IH]; [reflexivity|].
  cbn [after_last_rbrace]. rewrite IH.
  destruct (rbrace =? c) eqn:E; [|reflexivity].
  apply N.eqb_eq in E. congruence.
Qed.

Lemma search_none (r : regex) (P : pychar -> Prop) (s : pystr) :
  match_at r [] = None ->
  (forall c t, P c -> Forall P t -> match_at r (c :: t) = None) ->
  Forall P s -> re_search r s = None.
Proof.
  intros Hnil Hr. induction 1 as [|c s Hc Hs IH]; rewrite re_search_eq.
  - now rewrite Hnil.
  - now rewrite (Hr c s Hc Hs).
Qed.

Lemma search_json_none (e : pychar) (s : pystr) :
  e = lbrace \/ e = rbrace -> lacks e s -> re_search json_re s = None.
Proof.
  intros He. apply search_none; [reflexivity|].
  intros c t Hc Ht. rewrite json_match_cons.
  destruct (lbrace =? c) eqn:E; [|reflexivity].
  apply N.eqb_eq in E. destruct He as [-> | ->]; [congruence|].
  now apply span_end_no_rbrace.
Qed.

Lemma search_json_greedy_none (e : pychar) (s : pystr) :
  e = lbrace \/ e = rbrace -> lacks e s -> re_search json_greedy_re s = None.
Proof.
  intros He. apply search_none; [reflexivity|].
  intros c t Hc Ht. rewrite json_greedy_match_cons.
  destruct (lbrace =? c) eqn:E; [|reflexivity].
  apply N.eqb_eq in E. destruct He as [-> | ->]; [congruence|].
  now apply after_last_rbrace_none.
Qed.

(* ================================================================== *)
(** ** The properties of the specification *)
(* ================================================================== *)

(** *** Response normalizer *)

(** C1, as the code has it.  Let the raw text be an optional reasoning block
    [<think>t</think>], then any text [a], then a JSON object text
    [obj = braced mid], then any text [b], where [t] does not contain the
    closing tag, [a] contains no opening brace, [obj] contains neither the
    opening tag nor a fence of three backticks, and [loads obj] is the value
    [v].  Then the fast normalizer returns [v] whenever [a] does not contain
    the opening tag and the braces of [obj], those inside string literals
    included, nest at most one level deep; and the thorough normalizer
    returns [v] whenever [a] contains no [<], [t] no backtick and [b] no
    closing brace. *)
Theorem normalizer_roundtrip (loads : decoder) (think : option pystr)
  (a mid b : pystr) (v : pyvalue) :
  think_lacks (str "</think>") think = true ->
  absent lbrace a = true ->
  is_substring (str "<think>") (braced mid) = false ->
  is_substring (str "```") (braced mid) = false ->
  loads (braced mid) = Some v ->
  (is_substring (str "<think>") a = false -> one_level (braced mid) = true ->
   FastDocumentProcessor._parse_json loads (wrapper think ++ a ++ braced mid ++ b) = v) /\
  (absent lt_char a = true -> think_absent backtick think = true -> absent rbrace b = true ->
   SimpleDocumentProcessor._parse_response loads (wrapper think ++ a ++ braced mid ++ b) = v).
Proof.
  intros Ht Ha Ho1 Ho2 Hl. split.
  - intros Ha' Hone. apply fast_roundtrip; auto using absent_lacks.
  - intros Ha' Htick Hb. apply simple_roundtrip; auto using absent_lacks.
    intros t ->. now apply absent_lacks.
Qed.

Lemma normalizer_roundtrip_witness :
  let raw := jstr "<think>The page {looks} like an invoice.</think>

```json
{'type': 'invoice', 'confidence': 0.9, 'amounts': {'total': '< $500'}}
```" in
  let v := PyDict [(str "type", PyStr (str "invoice"));
                   (str "confidence", PyFloat 0.9%float);
                   (str "amounts", PyDict [(str "total", PyStr (str "< $500"))])] in
  FastDocumentProcessor._parse_json json_loads raw = v /\
  SimpleDocumentProcessor._parse_response json_loads raw = v.
Proof.
  intros raw v.
  destruct (@normalizer_roundtrip json_loads
              (Some (str "The page {looks} like an invoice."))
              (jstr "

```json
")
              (jstr "'type': 'invoice', 'confidence': 0.9, 'amounts': {'total': '< $500'}")
              (jstr "
```")
              v) as [Hfast Hsimple]; try reflexivity.
  split; [apply Hfast|apply Hsimple]; reflexivity.
Defined.

(** C1 as stated fails: the object below is well formed and has no nested
    object, but the brace span stops at the closing brace inside its
    string, the decoder rejects that span, and the degraded record is
    returned. *)
Lemma brace_in_string_not_recovered :
  let raw := jstr "{'a': '}'}" in
  json_loads raw = Some (PyDict [(str "a", PyStr (str "}"))]) /\
  re_search json_re raw = Some (jstr "{'a': '}") /\
  FastDocumentProcessor._parse_json json_loads raw
  = PyDict [(str "type", PyStr (str "document"));
            (str "confidence", PyFloat 0.5%float);
            (str "raw", PyStr raw)] /\
  FastDocumentProcessor._parse_json json_loads raw <> PyDict [(str "a", PyStr (str "}"))].
Proof.
  intros raw. split; [|split; [|split]]; try (vm_compute; reflexivity).
  intros H. vm_compute in H. discriminate.
Qed.

(** C2, as the code has it.  Write [cleaned] for the text left when the
    normalizer has removed reasoning blocks and fence markers.  For every
    decoder that gives a mapping or raises on a text that starts with an
    opening brace, and for every raw text, each normalizer returns a
    mapping.  The mapping of the fast normalizer is what the decoder gave
    for the brace span of [cleaned], with the keys the model wrote; or,
    when the decoder rejects the span, the record of type [document],
    confidence 0.5 and the excerpt under [raw]; or, when there is no span,
    the record of type [document], confidence 0.6 and the excerpt under
    [main_content]: both records have the keys [type] and [confidence].
    The mapping of the thorough normalizer is what the decoder gave for the
    brace span of its cleaned text, or, when there is no span or the decoder
    rejects it, the record whose only key is [raw_content], with the whole
    cleaned text. *)
Theorem normalizer_returns_mapping (loads : decoder) (response : pystr) :
  decodes_objects loads ->
  let cleaned := re_sub_empty fence_re (re_sub_empty think_re response) in
  let cleaned' := re_sub_empty think_re
                    (re_sub_empty fence_any_re (re_sub_empty fence_json_re response)) in
  (exists d, FastDocumentProcessor._parse_json loads response = PyDict d /\
     ((exists m, re_search json_re cleaned = Some m /\ loads m = Some (PyDict d)) \/
      (dict_has d (str "type") = true /\ dict_has d (str "confidence") = true /\
       ((exists m, re_search json_re cleaned = Some m /\ loads m = None) /\
        d = [(str "type", PyStr (str "document"));
             (str "confidence", PyFloat 0.5%float);
             (str "raw", PyStr (slice_to 200 cleaned))] \/
        re_search json_re cleaned = None /\
        d = [(str "type", PyStr (str "document"));
             (str "confidence", PyFloat 0.6%float);
             (str "main_content", PyStr (slice_to 200 cleaned))])))) /\
  (exists d, SimpleDocumentProcessor._parse_response loads response = PyDict d /\
     ((exists m, re_search json_greedy_re cleaned' = Some m /\ loads m = Some (PyDict d)) \/
      (((exists m, re_search json_greedy_re cleaned' = Some m /\ loads m = None) \/
        re_search json_greedy_re cleaned' = None) /\
       d = [(str "raw_content", PyStr cleaned')]))).
Proof.
  intros Hl cleaned cleaned'. split.
  - unfold FastDocumentProcessor._parse_json. fold cleaned.
    destruct (re_search json_re cleaned) as [m|] eqn:E.
    + destruct (loads m) as [v|] eqn:El.
      * destruct (search_json_head _ E) as (m' & ->).
        destruct (Hl m' v El) as (d & ->). exists d. split; [reflexivity|]. left. eauto.
      * eexists. split; [reflexivity|]. right.
        split; [reflexivity|]. split; [reflexivity|]. left. split; [eauto|reflexivity].
    + eexists. split; [reflexivity|]. right.
      split; [reflexivity|]. split; [reflexivity|]. right. split; reflexivity.
  - unfold SimpleDocumentProcessor._parse_response. fold cleaned'.
    destruct (re_search json_greedy_re cleaned') as [m|] eqn:E.
    + destruct (loads m) as [v|] eqn:El.
      * destruct (search_json_greedy_head _ E) as (m' & ->).
        destruct (Hl m' v El) as (d & ->). exists d. split; [reflexivity|]. left. eauto.
      * eexists. split; [reflexivity|]. right. split; [left; eauto|reflexivity].
    + eexists. split; [reflexivity|]. right. split; [now right|reflexivity].
Qed.

Lemma normalizer_returns_mapping_witness :
  (exists d,
     FastDocumentProcessor._parse_json json_loads fenced_answer = PyDict d /\
     re_search json_re (re_sub_empty fence_re (re_sub_empty think_re fenced_answer))
     = Some (jstr "{'type': 'invoice', 'total': {'amount': 12.5}}") /\
     json_loads (jstr "{'type': 'invoice', 'total': {'amount': 12.5}}") = Some (PyDict d) /\
     dict_has d (str "confidence") = false) /\
  (exists d,
     SimpleDocumentProcessor._parse_response json_loads (str "I cannot read this page.")
     = PyDict d /\
     d = [(str "raw_content", PyStr (str "I cannot read this page."))]).
Proof.
  split.
  - destruct (@normalizer_returns_mapping json_loads fenced_answer json_loads_objects)
      as [(d & Hd & [(m & Hm & Hv) | (Ht & Hc & H)]) _].
    + exists d. split; [exact Hd|]. split; [vm_compute; reflexivity|].
      assert (Hm' : Some m = Some (jstr "{'type': 'invoice', 'total': {'amount': 12.5}}")).
      { rewrite <- Hm. vm_compute. reflexivity. }
      inversion Hm'; subst m. split; [exact Hv|].
      vm_compute in Hv. inversion Hv. reflexivity.
    + exfalso. destruct H as [[(m & Hm & Hv) _] | [Hn _]].
      * vm_compute in Hm. inversion Hm; subst m. vm_compute in Hv. discriminate.
      * vm_compute in Hn. discriminate.
  - destruct (@normalizer_returns_mapping json_loads (str "I cannot read this page.")
                json_loads_objects)
      as [_ (d & Hd & [(m & Hm & Hv) | (_ & H)])].
    + vm_compute in Hm. discriminate.
    + exists d. split; [exact Hd|]. rewrite H. vm_compute. reflexivity.
Defined.

(** C2 as stated fails: a decoded object is returned with the keys the
    model gave it, and the thorough normalizer's fallback has neither
    [type] nor [confidence]. *)
Lemma returned_mapping_may_lack_type :
  FastDocumentProcessor._parse_json json_loads (str "{}") = PyDict [] /\
  dict_has [] (str "type") = false /\
  SimpleDocumentProcessor._parse_response json_loads (str "I cannot read this page.")
  = PyDict [(str "raw_content", PyStr (str "I cannot read this page."))] /\
  dict_has [(str "raw_content", PyStr (str "I cannot read this page."))] (str "type") = false.
Proof. repeat split; vm_compute; reflexivity. Qed.

(** C3, as the code has it.  Write [cleaned] for the text left when the
    normalizer has removed reasoning blocks and fence markers.  When the
    fast normalizer finds no brace span, which is the case of every raw
    text without an opening brace or without a closing one, it returns type
    [document], confidence 0.6 and, under [main_content], the first 200
    characters of [cleaned]; when the decoder rejects the span it returns
    type [document], confidence 0.5 and the same excerpt under [raw].  The
    excerpt has at most 200 characters, and [cleaned] is the raw text itself
    when that contains neither [<] nor a backtick.  The thorough normalizer
    returns in both cases only [raw_content], the whole of its cleaned
    text. *)
Theorem degraded_record (loads : decoder) (response : pystr) :
  let cleaned := re_sub_empty fence_re (re_sub_empty think_re response) in
  let cleaned' := re_sub_empty think_re
                    (re_sub_empty fence_any_re (re_sub_empty fence_json_re response)) in
  (re_search json_re cleaned = None ->
   FastDocumentProcessor._parse_json loads response
   = PyDict [(str "type", PyStr (str "document"));
             (str "confidence", PyFloat 0.6%float);
             (str "main_content", PyStr (slice_to 200 cleaned))]) /\
  (absent lbrace response = true \/ absent rbrace response = true ->
   FastDocumentProcessor._parse_json loads response
   = PyDict [(str "type", PyStr (str "document"));
             (str "confidence", PyFloat 0.6%float);
             (str "main_content", PyStr (slice_to 200 cleaned))] /\
   SimpleDocumentProcessor._parse_response loads response
   = PyDict [(str "raw_content", PyStr cleaned')]) /\
  (forall m, re_search json_re cleaned = Some m -> loads m = None ->
   FastDocumentProcessor._parse_json loads response
   = PyDict [(str "type", PyStr (str "document"));
             (str "confidence", PyFloat 0.5%float);
             (str "raw", PyStr (slice_to 200 cleaned))]) /\
  (length (slice_to 200 cleaned) <= 200)%nat /\
  (exists rest, cleaned = slice_to 200 cleaned ++ rest) /\
  (absent lt_char response = true -> absent backtick response = true ->
   cleaned = response) /\
  (re_search json_greedy_re cleaned' = None \/
   (exists m, re_search json_greedy_re cleaned' = Some m /\ loads m = None) ->
   SimpleDocumentProcessor._parse_response loads response
   = PyDict [(str "raw_content", PyStr cleaned')]).
Proof.
  intros cleaned cleaned'. repeat split.
  - intros H. unfold FastDocumentProcessor._parse_json. fold cleaned. now rewrite H.
  - unfold FastDocumentProcessor._parse_json. fold cleaned.
    rewrite (@search_json_none (if absent lbrace response then lbrace else rbrace) cleaned);
      [reflexivity|destruct (absent lbrace response); auto|].
    unfold cleaned, re_sub_empty. do 2 apply sub_del_Forall.
    destruct (absent lbrace response) eqn:E; [now apply absent_lacks|].
    destruct H as [H|H]; [discriminate|now apply absent_lacks].
  - unfold SimpleDocumentProcessor._parse_response. fold cleaned'.
    rewrite (@search_json_greedy_none (if absent lbrace response then lbrace else rbrace) cleaned');
      [reflexivity|destruct (absent lbrace response); auto|].
    unfold cleaned', re_sub_empty. do 3 apply sub_del_Forall.
    destruct (absent lbrace response) eqn:E; [now apply absent_lacks|].
    destruct H as [H|H]; [discriminate|now apply absent_lacks].
  - intros m H Hl. unfold FastDocumentProcessor._parse_json. fold cleaned. now rewrite H, Hl.
  - apply firstn_le_length.
  - exists (skipn 200 cleaned). symmetry. apply firstn_skipn.
  - intros H1 H2. unfold cleaned.
    rewrite (sub_think_id (absent_lacks _ _ H1)). apply sub_fence_id. now apply absent_lacks.
  - intros H. unfold SimpleDocumentProcessor._parse_response. fold cleaned'.
    destruct H as [H|(m & H & Hl)]; rewrite H; [reflexivity|now rewrite Hl].
Qed.

Lemma degraded_record_witness :
  FastDocumentProcessor._parse_json json_loads (str "I cannot read this page.")
  = PyDict [(str "type", PyStr (str "document"));
            (str "confidence", PyFloat 0.6%float);
            (str "main_content", PyStr (str "I cannot read this page."))] /\
  SimpleDocumentProcessor._parse_response json_loads (str "I cannot read this page.")
  = PyDict [(str "raw_content", PyStr (str "I cannot read this page."))].
Proof.
  exact (proj1 (proj2 (degraded_record json_loads (str "I cannot read this page.")))
               (or_introl eq_refl)).
Defined.

(** C3 as stated fails: the thorough normalizer's degraded record has no
    [type] and no [confidence] and keeps the whole text, and the excerpt of
    the fast normalizer is cut from the cleaned text, which need not be a
    prefix of the raw text. *)
Lemma degraded_record_differs :
  SimpleDocumentProcessor._parse_response json_loads (str "I cannot read this page.")
  = PyDict [(str "raw_content", PyStr (str "I cannot read this page."))] /\
  FastDocumentProcessor._parse_json json_loads (str "<think>hm</think>I cannot read this page.")
  = PyDict [(str "type", PyStr (str "document"));
            (str "confidence", PyFloat 0.6%float);
            (str "main_content", PyStr (str "I cannot read this page."))] /\
  strip_prefix (str "I cannot read this page.")
               (str "<think>hm</think>I cannot read this page.") = None.
Proof. repeat split; vm_compute; reflexivity. Qed.

(** *** Document aggregator *)

(** C4: under the fast profile, a returned document result has
    [processed_pages = min(P, 3)] and [total_pages = P] for a document of
    [P] pages; and a result is returned whenever every answer of the
    gateway is a failure or a text from which the normalizer recovers a
    mapping whose confidence, if present, is a float. *)
Theorem fast_page_counts {py : interpreter} {world image : Type} (query : gateway world image)
  (loads : decoder) (w : world) (images : list image) :
  (forall r w',
     FastDocumentProcessor.process_document query loads w images = (Ok r, w') ->
     dict_get r (str "processed_pages") = Some (PyInt (Z.of_nat (Nat.min (length images) 3))) /\
     dict_get r (str "total_pages") = Some (PyInt (Z.of_nat (length images)))) /\
  (answers query (good_answer loads) ->
   exists r w', FastDocumentProcessor.process_document query loads w images = (Ok r, w')).
Proof.
  split.
  - intros r w' H. apply fast_process_fields in H as (H1 & H2 & _). auto.
  - apply fast_process_returns.
Qed.

Lemma fast_page_counts_witness :
  let query := Qwen3VLClient.as_gateway
                 (fun _ => answering_env (PyStr (jstr "{'type': 'invoice', 'confidence': 0.9}")))
                 Qwen3VLClient.default_client in
  exists r w',
    FastDocumentProcessor.process_document query json_loads 0%nat [tt; tt; tt; tt; tt]
    = (Ok r, w') /\
    dict_get r (str "processed_pages") = Some (PyInt 3) /\
    dict_get r (str "total_pages") = Some (PyInt 5).
Proof.
  intros query.
  destruct (fast_page_counts query json_loads 0%nat [tt; tt; tt; tt; tt]) as [Hfields Hreturns].
  destruct Hreturns as (r & w' & E).
  { apply (@answering_gateway_good _ [(str "type", PyStr (str "invoice"));
                                       (str "confidence", PyFloat 0.9%float)]).
    - vm_compute. reflexivity.
    - exact I. }
  exists r, w'. split; [exact E|]. exact (Hfields r w' E).
Defined.

(** The five-page scenario of the specification, through [Qwen3VLClient]. *)
Example five_pages_fast :
  let query := Qwen3VLClient.as_gateway
                 (fun _ => answering_env (PyStr (jstr "{'type': 'invoice', 'confidence': 0.9}")))
                 Qwen3VLClient.default_client in
  exists r,
    FastDocumentProcessor.process_document query json_loads 0%nat [tt; tt; tt; tt; tt]
    = (Ok r, 3%nat) /\
    dict_get r (str "processed_pages") = Some (PyInt 3) /\
    dict_get r (str "total_pages") = Some (PyInt 5) /\
    dict_get r (str "document_type") = Some (PyStr (str "invoice")) /\
    dict_get r (str "confidence") = Some (PyFloat 0.9%float) /\
    dict_get r (str "note") = Some (PyStr (str "Fast mode - first 3 pages only")).
Proof. eexists. split; [vm_compute; reflexivity|]. repeat split; vm_compute; reflexivity. Qed.







(** C9: a document result returned by either processor has status
    [success]; and when every call of the gateway fails, a result is still
    returned, by the fast processor for every page list and by the thorough
    one for every page list that is not empty. *)
Theorem status_always_success {py : interpreter} {world image : Type} (query : gateway world image)
  (loads : decoder) (w : world) (images : list image) :
  (forall r w',
     FastDocumentProcessor.process_document query loads w images = (Ok r, w') ->
     dict_get r (str "status") = Some (PyStr (str "success"))) /\
  (forall r w',
     SimpleDocumentProcessor.process_document query loads w images = (Ok r, w') ->
     dict_get r (str "status") = Some (PyStr (str "success"))) /\
  (answers query failed_answer ->
   (exists r w', FastDocumentProcessor.process_document query loads w images = (Ok r, w')) /\
   (images <> [] ->
    exists r w', SimpleDocumentProcessor.process_document query loads w images = (Ok r, w'))).
Proof.
  split; [|split].
  - intros r w' H. now apply fast_process_fields in H as (_ & _ & H).
  - intros r w'. apply simple_process_status.
  - intros Hq. split.
    + apply fast_process_returns. intros w0 req.
      destruct (Hq w0 req) as (result & w1 & E & Hf).
      exists result, w1. split; [exact E|]. now apply failed_answer_good.
    + intros Hne. now apply simple_process_returns_failed.
Qed.

Lemma status_always_success_witness :
  let query := Qwen3VLClient.as_gateway
                 (fun _ => post_raising_env {| exc_cls := ExcTimeout;
                                               exc_str := str "Read timed out." |})
                 Qwen3VLClient.default_client in
  (exists r w',
     FastDocumentProcessor.process_document query json_loads 0%nat [tt; tt] = (Ok r, w') /\
     dict_get r (str "status") = Some (PyStr (str "success"))) /\
  (exists r w',
     SimpleDocumentProcessor.process_document query json_loads 0%nat [tt; tt] = (Ok r, w') /\
     dict_get r (str "status") = Some (PyStr (str "success"))).
Proof.
  intros query.
  destruct (status_always_success query json_loads 0%nat [tt; tt]) as (Hfast & Hsimple & Hreturns).
  destruct (Hreturns (failing_gateway_fails _)) as [(r & w' & E) Hs].
  destruct Hs as (r2 & w2 & E2); [discriminate|].
  split.
  - exists r, w'. split; [exact E|]. exact (Hfast r w' E).
  - exists r2, w2. split; [exact E2|]. exact (Hsimple r2 w2 E2).
Defined.

(** The scenario of the specification in which every page times out. *)
Example all_pages_time_out :
  let query := Qwen3VLClient.as_gateway
                 (fun _ => post_raising_env {| exc_cls := ExcTimeout;
                                               exc_str := str "HTTPConnectionPool: Read timed out." |})
                 Qwen3VLClient.default_client in
  exists r,
    FastDocumentProcessor.process_document query json_loads 0%nat [tt; tt]
    = (Ok r, 2%nat) /\
    dict_get r (str "status") = Some (PyStr (str "success")) /\
    dict_get r (str "confidence") = Some (PyFloat 0.6%float) /\
    dict_get r (str "document_type") = Some (PyStr (str "document")).
Proof. eexists. split; [vm_compute; reflexivity|]. repeat split; vm_compute; reflexivity. Qed.

(** *** Page extractor *)

(** C8, as the code has it.  When the gateway answers with a mapping whose
    [success] is false, the fast extractor returns the record with [page]
    the page number, [success] false, [error] the answer's [error] (or
    [Unknown error]), [type] [unknown] and [confidence] 0.0; the thorough
    extractor appends, for an answer that has an [error], the record made
    of [page_number] and [error] only.  Neither raises. *)
Theorem failed_page_record {py : interpreter} {world image : Type} (query : gateway world image)
  (loads : decoder) (w : world) (img : image) (page_num : Z)
  (result : pydict) (w1 : world) (sv : pyvalue) :
  dict_get result (str "success") = Some sv -> truthy sv = false ->
  (query w {| req_text := FastDocumentProcessor.prompt; req_images := [img];
              req_max_tokens := 500; req_temperature := 0.1%float |} = (Ok result, w1) ->
   FastDocumentProcessor._extract_page_fast query loads w img page_num
   = (Ok [(str "page", PyInt page_num);
          (str "success", PyBool false);
          (str "error", dict_get_default result (str "error") (PyStr (str "Unknown error")));
          (str "type", PyStr (str "unknown"));
          (str "confidence", PyFloat 0%float)], w1)) /\
  (forall err results,
     query w {| req_text := SimpleDocumentProcessor.prompt page_num; req_images := [img];
                req_max_tokens := 800; req_temperature := 0.1%float |} = (Ok result, w1) ->
     dict_get result (str "error") = Some err ->
     SimpleDocumentProcessor.extract_loop query loads w page_num [img] results
     = (Ok (results ++ [[(str "page_number", PyInt page_num); (str "error", err)]]), w1)).
Proof.
  intros Hs Ht. split.
  - intros Hq. unfold FastDocumentProcessor._extract_page_fast. rewrite Hq. cbn [bind].
    now rewrite (fast_record_failure loads result page_num Hs Ht).
  - intros err results Hq He. cbn [SimpleDocumentProcessor.extract_loop].
    rewrite Hq. cbn [bind].
    now rewrite (simple_record_failure loads result page_num Hs Ht He).
Qed.

Lemma failed_page_record_witness :
  let query := Qwen3VLClient.as_gateway
                 (fun _ => post_raising_env {| exc_cls := ExcTimeout;
                                               exc_str := str "Read timed out." |})
                 Qwen3VLClient.default_client in
  FastDocumentProcessor._extract_page_fast query json_loads 0%nat tt 1
  = (Ok [(str "page", PyInt 1);
         (str "success", PyBool false);
         (str "error", PyStr (str "Request timeout"));
         (str "type", PyStr (str "unknown"));
         (str "confidence", PyFloat 0%float)], 1%nat).
Proof.
  intros query.
  apply (@failed_page_record _ nat unit query json_loads 0%nat tt 1%Z
           (Qwen3VLClient.failure (str "Request timeout")) 1%nat (PyBool false));
    reflexivity.
Defined.

(** C8 as stated fails under the thorough profile: the record of a failed
    page has no [success], [type] or [confidence], and its page number is
    under [page_number]. *)
Lemma simple_failed_record :
  let query := Qwen3VLClient.as_gateway
                 (fun _ => post_raising_env {| exc_cls := ExcTimeout;
                                               exc_str := str "Read timed out." |})
                 Qwen3VLClient.default_client in
  let rec := [(str "page_number", PyInt 1); (str "error", PyStr (str "Request timeout"))] in
  SimpleDocumentProcessor._extract_all_pages query json_loads 0%nat [tt] = (Ok [rec], 1%nat) /\
  dict_get rec (str "success") = None /\
  dict_get rec (str "type") = None /\
  dict_get rec (str "confidence") = None /\
  dict_get rec (str "page") = None.
Proof. intros query rec. repeat split; vm_compute; reflexivity. Qed.

(** C10: when the gateway answers with a mapping whose [success] is true,
    every record the fast extractor returns has [page] equal to the page
    number and [success] true, whatever the model wrote under those keys;
    and it returns such a record whenever the content is a text (and the
    decoder gives a mapping or raises on a brace span). *)
Theorem fast_page_stamps {py : interpreter} {world image : Type} (query : gateway world image)
  (loads : decoder) (w : world) (img : image) (page_num : Z)
  (result : pydict) (w1 : world) (sv : pyvalue) :
  query w {| req_text := FastDocumentProcessor.prompt; req_images := [img];
             req_max_tokens := 500; req_temperature := 0.1%float |} = (Ok result, w1) ->
  dict_get result (str "success") = Some sv -> truthy sv = true ->
  (forall rec w',
     FastDocumentProcessor._extract_page_fast query loads w img page_num = (Ok rec, w') ->
     dict_get rec (str "page") = Some (PyInt page_num) /\
     dict_get rec (str "success") = Some (PyBool true)) /\
  (decodes_objects loads ->
   forall s, dict_get result (str "content") = Some (PyStr s) ->
     exists d, FastDocumentProcessor._parse_json loads s = PyDict d /\
       FastDocumentProcessor._extract_page_fast query loads w img page_num
       = (Ok (dict_set (dict_set d (str "page") (PyInt page_num))
                       (str "success") (PyBool true)), w1)).
Proof.
  intros Hq Hs Ht. unfold FastDocumentProcessor._extract_page_fast. rewrite Hq. cbn [bind].
  split.
  - intros rec w' H. inversion H as [[H1 H2]].
    destruct (fast_record_success loads result page_num Hs Ht H1) as (Hp & Hsu & _). auto.
  - intros Hl s Hc.
    destruct (fast_record_returns result page_num Hl Hs Ht Hc) as (d & Hd & Hrec).
    exists d. split; [exact Hd|]. now rewrite Hrec.
Qed.

Lemma fast_page_stamps_witness :
  let query := Qwen3VLClient.as_gateway
                 (fun _ => answering_env
                    (PyStr (jstr "{'page': 99, 'type': 'invoice', 'success': false}")))
                 Qwen3VLClient.default_client in
  FastDocumentProcessor._extract_page_fast query json_loads 0%nat tt 7
  = (Ok [(str "page", PyInt 7); (str "type", PyStr (str "invoice"));
         (str "success", PyBool true)], 1%nat).
Proof.
  intros query.
  destruct (@fast_page_stamps _ nat unit query json_loads 0%nat tt 7%Z
              [(str "success", PyBool true);
               (str "content", PyStr (jstr "{'page': 99, 'type': 'invoice', 'success': false}"));
               (str "model", PyStr (str "qwen3vl-4b"));
               (str "usage", PyDict []);
               (str "raw_response",
                 PyDict [(str "choices",
                          PyList [PyDict [(str "message",
                            PyDict [(str "content",
                              PyStr (jstr "{'page': 99, 'type': 'invoice', 'success': false}"))])]])])]
              1%nat (PyBool true) eq_refl eq_refl eq_refl) as [_ H].
  destruct (H json_loads_objects _ eq_refl) as (d & Hd & Hrec).
  rewrite Hrec. vm_compute in Hd. inversion Hd; subst d. reflexivity.
Defined.

(** *** Model gateway *)

Section QueryOutcome.
Context {image response : Type}.
Variable env : Qwen3VLClient.environment image response.
Variable self : Qwen3VLClient.client.
Variables (text : pystr) (images : option (list (Qwen3VLClient.image_input image))).
Variables (max_tokens : Z) (temperature : float) (stream : bool).
Variable kwargs : list (pystr * pyvalue).

Lemma query_try_steps :
  Qwen3VLClient.query_try env self text images max_tokens temperature stream kwargs
  = (result <- decoded_response env self text images max_tokens temperature stream kwargs ;;
     read_response self result).
Proof.
  unfold Qwen3VLClient.query_try, decoded_response.
  assert (Hc : match images with
               | Some (i :: rest) =>
                   Qwen3VLClient.add_images env (i :: rest)
                     [PyDict (dict_of [(str "type", PyStr (str "text"));
                                       (str "text", PyStr text)])]
               | _ => Ok [PyDict (dict_of [(str "type", PyStr (str "text"));
                                           (str "text", PyStr text)])]
               end = message_content env text images).
  { destruct images as [[|i rest]|]; reflexivity. }
  rewrite Hc. destruct (message_content env text images) as [content|e]; [|reflexivity].
  cbn [bind]. unfold payload.
  destruct (Qwen3VLClient.session_post env _ _ _) as [resp|e]; [|reflexivity].
  cbn [bind].
  destruct (Qwen3VLClient.raise_for_status env resp) as [[]|e]; [|reflexivity].
  cbn [bind].
  destruct (Qwen3VLClient.response_json env resp) as [result|e]; reflexivity.
Qed.

Lemma nonempty_choices_dict (result : pyvalue) :
  nonempty_choices result = Ok true -> exists r, result = PyDict r.
Proof.
  unfold nonempty_choices.
  destruct result as [| | | |s|l|r]; try discriminate; [| |eauto].
  - cbn [py_contains bind]. destruct (is_substring _ _); discriminate.
  - cbn [py_contains bind]. destruct (existsb _ _); discriminate.
Qed.

Lemma read_response_cases (result : pyvalue) :
  read_response self result
  = match nonempty_choices result with
    | Raise e => Raise e
    | Ok false => Ok (Qwen3VLClient.failure (str "Unexpected response format"))
    | Ok true =>
        match generated_content result, result with
        | Raise e, _ => Raise e
        | Ok content, PyDict r =>
            Ok [(str "success", PyBool true);
                (str "content", content);
                (str "model", dict_get_default r (str "model")
                                (PyStr (Qwen3VLClient.model_name self)));
                (str "usage", dict_get_default r (str "usage") (PyDict []));
                (str "raw_response", result)]
        | Ok _, _ =>
            raise_msg ExcOther (quoted_type result ++ str " object has no attribute 'get'")
        end
    end.
Proof.
  unfold read_response, nonempty_choices, generated_content.
  destruct (py_contains result (str "choices")) as [[|]|e]; cbn [bind]; try reflexivity.
  destruct (py_getitem_str result (str "choices")) as [choices|e]; cbn [bind];
    [|reflexivity].
  destruct (py_len choices) as [n|e]; cbn [bind]; [|reflexivity].
  destruct (0 <? n)%nat; [|reflexivity].
  destruct (py_getitem_0 choices) as [choice|e]; cbn [bind]; [|reflexivity].
  destruct (py_getitem_str choice (str "message")) as [message|e]; cbn [bind];
    [|reflexivity].
  destruct (py_getitem_str message (str "content")) as [content|e]; cbn [bind];
    [|reflexivity].
  destruct result; reflexivity.
Qed.

Lemma failure_shape (reason : pystr) :
  dict_get (Qwen3VLClient.failure reason) (str "success") = Some (PyBool false) /\
  exists r, dict_get (Qwen3VLClient.failure reason) (str "error") = Some (PyStr r).
Proof. split; [reflexivity|]. eexists. reflexivity. Qed.

End QueryOutcome.

(** C7, as the code has it.  [query] never raises, and what it returns
    has [success] true, or [success] false and a reason.  When the body of
    its [try] statement raises, it returns [success] false and a reason:
    [Request timeout] for a timeout, and the message of the exception for
    any other one.  Such is the case when the request cannot be built, sent
    or answered, or the response decoded ([decoded_response] raises: an
    image that cannot be encoded, a transport error, an error status, a body
    that is not JSON), and when the decoded response has an unexpected shape
    that makes the test of [choices] or the reading of the content raise.
    When the decoded response has no [choices], or none in it, the reason
    is [Unexpected response format].  Otherwise [query] returns [success]
    true with the content generated in the first choice of the decoded
    response, its [model] and [usage] (the name of the model and the empty
    mapping when absent) and the decoded response itself. *)
Theorem query_never_raises {image response : Type}
  (env : Qwen3VLClient.environment image response) (self : Qwen3VLClient.client)
  (text : pystr) (images : option (list (Qwen3VLClient.image_input image)))
  (max_tokens : Z) (temperature : float) (stream : bool) (kwargs : list (pystr * pyvalue)) :
  exists d,
    Qwen3VLClient.query env self text images max_tokens temperature stream kwargs = Ok d /\
    (dict_get d (str "success") = Some (PyBool true) \/
     dict_get d (str "success") = Some (PyBool false) /\
     exists reason, dict_get d (str "error") = Some (PyStr reason)) /\
    (forall e,
       Qwen3VLClient.query_try env self text images max_tokens temperature stream kwargs
       = Raise e ->
       d = Qwen3VLClient.failure
             (if Qwen3VLClient.is_timeout e then str "Request timeout" else exc_str e)) /\
    match decoded_response env self text images max_tokens temperature stream kwargs with
    | Raise e =>
        d = Qwen3VLClient.failure
              (if Qwen3VLClient.is_timeout e then str "Request timeout" else exc_str e)
    | Ok result =>
        match nonempty_choices result with
        | Raise e =>
            d = Qwen3VLClient.failure
                  (if Qwen3VLClient.is_timeout e then str "Request timeout" else exc_str e)
        | Ok false => d = Qwen3VLClient.failure (str "Unexpected response format")
        | Ok true =>
            match generated_content result with
            | Raise e =>
                d = Qwen3VLClient.failure
                      (if Qwen3VLClient.is_timeout e then str "Request timeout"
                       else exc_str e)
            | Ok content =>
                exists r, result = PyDict r /\
                  d = [(str "success", PyBool true);
                       (str "content", content);
                       (str "model", dict_get_default r (str "model")
                                       (PyStr (Qwen3VLClient.model_name self)));
                       (str "usage", dict_get_default r (str "usage") (PyDict []));
                       (str "raw_response", result)]
            end
        end
    end.
Proof.
  rewrite query_handlers, query_try_steps.
  destruct (decoded_response env self text images max_tokens temperature stream kwargs)
    as [result|e]; cbn [bind].
  - rewrite read_response_cases.
    destruct (nonempty_choices result) as [[|]|e] eqn:En.
    + destruct (nonempty_choices_dict _ En) as (r & ->).
      destruct (generated_content (PyDict r)) as [content|e].
      * eexists. split; [reflexivity|]. split; [now left|].
        split; [discriminate|]. exists r. split; reflexivity.
      * eexists. split; [reflexivity|]. split; [right; apply failure_shape|].
        split; [|reflexivity]. intros e' He'. inversion He'. reflexivity.
    + eexists. split; [reflexivity|]. split; [right; apply failure_shape|].
      split; [discriminate|reflexivity].
    + eexists. split; [reflexivity|]. split; [right; apply failure_shape|].
      split; [|reflexivity]. intros e' He'. inversion He'. reflexivity.
  - eexists. split; [reflexivity|]. split; [right; apply failure_shape|].
    split; [|reflexivity]. intros e' He'. inversion He'. reflexivity.
Qed.

Lemma query_never_raises_witness :
  (exists d,
     Qwen3VLClient.query
       (post_raising_env {| exc_cls := ExcTimeout; exc_str := str "Read timed out." |})
       Qwen3VLClient.default_client (str "What color is this image?")
       (Some [Qwen3VLClient.InImage tt]) 50 0.1%float false [] = Ok d /\
     d = Qwen3VLClient.failure (str "Request timeout")) /\
  (exists d,
     Qwen3VLClient.query
       (replying_env (PyDict [(str "choices", PyList [])]))
       Qwen3VLClient.default_client (str "What color is this image?")
       (Some [Qwen3VLClient.InImage tt]) 50 0.1%float false [] = Ok d /\
     d = Qwen3VLClient.failure (str "Unexpected response format")) /\
  (exists d,
     Qwen3VLClient.query
       (replying_env (PyDict [(str "error", PyStr (str "model not loaded"))]))
       Qwen3VLClient.default_client (str "What color is this image?")
       (Some [Qwen3VLClient.InImage tt]) 50 0.1%float false [] = Ok d /\
     d = Qwen3VLClient.failure (str "Unexpected response format")) /\
  (exists d,
     Qwen3VLClient.query (answering_env (PyStr (str "Red")))
       Qwen3VLClient.default_client (str "What color is this image?")
       (Some [Qwen3VLClient.InImage tt]) 50 0.1%float false [] = Ok d /\
     dict_get d (str "success") = Some (PyBool true) /\
     dict_get d (str "content") = Some (PyStr (str "Red"))).
Proof.
  split; [|split; [|split]].
  - destruct (query_never_raises
                (post_raising_env {| exc_cls := ExcTimeout; exc_str := str "Read timed out." |})
                Qwen3VLClient.default_client (str "What color is this image?")
                (Some [Qwen3VLClient.InImage tt]) 50 0.1%float false [])
      as (d & Hq & _ & _ & Hcase).
    exists d. split; [exact Hq|]. vm_compute in Hcase. subst d. reflexivity.
  - destruct (query_never_raises
                (replying_env (PyDict [(str "choices", PyList [])]))
                Qwen3VLClient.default_client (str "What color is this image?")
                (Some [Qwen3VLClient.InImage tt]) 50 0.1%float false [])
      as (d & Hq & _ & _ & Hcase).
    exists d. split; [exact Hq|]. vm_compute in Hcase. subst d. reflexivity.
  - destruct (query_never_raises
                (replying_env (PyDict [(str "error", PyStr (str "model not loaded"))]))
                Qwen3VLClient.default_client (str "What color is this image?")
                (Some [Qwen3VLClient.InImage tt]) 50 0.1%float false [])
      as (d & Hq & _ & _ & Hcase).
    exists d. split; [exact Hq|]. vm_compute in Hcase. subst d. reflexivity.
  - destruct (query_never_raises (answering_env (PyStr (str "Red")))
                Qwen3VLClient.default_client (str "What color is this image?")
                (Some [Qwen3VLClient.InImage tt]) 50 0.1%float false [])
      as (d & Hq & _ & _ & Hcase).
    exists d. split; [exact Hq|]. vm_compute in Hcase.
    destruct Hcase as (r & _ & ->). split; reflexivity.
Defined.

Example query_success_ex :
  Qwen3VLClient.query (answering_env (PyStr (str "4"))) Qwen3VLClient.default_client
    (str "What is 2+2? Answer with just the number.") None 1000 0.1%float false []
  = Ok [(str "success", PyBool true);
        (str "content", PyStr (str "4"));
        (str "model", PyStr (str "qwen3vl-4b"));
        (str "usage", PyDict []);
        (str "raw_response",
          PyDict [(str "choices",
                   PyList [PyDict [(str "message", PyDict [(str "content", PyStr (str "4"))])]])])].
Proof. vm_compute. reflexivity. Qed.

(** C7 as stated fails in that the reason does not tell the kinds of
    failure apart: a transport error and a failure to encode the image that
    carry the same message give the same mapping. *)
Lemma reason_does_not_tell_kind :
  let transport := {| exc_cls := ExcRequestException; exc_str := str "I/O operation failed" |} in
  let encoding := {| exc_cls := ExcOther; exc_str := str "I/O operation failed" |} in
  let ask env :=
    Qwen3VLClient.query env Qwen3VLClient.default_client (str "What color is this image?")
      (Some [Qwen3VLClient.InImage tt]) 50 0.1%float false [] in
  Qwen3VLClient.query_try (post_raising_env transport) Qwen3VLClient.default_client
    (str "What color is this image?") (Some [Qwen3VLClient.InImage tt]) 50 0.1%float false []
  = Raise transport /\
  Qwen3VLClient.query_try (save_raising_env encoding) Qwen3VLClient.default_client
    (str "What color is this image?") (Some [Qwen3VLClient.InImage tt]) 50 0.1%float false []
  = Raise encoding /\
  ask (post_raising_env transport) = Ok (Qwen3VLClient.failure (str "I/O operation failed")) /\
  ask (save_raising_env encoding) = ask (post_raising_env transport).
Proof. intros transport encoding ask. repeat split; vm_compute; reflexivity. Qed.

(* ================================================================== *)
(** * Further properties of the code *)
(* ================================================================== *)

(* ================================================================== *)
(** ** Page records and page order *)
(* ================================================================== *)

Lemma fast_record_page {py : interpreter}
  (loads : decoder) (result : pydict) (n : Z) (rec : pydict) :
  FastDocumentProcessor.page_record loads result n = Ok rec ->
  dict_get rec (str "page") = Some (PyInt n).
Proof.
  intros H. destruct (dict_get result (str "success")) as [sv|] eqn:Hs.
  - destruct (truthy sv) eqn:Ht.
    + now destruct (fast_record_success loads result n Hs Ht H) as (Hp & _).
    + rewrite (fast_record_failure loads result n Hs Ht) in H. inversion H. reflexivity.
  - unfold FastDocumentProcessor.page_record, dict_getitem in H. rewrite Hs in H.
    discriminate.
Qed.

Lemma simple_record_page (loads : decoder) (result : pydict) (n : Z) (rec : pydict) :
  SimpleDocumentProcessor.page_record loads result n = Ok rec ->
  dict_get rec (str "page_number") = Some (PyInt n).
Proof.
  unfold SimpleDocumentProcessor.page_record, dict_getitem.
  destruct (dict_get result (str "success")) as [sv|]; cbn [bind]; [|discriminate].
  destruct (truthy sv).
  - destruct (dict_get result (str "content")) as [c|]; cbn [bind]; [|discriminate].
    destruct (SimpleDocumentProcessor._parse_response_dyn loads c) as [| | | | | |d];
      cbn [py_setitem]; try discriminate.
    intros H. inversion H. apply dict_get_set_same.
  - destruct (dict_get result (str "error")) as [e|]; cbn [bind]; [|discriminate].
    intros H. inversion H. reflexivity.
Qed.

Lemma numbered_nil (key : pystr) (start : Z) : numbered key start [].
Proof. intros [|j] e H; discriminate. Qed.

Lemma numbered_snoc (key : pystr) (start : Z) (acc : list pydict) (e : pydict) :
  numbered key start acc ->
  dict_get e key = Some (PyInt (start + Z.of_nat (length acc))) ->
  numbered key start (acc ++ [e]).
Proof.
  intros Hacc He j x Hj.
  destruct (Nat.lt_ge_cases j (length acc)) as [Hlt|Hge].
  - rewrite nth_error_app1 in Hj by exact Hlt. now apply Hacc.
  - rewrite nth_error_app2 in Hj by exact Hge.
    destruct (j - length acc)%nat as [|m] eqn:E.
    + cbn in Hj. inversion Hj; subst x. replace j with (length acc) by lia. exact He.
    + cbn in Hj. destruct m; discriminate.
Qed.

Section Numbering.
Context {py : interpreter} {world image : Type}.
Variable query : gateway world image.
Variable loads : decoder.

Lemma fast_loop_numbered (pages : list image) :
  forall w i acc exts w' start,
    FastDocumentProcessor.extract_loop query loads w i pages acc = (Ok exts, w') ->
    numbered (str "page") start acc -> i = (start + Z.of_nat (length acc))%Z ->
    numbered (str "page") start exts.
Proof.
  induction pages as [|img rest IH]; intros w i acc exts w' start H Hacc Hi;
    cbn [FastDocumentProcessor.extract_loop] in H.
  - now inversion H; subst.
  - unfold FastDocumentProcessor._extract_page_fast in H.
    destruct (query w _) as [[result|x] w1]; cbn [bind] in H; [|discriminate].
    destruct (FastDocumentProcessor.page_record loads result i) as [rec|x] eqn:E;
      [|discriminate].
    apply (IH _ _ _ _ _ start) in H; [exact H| |].
    + apply numbered_snoc; [exact Hacc|]. rewrite <- Hi. eapply fast_record_page; eauto.
    + rewrite length_app. cbn [length]. lia.
Qed.

Lemma simple_loop_numbered (images : list image) :
  forall w i acc exts w' start,
    SimpleDocumentProcessor.extract_loop query loads w i images acc = (Ok exts, w') ->
    numbered (str "page_number") start acc -> i = (start + Z.of_nat (length acc))%Z ->
    numbered (str "page_number") start exts.
Proof.
  induction images as [|img rest IH]; intros w i acc exts w' start H Hacc Hi;
    cbn [SimpleDocumentProcessor.extract_loop] in H.
  - now inversion H; subst.
  - destruct (query w _) as [[result|x] w1]; cbn [bind] in H; [|discriminate].
    destruct (SimpleDocumentProcessor.page_record loads result i) as [rec|x] eqn:E;
      [|discriminate].
    apply (IH _ _ _ _ _ start) in H; [exact H| |].
    + apply numbered_snoc; [exact Hacc|]. rewrite <- Hi. eapply simple_record_page; eauto.
    + rewrite length_app. cbn [length]. lia.
Qed.

End Numbering.

Lemma firstn_min3 (A : Type) (l : list A) :
  firstn (Nat.min 3 (length (firstn 3 l))) (firstn 3 l) = firstn (Nat.min 3 (length l)) l.
Proof. destruct l as [|a [|b [|c [|d l]]]]; reflexivity. Qed.

Lemma combine_simple_eq {py : interpreter} (exts : list pydict) (total : Z) :
  FastDocumentProcessor._combine_simple exts total
  = (avg <- FastDocumentProcessor.avg_conf (FastDocumentProcessor.confidences exts) ;;
     Ok [(str "document_type",
           FastDocumentProcessor.doc_type_loop exts (PyStr (str "document")));
         (str "total_pages", PyInt total);
         (str "processed_pages", PyInt (Z.of_nat (length exts)));
         (str "confidence", PyFloat (round2 avg));
         (str "extracted_content", PyDict [(str "pages", PyList (map PyDict exts))]);
         (str "status", PyStr (str "success"));
         (str "note", PyStr (if (3 <? total)%Z
                             then str "Fast mode - first 3 pages only"
                             else str "Fast mode"))]).
Proof. reflexivity. Qed.

Lemma str_eqb_neq (a b : pystr) : a <> b -> str_eqb a b = false.
Proof.
  intros H. destruct (str_eqb a b) eqn:E; [|reflexivity].
  apply str_eqb_eq in E. contradiction.
Qed.

(** X1: the fast processor never looks at a page after the third: run on a
    page list and on its first three pages, process_document leaves the
    gateway in the same state and returns results that agree on every key but
    total_pages and note (or raises the same exception). *)
Theorem fast_ignores_later_pages {py : interpreter}
  {world image : Type} (query : gateway world image)
  (loads : decoder) (w : world) (images : list image) :
  match FastDocumentProcessor.process_document query loads w images,
        FastDocumentProcessor.process_document query loads w (firstn 3 images) with
  | (Ok r, w1), (Ok r', w1') =>
      w1 = w1' /\
      forall k, k <> str "total_pages" -> k <> str "note" -> dict_get r k = dict_get r' k
  | (Raise e, w1), (Raise e', w1') => w1 = w1' /\ e = e'
  | _, _ => False
  end.
Proof.
  unfold FastDocumentProcessor.process_document. rewrite firstn_min3.
  destruct (FastDocumentProcessor.extract_loop _ _ _ _ _ _) as [[exts|e] w1]; [|auto].
  rewrite !combine_simple_eq.
  destruct (FastDocumentProcessor.avg_conf _) as [avg|e]; cbn [bind]; [|auto].
  split; [reflexivity|]. intros k Ht Hn. cbn [dict_get].
  rewrite (@str_eqb_neq (str "total_pages") k) by congruence.
  rewrite (@str_eqb_neq (str "note") k) by congruence.
  reflexivity.
Qed.

(** X2: in a result of the fast processor, extracted_content.pages holds
    min(P, 3) records, and the record at position j (from 0) has page = j + 1,
    be the page extracted or failed. *)
Theorem fast_pages_numbered {py : interpreter} {world image : Type} (query : gateway world image)
  (loads : decoder) (w : world) (images : list image) (r : pydict) (w' : world) :
  FastDocumentProcessor.process_document query loads w images = (Ok r, w') ->
  exists exts,
    dict_get r (str "extracted_content")
    = Some (PyDict [(str "pages", PyList (map PyDict exts))]) /\
    length exts = Nat.min (length images) 3 /\
    numbered (str "page") 1 exts.
Proof.
  unfold FastDocumentProcessor.process_document.
  destruct (FastDocumentProcessor.extract_loop _ _ _ _ _ _) as [[exts|e] w1] eqn:E;
    [|discriminate].
  intros H. inversion H as [[H1 H2]]. exists exts.
  apply combine_simple_fields in H1 as (_ & _ & _ & Hc). split; [exact Hc|]. split.
  - apply fast_loop_length in E. cbn [length] in E.
    rewrite length_firstn in E. unfold pydict in *. lia.
  - eapply fast_loop_numbered; [exact E|apply numbered_nil|reflexivity].
Qed.

Lemma fast_pages_numbered_witness :
  let query := Qwen3VLClient.as_gateway
                 (fun _ => answering_env (PyStr (jstr "{'type': 'invoice', 'page': 40}")))
                 Qwen3VLClient.default_client in
  exists r w' exts,
    FastDocumentProcessor.process_document query json_loads 0%nat [tt; tt; tt; tt] = (Ok r, w') /\
    dict_get r (str "extracted_content")
    = Some (PyDict [(str "pages", PyList (map PyDict exts))]) /\
    length exts = 3%nat /\
    numbered (str "page") 1 exts.
Proof.
  intros query.
  destruct (FastDocumentProcessor.process_document query json_loads 0%nat [tt; tt; tt; tt])
    as [[r|e] w'] eqn:E.
  - destruct (fast_pages_numbered query json_loads 0%nat [tt; tt; tt; tt] E)
      as (exts & H1 & H2 & H3).
    exists r, w', exts. auto.
  - vm_compute in E. discriminate.
Defined.

(* ================================================================== *)
(** ** The thorough processor: every page, in order *)
(* ================================================================== *)

(** X3: in a result of the thorough processor, total_pages is the number of
    pages P, one record was built per page, the record at position j has
    page_number = j + 1, and extracted_content is the record itself for one
    page and the mapping of document_type and pages otherwise. *)
Theorem thorough_page_counts {py : interpreter} {world image : Type} (query : gateway world image)
  (loads : decoder) (w : world) (images : list image) (r : pydict) (w' : world) :
  SimpleDocumentProcessor.process_document query loads w images = (Ok r, w') ->
  exists exts,
    SimpleDocumentProcessor._extract_all_pages query loads w images = (Ok exts, w') /\
    length exts = length images /\
    numbered (str "page_number") 1 exts /\
    dict_get r (str "total_pages") = Some (PyInt (Z.of_nat (length images))) /\
    dict_get r (str "extracted_content")
    = Some (match exts with
            | [e] => PyDict e
            | _ => PyDict [(str "document_type",
                             dict_get_default (hd [] exts) (str "document_type")
                               (PyStr (str "unknown")));
                           (str "pages", PyList (map PyDict exts))]
            end).
Proof.
  unfold SimpleDocumentProcessor.process_document.
  destruct (SimpleDocumentProcessor._extract_all_pages _ _ _ _) as [[exts|e] w1] eqn:E;
    [|discriminate].
  intros H. inversion H as [[H1 H2]]. clear H. subst w1.
  exists exts. split; [reflexivity|].
  assert (Hlen : length exts = length images).
  { unfold SimpleDocumentProcessor._extract_all_pages in E.
    apply simple_loop_length in E. exact E. }
  assert (Hnum : numbered (str "page_number") 1 exts).
  { unfold SimpleDocumentProcessor._extract_all_pages in E.
    eapply simple_loop_numbered; [exact E|apply numbered_nil|reflexivity]. }
  split; [exact Hlen|]. split; [exact Hnum|].
  destruct (length images =? 1)%nat eqn:E1.
  - apply Nat.eqb_eq in E1. rewrite E1 in *.
    destruct exts as [|e [|e2 rest]]; try discriminate.
    cbn [bind] in H1. destruct (format_2f _); [|discriminate]. cbn [bind] in H1.
    inversion H1; subst r. split; reflexivity.
  - apply Nat.eqb_neq in E1.
    destruct exts as [|e1 [|e2 rest]]; [discriminate|cbn [length] in Hlen; congruence|].
    unfold SimpleDocumentProcessor._combine_pages in H1.
    destruct (SimpleDocumentProcessor.avg_confidence _) as [avg|x]; [|discriminate].
    cbn [bind] in H1. destruct (format_2f _); [|discriminate]. cbn [bind] in H1.
    inversion H1; subst r. rewrite <- Hlen. split; reflexivity.
Qed.

Lemma thorough_page_counts_witness :
  let query := Qwen3VLClient.as_gateway
                 (fun _ => answering_env
                    (PyStr (jstr "{'document_type': 'invoice', 'confidence': 0.9}")))
                 Qwen3VLClient.default_client in
  exists r w' exts,
    SimpleDocumentProcessor.process_document query json_loads 0%nat [tt; tt] = (Ok r, w') /\
    length exts = 2%nat /\
    numbered (str "page_number") 1 exts /\
    dict_get r (str "total_pages") = Some (PyInt 2).
Proof.
  intros query.
  destruct (SimpleDocumentProcessor.process_document query json_loads 0%nat [tt; tt])
    as [[r|e] w'] eqn:E.
  - destruct (thorough_page_counts query json_loads 0%nat [tt; tt] E)
      as (exts & _ & H2 & H3 & H4 & _).
    exists r, w', exts. auto.
  - vm_compute in E. discriminate.
Defined.

(* ================================================================== *)
(** ** The client as seen by the processors *)
(* ================================================================== *)

(** What every answer of [query] looks like. *)
Lemma query_shape {image response : Type}
  (env : Qwen3VLClient.environment image response) (self : Qwen3VLClient.client)
  (text : pystr) (images : option (list (Qwen3VLClient.image_input image)))
  (max_tokens : Z) (temperature : float) (stream : bool) (kwargs : list (pystr * pyvalue)) :
  exists d,
    Qwen3VLClient.query env self text images max_tokens temperature stream kwargs = Ok d /\
    ((dict_get d (str "success") = Some (PyBool true) /\
      exists c, dict_get d (str "content") = Some c) \/
     (dict_get d (str "success") = Some (PyBool false) /\
      exists reason, dict_get d (str "error") = Some (PyStr reason))).
Proof.
  rewrite query_handlers.
  destruct (Qwen3VLClient.query_try _ _ _ _ _ _ _ _) as [d|e] eqn:E.
  - exists d. split; [reflexivity|].
    destruct (query_try_ok _ _ _ _ _ _ _ _ E) as [-> | (result & content & _ & Hs & Hc & _)].
    + right. split; [reflexivity|]. eexists. reflexivity.
    + left. eauto.
  - eexists. split; [reflexivity|]. right. split; [reflexivity|]. eexists. reflexivity.
Qed.

Lemma parse_response_dyn_dict (loads : decoder) (c : pyvalue) :
  decodes_objects loads ->
  exists d, SimpleDocumentProcessor._parse_response_dyn loads c = PyDict d.
Proof.
  intros Hl. destruct c; cbn [SimpleDocumentProcessor._parse_response_dyn]; eauto.
  now apply parse_response_dict.
Qed.

Section ClientLoops.
Context {py : interpreter} {image response : Type}.
Variable envs : nat -> Qwen3VLClient.environment image response.
Variable self : Qwen3VLClient.client.
Variable loads : decoder.

Lemma simple_loop_client (images : list image) :
  decodes_objects loads ->
  forall n i acc, exists exts,
    SimpleDocumentProcessor.extract_loop (Qwen3VLClient.as_gateway envs self) loads n i images acc
    = (Ok exts, (n + length images)%nat) /\
    length exts = (length acc + length images)%nat.
Proof.
  intros Hl. induction images as [|img rest IH]; intros n i acc;
    cbn [SimpleDocumentProcessor.extract_loop].
  - exists acc. rewrite !Nat.add_0_r. auto.
  - unfold Qwen3VLClient.as_gateway at 1. cbn [req_text req_images req_max_tokens req_temperature].
    destruct (query_shape (envs n) self (SimpleDocumentProcessor.prompt i)
                (Some (map Qwen3VLClient.InImage [img])) 800 0.1%float false [])
      as (d & -> & Hd). cbn [bind].
    assert (Hrec : exists rec, SimpleDocumentProcessor.page_record loads d i = Ok rec).
    { unfold SimpleDocumentProcessor.page_record, dict_getitem.
      destruct Hd as [(Hs & c & Hc) | (Hs & reason & Hr)]; rewrite Hs; cbn [bind truthy].
      - rewrite Hc. cbn [bind]. destruct (parse_response_dyn_dict c Hl) as (p & ->).
        cbn [py_setitem]. eauto.
      - rewrite Hr. cbn [bind]. eauto. }
    destruct Hrec as (rec & ->).
    destruct (IH (S n) (i + 1)%Z (acc ++ [rec])) as (exts & E & Hlen).
    exists exts. rewrite E. split.
    + f_equal. cbn [length]. lia.
    + rewrite Hlen, length_app. cbn [length]. lia.
Qed.

Lemma fast_loop_client (pages : list image) :
  forall n i acc o n',
    FastDocumentProcessor.extract_loop (Qwen3VLClient.as_gateway envs self) loads n i pages acc
    = (o, n') ->
    (n <= n' <= n + length pages)%nat /\
    (forall exts, o = Ok exts -> n' = (n + length pages)%nat).
Proof.
  induction pages as [|img rest IH]; intros n i acc o n' H;
    cbn [FastDocumentProcessor.extract_loop] in H.
  - inversion H; subst. cbn [length]. split; [lia|]. intros; lia.
  - unfold FastDocumentProcessor._extract_page_fast in H.
    unfold Qwen3VLClient.as_gateway at 1 in H.
    destruct (bind _ _) as [rec|x] in H.
    + apply IH in H as (Hle & Hok). cbn [length]. split; [lia|].
      intros exts Hex. rewrite (Hok exts Hex). lia.
    + inversion H; subst. cbn [length]. split; [lia|]. intros exts Hex. discriminate.
Qed.

End ClientLoops.

(** X4: with the client of the repository as gateway, _extract_all_pages never
    raises, whatever the endpoint does: it returns one record per page after
    exactly one request per page (for a decoder that gives a mapping or raises
    on a brace span). *)
Theorem thorough_extraction_total {image response : Type}
  (envs : nat -> Qwen3VLClient.environment image response) (self : Qwen3VLClient.client)
  (loads : decoder) (n : nat) (images : list image) :
  decodes_objects loads ->
  exists exts,
    SimpleDocumentProcessor._extract_all_pages (Qwen3VLClient.as_gateway envs self) loads n images
    = (Ok exts, (n + length images)%nat) /\
    length exts = length images.
Proof.
  intros Hl. unfold SimpleDocumentProcessor._extract_all_pages.
  destruct (simple_loop_client envs self images Hl n 1%Z []) as (exts & E & Hlen).
  exists exts. split; [exact E|exact Hlen].
Qed.

Lemma thorough_extraction_total_witness :
  exists exts,
    SimpleDocumentProcessor._extract_all_pages
      (Qwen3VLClient.as_gateway
         (fun _ => post_raising_env {| exc_cls := ExcTimeout; exc_str := str "Read timed out." |})
         Qwen3VLClient.default_client)
      json_loads 0%nat [tt; tt; tt]
    = (Ok exts, 3%nat) /\
    length exts = 3%nat.
Proof.
  exact (@thorough_extraction_total unit unit
           (fun _ => post_raising_env {| exc_cls := ExcTimeout;
                                         exc_str := str "Read timed out." |})
           Qwen3VLClient.default_client json_loads 0%nat [tt; tt; tt] json_loads_objects).
Defined.

(** X5: with the client of the repository as gateway, the fast processor sends
    at most min(P, 3) requests, whether it returns or raises, and exactly
    min(P, 3) when it returns a result. *)
Theorem fast_request_count {py : interpreter} {image response : Type}
  (envs : nat -> Qwen3VLClient.environment image response) (self : Qwen3VLClient.client)
  (loads : decoder) (n : nat) (images : list image) (o : outcome pydict) (n' : nat) :
  FastDocumentProcessor.process_document (Qwen3VLClient.as_gateway envs self) loads n images
  = (o, n') ->
  (n <= n' <= n + Nat.min (length images) 3)%nat /\
  (forall r, o = Ok r -> n' = (n + Nat.min (length images) 3)%nat).
Proof.
  unfold FastDocumentProcessor.process_document.
  destruct (FastDocumentProcessor.extract_loop _ _ _ _ _ _) as [oe n1] eqn:E.
  apply fast_loop_client in E as (Hle & Hok). rewrite length_firstn in Hle, Hok.
  destruct oe as [exts|x]; intros H; inversion H; subst.
  - specialize (Hok exts eq_refl). split; [lia|]. intros; lia.
  - split; [lia|]. intros r Hr. discriminate.
Qed.

Lemma fast_request_count_witness :
  let query := Qwen3VLClient.as_gateway
                 (fun _ => answering_env (PyStr (jstr "{'type': 'invoice', 'confidence': 0.9}")))
                 Qwen3VLClient.default_client in
  exists r,
    FastDocumentProcessor.process_document query json_loads 0%nat [tt; tt; tt; tt; tt]
    = (Ok r, 3%nat).
Proof.
  intros query.
  destruct (FastDocumentProcessor.process_document query json_loads 0%nat [tt; tt; tt; tt; tt])
    as [[r|e] n'] eqn:E.
  - exists r. f_equal.
    exact (proj2 (@fast_request_count _ unit unit _ _ json_loads 0%nat [tt; tt; tt; tt; tt]
                    (Ok r) n' E) r eq_refl).
  - vm_compute in E. discriminate.
Defined.

(* ================================================================== *)
(** ** Contents and confidences the model may send *)
(* ================================================================== *)

(** X6: when the gateway reports success with a content that is None, a bool
    or a number, the fast extractor raises TypeError (the handler of
    _parse_json slices the content), while the thorough extractor appends the
    record made of raw_content, the content itself, and page_number. *)
Theorem non_text_content {py : interpreter} {world image : Type} (query : gateway world image)
  (loads : decoder) (w : world) (img : image) (page_num : Z)
  (result : pydict) (w1 : world) (sv c : pyvalue) :
  dict_get result (str "success") = Some sv -> truthy sv = true ->
  dict_get result (str "content") = Some c -> scalar c = true ->
  (query w {| req_text := FastDocumentProcessor.prompt; req_images := [img];
              req_max_tokens := 500; req_temperature := 0.1%float |} = (Ok result, w1) ->
   exists e, FastDocumentProcessor._extract_page_fast query loads w img page_num = (Raise e, w1)
             /\ exc_cls e = ExcTypeError) /\
  (forall results,
     query w {| req_text := SimpleDocumentProcessor.prompt page_num; req_images := [img];
                req_max_tokens := 800; req_temperature := 0.1%float |} = (Ok result, w1) ->
     SimpleDocumentProcessor.extract_loop query loads w page_num [img] results
     = (Ok (results ++ [[(str "raw_content", c); (str "page_number", PyInt page_num)]]), w1)).
Proof.
  intros Hs Ht Hc Hsc. split.
  - intros Hq. unfold FastDocumentProcessor._extract_page_fast. rewrite Hq. cbn [bind].
    unfold FastDocumentProcessor.page_record, dict_getitem.
    rewrite Hs. cbn [bind]. rewrite Ht, Hc. cbn [bind].
    destruct c; try discriminate; eexists; split; reflexivity.
  - intros results Hq. cbn [SimpleDocumentProcessor.extract_loop]. rewrite Hq. cbn [bind].
    unfold SimpleDocumentProcessor.page_record, dict_getitem.
    rewrite Hs. cbn [bind]. rewrite Ht, Hc. cbn [bind].
    destruct c; try discriminate; reflexivity.
Qed.

Lemma non_text_content_witness :
  let query := Qwen3VLClient.as_gateway (fun _ => answering_env PyNone)
                 Qwen3VLClient.default_client in
  (exists e, FastDocumentProcessor._extract_page_fast query json_loads 0%nat tt 1 = (Raise e, 1%nat)
             /\ exc_cls e = ExcTypeError) /\
  SimpleDocumentProcessor.extract_loop query json_loads 0%nat 1 [tt] []
  = (Ok [[(str "raw_content", PyNone); (str "page_number", PyInt 1)]], 1%nat).
Proof.
  intros query.
  destruct (@non_text_content _ nat unit query json_loads 0%nat tt 1%Z
              [(str "success", PyBool true);
               (str "content", PyNone);
               (str "model", PyStr (str "qwen3vl-4b"));
               (str "usage", PyDict []);
               (str "raw_response",
                 PyDict [(str "choices",
                          PyList [PyDict [(str "message",
                            PyDict [(str "content", PyNone)])]])])]
              1%nat (PyBool true) PyNone eq_refl eq_refl eq_refl eq_refl) as [Hf Hs].
  split; [exact (Hf eq_refl)|exact (Hs [] eq_refl)].
Defined.

(* ================================================================== *)
(** ** What enters the aggregate of the fast processor *)
(* ================================================================== *)

Lemma filter_idem (A : Type) (p : A -> bool) (l : list A) :
  filter p (filter p l) = filter p l.
Proof.
  induction l as [|a l IH]; [reflexivity|]. cbn [filter].
  destruct (p a) eqn:E; [|exact IH]. cbn [filter]. now rewrite E, IH.
Qed.

Lemma doc_type_loop_filter (exts : list pydict) (d : pyvalue) :
  FastDocumentProcessor.doc_type_loop (filter succeeded exts) d
  = FastDocumentProcessor.doc_type_loop exts d.
Proof.
  induction exts as [|e exts IH]; [reflexivity|].
  cbn [filter FastDocumentProcessor.doc_type_loop].
  destruct (succeeded e) eqn:E; [|exact IH].
  cbn [FastDocumentProcessor.doc_type_loop andb]. rewrite E, IH. reflexivity.
Qed.

(** X7: the records of failed pages do not enter the aggregate of the fast
    processor: _combine_simple gives the same confidence and document_type (or
    raises the same exception) with and without them; and when no page
    succeeded the confidence is 0.6 and the type is document, not the 0.0 and
    unknown of the failed records. *)
Theorem failed_pages_do_not_count {py : interpreter} (extractions : list pydict) (total_pages : Z) :
  match FastDocumentProcessor._combine_simple extractions total_pages,
        FastDocumentProcessor._combine_simple (filter succeeded extractions) total_pages with
  | Ok r, Ok r' =>
      dict_get r (str "confidence") = dict_get r' (str "confidence") /\
      dict_get r (str "document_type") = dict_get r' (str "document_type")
  | Raise e, Raise e' => e = e'
  | _, _ => False
  end /\
  (filter succeeded extractions = [] ->
   exists r, FastDocumentProcessor._combine_simple extractions total_pages = Ok r /\
     dict_get r (str "confidence") = Some (PyFloat 0.6%float) /\
     dict_get r (str "document_type") = Some (PyStr (str "document"))).
Proof.
  split.
  - rewrite !combine_simple_eq. unfold FastDocumentProcessor.confidences.
    rewrite filter_idem, doc_type_loop_filter.
    destruct (FastDocumentProcessor.avg_conf _) as [avg|e]; cbn [bind]; [|reflexivity].
    split; reflexivity.
  - intros H. rewrite combine_simple_eq. unfold FastDocumentProcessor.confidences.
    rewrite <- doc_type_loop_filter, H.
    cbn [map FastDocumentProcessor.avg_conf bind FastDocumentProcessor.doc_type_loop].
    eexists. split; [reflexivity|]. split; [|reflexivity].
    cbn [dict_get str_eqb]. rewrite round2_default. reflexivity.
Qed.

Lemma failed_pages_do_not_count_witness :
  exists r,
    FastDocumentProcessor._combine_simple
      [[(str "page", PyInt 1); (str "success", PyBool false);
        (str "error", PyStr (str "Request timeout")); (str "type", PyStr (str "unknown"));
        (str "confidence", PyFloat 0%float)]] 1 = Ok r /\
    dict_get r (str "confidence") = Some (PyFloat 0.6%float) /\
    dict_get r (str "document_type") = Some (PyStr (str "document")).
Proof.
  exact (proj2 (failed_pages_do_not_count
                  [[(str "page", PyInt 1); (str "success", PyBool false);
                    (str "error", PyStr (str "Request timeout"));
                    (str "type", PyStr (str "unknown"));
                    (str "confidence", PyFloat 0%float)]] 1) eq_refl).
Defined.

(** X8: in a result of the fast processor, processed_pages is at most
    total_pages, and the note is [Fast mode - first 3 pages only] exactly when
    processed_pages is smaller than total_pages, and [Fast mode] otherwise. *)
Theorem fast_note_tells_truncation {py : interpreter}
  {world image : Type} (query : gateway world image)
  (loads : decoder) (w : world) (images : list image) (r : pydict) (w' : world) :
  FastDocumentProcessor.process_document query loads w images = (Ok r, w') ->
  exists p t,
    dict_get r (str "processed_pages") = Some (PyInt p) /\
    dict_get r (str "total_pages") = Some (PyInt t) /\
    (p <= t)%Z /\
    dict_get r (str "note")
    = Some (PyStr (if (p <? t)%Z then str "Fast mode - first 3 pages only"
                   else str "Fast mode")).
Proof.
  intros H. destruct (fast_process_fields _ _ _ _ H) as (Hp & Ht & _).
  exists (Z.of_nat (Nat.min (length images) 3)), (Z.of_nat (length images)).
  split; [exact Hp|]. split; [exact Ht|]. split; [lia|].
  unfold FastDocumentProcessor.process_document in H.
  destruct (FastDocumentProcessor.extract_loop _ _ _ _ _ _) as [[exts|e] w1];
    [|discriminate].
  inversion H as [[H1 H2]]. rewrite combine_simple_eq in H1.
  destruct (FastDocumentProcessor.avg_conf _) as [avg|e]; cbn [bind] in H1; [|discriminate].
  inversion H1; subst r.
  replace (Z.of_nat (Nat.min (length images) 3) <? Z.of_nat (length images))%Z
    with (3 <? Z.of_nat (length images))%Z; [reflexivity|].
  destruct (3 <? Z.of_nat (length images))%Z eqn:E; symmetry.
  - apply Z.ltb_lt in E. apply Z.ltb_lt. lia.
  - apply Z.ltb_ge in E. apply Z.ltb_ge. lia.
Qed.

Lemma fast_note_tells_truncation_witness :
  let query := Qwen3VLClient.as_gateway
                 (fun _ => answering_env (PyStr (jstr "{'type': 'invoice', 'confidence': 0.9}")))
                 Qwen3VLClient.default_client in
  exists r w' p t,
    FastDocumentProcessor.process_document query json_loads 0%nat [tt; tt; tt; tt; tt]
    = (Ok r, w') /\
    dict_get r (str "processed_pages") = Some (PyInt p) /\
    dict_get r (str "total_pages") = Some (PyInt t) /\
    (p <= t)%Z /\
    dict_get r (str "note")
    = Some (PyStr (if (p <? t)%Z then str "Fast mode - first 3 pages only"
                   else str "Fast mode")).
Proof.
  intros query.
  destruct (FastDocumentProcessor.process_document query json_loads 0%nat [tt; tt; tt; tt; tt])
    as [[r|e] w'] eqn:E.
  - destruct (fast_note_tells_truncation query json_loads 0%nat [tt; tt; tt; tt; tt] E)
      as (p & t & H).
    exists r, w', p, t. auto.
  - vm_compute in E. discriminate.
Defined.

(* ================================================================== *)
(** ** A confidence that is not a number *)
(* ================================================================== *)

Lemma py_add_classes (a b : pyvalue) (e : exc) :
  py_add a b = Raise e -> exc_cls e = ExcTypeError \/ exc_cls e = ExcOverflowError.
Proof.
  unfold py_add.
  destruct a as [|x|x|x|x|x|x], b as [|y|y|y|y|y|y]; cbv beta iota;
    try (intros H; inversion H; now left); try discriminate;
    unfold int_to_float; destruct (is_infinity _); cbn [bind];
    try discriminate; intros H; inversion H; now right.
Qed.

Lemma py_add_not_a_number (a c : pyvalue) :
  not_a_number c = true ->
  exists e, py_add a c = Raise e /\ exc_cls e = ExcTypeError.
Proof.
  intros H. destruct c; try discriminate; destruct a; eexists; split; reflexivity.
Qed.

Lemma sum_raised (vs : list pyvalue) (e : exc) :
  fold_left (fun acc v => a <- acc ;; py_add a v) vs (Raise e) = Raise e.
Proof. induction vs as [|v vs IH]; [reflexivity|]. exact IH. Qed.

Lemma sum_not_a_number (vs : list pyvalue) (c : pyvalue) :
  In c vs -> not_a_number c = true ->
  forall a, exists e,
    fold_left (fun acc v => a <- acc ;; py_add a v) vs (Ok a) = Raise e /\
    (exc_cls e = ExcTypeError \/ exc_cls e = ExcOverflowError).
Proof.
  intros Hin Hc. induction vs as [|v vs IH]; [contradiction|]. intros a.
  cbn [fold_left bind]. destruct Hin as [-> | Hin].
  - destruct (@py_add_not_a_number a c Hc) as (e & -> & He).
    exists e. rewrite sum_raised. auto.
  - destruct (py_add a v) as [a'|e] eqn:E.
    + apply (IH Hin).
    + exists e. rewrite sum_raised. split; [reflexivity|]. eapply py_add_classes; eauto.
Qed.

Lemma sum_generic_not_a_number (vs : list pyvalue) (c : pyvalue) (start : outcome pyvalue) :
  In c vs -> not_a_number c = true ->
  (forall e, start = Raise e -> exc_cls e = ExcTypeError \/ exc_cls e = ExcOverflowError) ->
  exists e, sum_generic start vs = Raise e /\
    (exc_cls e = ExcTypeError \/ exc_cls e = ExcOverflowError).
Proof.
  intros Hin Hc Hstart. unfold sum_generic. destruct start as [a|e].
  - apply (@sum_not_a_number vs c Hin Hc).
  - exists e. rewrite sum_raised. split; [reflexivity|]. now apply Hstart.
Qed.

Lemma sum_floats_not_a_number {py : interpreter} (vs : list pyvalue) (c : pyvalue) :
  In c vs -> not_a_number c = true ->
  forall acc, exists e,
    sum_floats acc vs = Raise e /\
    (exc_cls e = ExcTypeError \/ exc_cls e = ExcOverflowError).
Proof.
  intros Hin Hc. induction vs as [|v vs IH]; [contradiction|]. intros acc.
  cbn [sum_floats]. destruct Hin as [-> | Hin].
  - destruct (@py_add_not_a_number (PyFloat (compensated acc)) c Hc) as (e & He & Hcls).
    exists e. rewrite He. unfold sum_generic. rewrite sum_raised.
    destruct c; try discriminate; cbn [int_item]; auto.
  - assert (Hg : exists e, sum_generic (py_add (PyFloat (compensated acc)) v) vs = Raise e /\
                   (exc_cls e = ExcTypeError \/ exc_cls e = ExcOverflowError)).
    { apply (@sum_generic_not_a_number vs c _ Hin Hc). intros e. apply py_add_classes. }
    destruct v; cbn [int_item]; try exact Hg; try apply (IH Hin);
      destruct (fits_long _); try exact Hg; apply (IH Hin).
Qed.

Lemma sum_ints_not_a_number {py : interpreter} (vs : list pyvalue) (c : pyvalue) :
  In c vs -> not_a_number c = true ->
  forall i, exists e,
    sum_ints i vs = Raise e /\
    (exc_cls e = ExcTypeError \/ exc_cls e = ExcOverflowError).
Proof.
  intros Hin Hc. induction vs as [|v vs IH]; [contradiction|]. intros i.
  cbn [sum_ints]. destruct Hin as [-> | Hin].
  - destruct (@py_add_not_a_number (PyInt i) c Hc) as (e & He & Hcls).
    exists e. rewrite He. unfold sum_generic. rewrite sum_raised.
    destruct c; try discriminate; cbn [int_item]; auto.
  - assert (Ho : exists e,
               match py_add (PyInt i) v with
               | Ok (PyFloat f) => sum_floats (f, 0%float) vs
               | r => sum_generic r vs
               end = Raise e /\
               (exc_cls e = ExcTypeError \/ exc_cls e = ExcOverflowError)).
    { destruct (py_add (PyInt i) v) as [a|e] eqn:E.
      - destruct a; try (apply (@sum_generic_not_a_number vs c _ Hin Hc); discriminate).
        apply (@sum_floats_not_a_number _ vs c Hin Hc).
      - apply (@sum_generic_not_a_number vs c _ Hin Hc).
        intros e' He'. inversion He'; subst e'. eapply py_add_classes; eauto. }
    destruct (int_item v) as [b|]; [|exact Ho].
    destruct (_ && _); [apply (IH Hin)|exact Ho].
Qed.

Lemma py_sum_not_a_number {py : interpreter} (vs : list pyvalue) (c : pyvalue) :
  In c vs -> not_a_number c = true ->
  exists e, py_sum vs = Raise e /\
    (exc_cls e = ExcTypeError \/ exc_cls e = ExcOverflowError).
Proof.
  intros Hin Hc. unfold py_sum. destruct float_summation.
  - apply (@sum_not_a_number vs c Hin Hc).
  - apply (@sum_ints_not_a_number _ vs c Hin Hc).
Qed.

(** X9: one record whose confidence is None, a text, a list or a mapping makes
    the aggregation raise (TypeError, or OverflowError when an earlier int is
    too large for a float): _combine_simple when that record is successful,
    _combine_pages always; no document result is returned. *)
Theorem bad_confidence_raises {py : interpreter} (extractions : list pydict) (total_pages : Z)
  (e : pydict) (c : pyvalue) :
  In e extractions -> dict_get e (str "confidence") = Some c -> not_a_number c = true ->
  (succeeded e = true ->
   exists x, FastDocumentProcessor._combine_simple extractions total_pages = Raise x /\
     (exc_cls x = ExcTypeError \/ exc_cls x = ExcOverflowError)) /\
  (exists x, SimpleDocumentProcessor._combine_pages extractions = Raise x /\
     (exc_cls x = ExcTypeError \/ exc_cls x = ExcOverflowError)).
Proof.
  intros Hin Hc Hn. split.
  - intros Hs. rewrite combine_simple_eq.
    assert (Hcs : In c (FastDocumentProcessor.confidences extractions)).
    { unfold FastDocumentProcessor.confidences. apply in_map_iff. exists e. split.
      - unfold dict_get_default. now rewrite Hc.
      - apply filter_In. auto. }
    destruct (@py_sum_not_a_number _ _ c Hcs Hn) as (x & Hx & Hcls).
    exists x. split; [|exact Hcls].
    unfold FastDocumentProcessor.avg_conf.
    destruct (FastDocumentProcessor.confidences extractions) as [|c0 cs]; [contradiction|].
    rewrite Hx. reflexivity.
  - assert (Hcs : In c (SimpleDocumentProcessor.confidences extractions)).
    { unfold SimpleDocumentProcessor.confidences. apply in_map_iff. exists e. split.
      - unfold dict_get_default. now rewrite Hc.
      - apply filter_In. split; [exact Hin|]. unfold dict_has. now rewrite Hc. }
    destruct (@py_sum_not_a_number _ _ c Hcs Hn) as (x & Hx & Hcls).
    exists x. split; [|exact Hcls].
    unfold SimpleDocumentProcessor._combine_pages.
    destruct extractions as [|first rest]; [contradiction|].
    unfold SimpleDocumentProcessor.avg_confidence.
    destruct (SimpleDocumentProcessor.confidences (first :: rest)) as [|c0 cs]; [contradiction|].
    rewrite Hx. reflexivity.
Qed.

Lemma bad_confidence_raises_witness :
  let page := [(str "type", PyStr (str "invoice")); (str "confidence", PyStr (str "high"));
               (str "page", PyInt 1); (str "success", PyBool true)] in
  (exists x, FastDocumentProcessor._combine_simple [page] 1 = Raise x /\
     (exc_cls x = ExcTypeError \/ exc_cls x = ExcOverflowError)) /\
  (exists x, SimpleDocumentProcessor._combine_pages [page] = Raise x /\
     (exc_cls x = ExcTypeError \/ exc_cls x = ExcOverflowError)).
Proof.
  intros page.
  destruct (@bad_confidence_raises _ [page] 1 page (PyStr (str "high"))
              (or_introl eq_refl) eq_refl eq_refl) as [Hf Hs].
  split; [exact (Hf eq_refl)|exact Hs].
Defined.

(* ================================================================== *)
(** ** The fields the extractors do not touch *)
(* ================================================================== *)

(** X10: for a successful answer whose content is a text, the extractors
    change nothing of the parsed mapping but their stamps: every key other
    than page and success (fast), other than page_number (thorough), has in
    the record the value the normalizer gave it. *)
Theorem stamps_keep_other_fields {py : interpreter}
  {world image : Type} (query : gateway world image)
  (loads : decoder) (w : world) (img : image) (page_num : Z)
  (result : pydict) (w1 : world) (sv : pyvalue) (s : pystr) :
  dict_get result (str "success") = Some sv -> truthy sv = true ->
  dict_get result (str "content") = Some (PyStr s) ->
  (query w {| req_text := FastDocumentProcessor.prompt; req_images := [img];
              req_max_tokens := 500; req_temperature := 0.1%float |} = (Ok result, w1) ->
   forall rec w',
     FastDocumentProcessor._extract_page_fast query loads w img page_num = (Ok rec, w') ->
     exists d, FastDocumentProcessor._parse_json loads s = PyDict d /\
       forall k, k <> str "page" -> k <> str "success" -> dict_get rec k = dict_get d k) /\
  (query w {| req_text := SimpleDocumentProcessor.prompt page_num; req_images := [img];
              req_max_tokens := 800; req_temperature := 0.1%float |} = (Ok result, w1) ->
   forall recs w',
     SimpleDocumentProcessor.extract_loop query loads w page_num [img] [] = (Ok recs, w') ->
     exists d, SimpleDocumentProcessor._parse_response loads s = PyDict d /\
       recs = [dict_set d (str "page_number") (PyInt page_num)] /\
       forall k, k <> str "page_number" ->
         dict_get (dict_set d (str "page_number") (PyInt page_num)) k = dict_get d k).
Proof.
  intros Hs Ht Hc. split.
  - intros Hq rec w' H. unfold FastDocumentProcessor._extract_page_fast in H.
    rewrite Hq in H. cbn [bind] in H. inversion H as [[H1 H2]].
    destruct (fast_record_success loads result page_num Hs Ht H1)
      as (_ & _ & content & parsed & Hc' & Hp & ->).
    rewrite Hc in Hc'. inversion Hc'; subst content.
    cbn [FastDocumentProcessor._parse_json_dyn] in Hp. inversion Hp as [Hp'].
    exists parsed. split; [exact Hp'|]. intros k Hk1 Hk2.
    rewrite !dict_get_set_other; [reflexivity| |]; apply str_eqb_neq; congruence.
  - intros Hq recs w' H. cbn [SimpleDocumentProcessor.extract_loop] in H.
    rewrite Hq in H. cbn [bind] in H.
    unfold SimpleDocumentProcessor.page_record, dict_getitem in H.
    rewrite Hs in H. cbn [bind] in H. rewrite Ht, Hc in H.
    cbn [bind SimpleDocumentProcessor._parse_response_dyn] in H.
    destruct (SimpleDocumentProcessor._parse_response loads s) as [| | | | | |d];
      cbn [py_setitem] in H; try discriminate.
    inversion H. exists d. split; [reflexivity|]. split; [reflexivity|].
    intros k Hk. apply dict_get_set_other. apply str_eqb_neq. congruence.
Qed.

Lemma stamps_keep_other_fields_witness :
  let query := Qwen3VLClient.as_gateway
                 (fun _ => answering_env (PyStr (jstr "{'type': 'invoice', 'page': 99}")))
                 Qwen3VLClient.default_client in
  exists rec w' d,
    FastDocumentProcessor._extract_page_fast query json_loads 0%nat tt 7 = (Ok rec, w') /\
    FastDocumentProcessor._parse_json json_loads (jstr "{'type': 'invoice', 'page': 99}")
    = PyDict d /\
    forall k, k <> str "page" -> k <> str "success" -> dict_get rec k = dict_get d k.
Proof.
  intros query.
  destruct (FastDocumentProcessor._extract_page_fast query json_loads 0%nat tt 7)
    as [[rec|e] w'] eqn:E.
  - destruct (proj1 (@stamps_keep_other_fields _ nat unit query json_loads 0%nat tt 7%Z
                  [(str "success", PyBool true);
                   (str "content", PyStr (jstr "{'type': 'invoice', 'page': 99}"));
                   (str "model", PyStr (str "qwen3vl-4b"));
                   (str "usage", PyDict []);
                   (str "raw_response",
                     PyDict [(str "choices",
                              PyList [PyDict [(str "message",
                                PyDict [(str "content",
                                  PyStr (jstr "{'type': 'invoice', 'page': 99}"))])]])])]
                  1%nat (PyBool true) (jstr "{'type': 'invoice', 'page': 99}")
                  eq_refl eq_refl eq_refl) eq_refl rec w' E) as (d & Hd & Hk).
    exists rec, w', d. auto.
  - vm_compute in E. discriminate.
Defined.

(* ================================================================== *)
(** ** Documents without pages, and documents of one page *)
(* ================================================================== *)

(** X11: on a document without pages the fast processor returns, without a
    request, the result with type document, 0 pages, confidence 0.6, no page
    record, status success and note [Fast mode]; the thorough processor raises
    IndexError, without a request. *)
Theorem empty_page_list {py : interpreter} {world image : Type} (query : gateway world image)
  (loads : decoder) (w : world) :
  FastDocumentProcessor.process_document query loads w []
  = (Ok [(str "document_type", PyStr (str "document"));
         (str "total_pages", PyInt 0);
         (str "processed_pages", PyInt 0);
         (str "confidence", PyFloat 0.6%float);
         (str "extracted_content", PyDict [(str "pages", PyList [])]);
         (str "status", PyStr (str "success"));
         (str "note", PyStr (str "Fast mode"))], w) /\
  exists e, SimpleDocumentProcessor.process_document query loads w [] = (Raise e, w) /\
            exc_cls e = ExcIndexError.
Proof.
  split.
  - unfold FastDocumentProcessor.process_document.
    cbn [length Nat.min firstn FastDocumentProcessor.extract_loop].
    rewrite combine_simple_eq.
    cbn [FastDocumentProcessor.confidences filter map FastDocumentProcessor.avg_conf bind
         FastDocumentProcessor.doc_type_loop length Z.of_nat Z.ltb Z.compare].
    rewrite round2_default. reflexivity.
  - eexists. split; reflexivity.
Qed.

(** X12: for a document of one page under the thorough profile, whether a
    result is returned depends on the confidence of the page record alone:
    none, a float or a bool give the single-page result; a text makes the
    logging line raise ValueError, None a list or a mapping TypeError, and an
    int too large for a float OverflowError. *)
Theorem thorough_single_page_confidence {py : interpreter}
  {world image : Type} (query : gateway world image)
  (loads : decoder) (w : world) (img : image) (rec : pydict) (w' : world) :
  SimpleDocumentProcessor._extract_all_pages query loads w [img] = (Ok [rec], w') ->
  match dict_get rec (str "confidence") with
  | None | Some (PyFloat _) | Some (PyBool _) =>
      SimpleDocumentProcessor.process_document query loads w [img]
      = (Ok (SimpleDocumentProcessor._format_single_page rec), w')
  | Some (PyInt z) =>
      if is_infinity (float_of_Z z)
      then exists e, SimpleDocumentProcessor.process_document query loads w [img] = (Raise e, w')
                     /\ exc_cls e = ExcOverflowError
      else SimpleDocumentProcessor.process_document query loads w [img]
           = (Ok (SimpleDocumentProcessor._format_single_page rec), w')
  | Some (PyStr _) =>
      exists e, SimpleDocumentProcessor.process_document query loads w [img] = (Raise e, w')
                /\ exc_cls e = ExcValueError
  | Some _ =>
      exists e, SimpleDocumentProcessor.process_document query loads w [img] = (Raise e, w')
                /\ exc_cls e = ExcTypeError
  end.
Proof.
  intros H. unfold SimpleDocumentProcessor.process_document. rewrite H.
  cbn [length Nat.eqb bind].
  assert (Hc : dict_get_default (SimpleDocumentProcessor._format_single_page rec)
                 (str "confidence") (PyInt 0)
               = dict_get_default rec (str "confidence") (PyFloat 0.7%float)) by reflexivity.
  rewrite Hc. unfold dict_get_default.
  destruct (dict_get rec (str "confidence")) as [[|b|z|f|s|l|d]|]; cbn [format_2f bind];
    try reflexivity; try (eexists; split; reflexivity).
  unfold int_to_float. destruct (is_infinity (float_of_Z z)); cbn [bind];
    [eexists; split; reflexivity|reflexivity].
Qed.

Lemma thorough_single_page_confidence_witness :
  let query := Qwen3VLClient.as_gateway
                 (fun _ => answering_env
                    (PyStr (jstr "{'document_type': 'invoice', 'confidence': 'high'}")))
                 Qwen3VLClient.default_client in
  exists e,
    SimpleDocumentProcessor.process_document query json_loads 0%nat [tt] = (Raise e, 1%nat) /\
    exc_cls e = ExcValueError.
Proof.
  intros query.
  exact (@thorough_single_page_confidence _ nat unit query json_loads 0%nat tt
           [(str "document_type", PyStr (str "invoice"));
            (str "confidence", PyStr (str "high"));
            (str "page_number", PyInt 1)] 1%nat eq_refl).
Defined.

(* ================================================================== *)
(** ** Reasoning blocks *)
(* ================================================================== *)

Lemma fence_json_no_tick (c : pychar) (t : pystr) :
  c <> backtick -> match_at fence_json_re (c :: t) = None.
Proof.
  intros H. apply fence_json_needs_fence.
  change (str "```") with (backtick :: str "``"). now apply strip_prefix_head.
Qed.

Lemma fence_any_no_tick (c : pychar) (t : pystr) :
  c <> backtick -> match_at fence_any_re (c :: t) = None.
Proof.
  intros H. apply fence_any_needs_fence.
  change (str "```") with (backtick :: str "``"). now apply strip_prefix_head.
Qed.

Lemma sub_fence_json_id (s : pystr) : lacks backtick s -> re_sub_empty fence_json_re s = s.
Proof.
  intros H. unfold re_sub_empty. rewrite <- (app_nil_r s) at 1.
  rewrite (@sub_del_copy fence_json_re (fun z => z <> backtick)); auto using fence_json_no_tick.
  apply app_nil_r.
Qed.

Lemma sub_fence_any_id (s : pystr) : lacks backtick s -> re_sub_empty fence_any_re s = s.
Proof.
  intros H. unfold re_sub_empty. rewrite <- (app_nil_r s) at 1.
  rewrite (@sub_del_copy fence_any_re (fun z => z <> backtick)); auto using fence_any_no_tick.
  apply app_nil_r.
Qed.

Lemma think_block_lacks_tick (t : pystr) : lacks backtick t -> lacks backtick (think_block t).
Proof.
  intros H. unfold think_block. apply Forall_app. split; [|apply Forall_app; split].
  - apply absent_lacks. reflexivity.
  - exact H.
  - apply absent_lacks. reflexivity.
Qed.

(** X13: a complete reasoning block in front of a text changes nothing: when t
    does not contain the closing tag, the fast normalizer returns on
    <think>t</think>s what it returns on s, and so does the thorough
    normalizer when t has no backtick. *)
Theorem leading_think_block_ignored (loads : decoder) (t s : pystr) :
  is_substring (str "</think>") t = false ->
  FastDocumentProcessor._parse_json loads (think_block t ++ s)
  = FastDocumentProcessor._parse_json loads s /\
  (absent backtick t = true ->
   SimpleDocumentProcessor._parse_response loads (think_block t ++ s)
   = SimpleDocumentProcessor._parse_response loads s).
Proof.
  intros Ht.
  assert (Hsub : forall x, re_sub_empty think_re (think_block t ++ x) = re_sub_empty think_re x).
  { intros x. apply (@sub_think_wrapper (Some t) x). cbn [think_lacks]. now rewrite Ht. }
  split.
  - unfold FastDocumentProcessor._parse_json. now rewrite Hsub.
  - intros Hb. apply absent_lacks in Hb. apply think_block_lacks_tick in Hb.
    unfold SimpleDocumentProcessor._parse_response.
    assert (H1 : re_sub_empty fence_json_re (think_block t ++ s)
                 = think_block t ++ re_sub_empty fence_json_re s).
    { apply (@sub_del_copy fence_json_re (fun z => z <> backtick));
        auto using fence_json_no_tick. }
    assert (H2 : forall x, re_sub_empty fence_any_re (think_block t ++ x)
                           = think_block t ++ re_sub_empty fence_any_re x).
    { intros x. apply (@sub_del_copy fence_any_re (fun z => z <> backtick));
        auto using fence_any_no_tick. }
    now rewrite H1, H2, Hsub.
Qed.

Lemma leading_think_block_ignored_witness :
  let t := str "The page looks like an invoice." in
  let s := jstr "{'type': 'invoice'}" in
  FastDocumentProcessor._parse_json json_loads (think_block t ++ s)
  = FastDocumentProcessor._parse_json json_loads s /\
  SimpleDocumentProcessor._parse_response json_loads (think_block t ++ s)
  = SimpleDocumentProcessor._parse_response json_loads s.
Proof.
  intros t s.
  destruct (@leading_think_block_ignored json_loads t s eq_refl) as [H1 H2].
  split; [exact H1|exact (H2 eq_refl)].
Defined.

Lemma lazy_any_none (k : cont) :
  forall fuel s, (forall s1 s2, s = s1 ++ s2 -> k s2 = None) ->
    star_lazy (re_match RAny) k fuel s = None.
Proof.
  induction fuel as [|f IH]; intros s Hk.
  - cbn [star_lazy]. now rewrite (Hk [] s eq_refl).
  - cbn [star_lazy]. rewrite (Hk [] s eq_refl).
    destruct s as [|c s']; [reflexivity|].
    cbn [re_match match_class].
    destruct (length s' <? length (c :: s'))%nat; [|reflexivity].
    apply IH. intros s1 s2 E. apply (Hk (c :: s1) s2). now rewrite E.
Qed.

Lemma think_no_close (s : pystr) :
  is_substring (str "</think>") s = false -> match_at think_re s = None.
Proof.
  intros H. unfold match_at, think_re, rseq. cbn [fold_right].
  rewrite re_match_seq, re_match_str.
  destruct (strip_prefix (str "<think>") s) as [s1|] eqn:E; [|reflexivity].
  apply strip_prefix_Some in E. rewrite re_match_seq.
  change (re_match (RLazy RAny) s1
            (fun s2 => re_match (RSeq (RStr (str "</think>")) REps) s2 Some))
    with (star_lazy (re_match RAny)
            (fun s2 => re_match (RSeq (RStr (str "</think>")) REps) s2 Some)
            (length s1) s1).
  apply lazy_any_none. intros s1a s1b E1. cbv beta.
  rewrite re_match_seq, re_match_str.
  rewrite (@is_substring_suffix (str "</think>") s H (str "<think>" ++ s1a) s1b);
    [reflexivity|].
  rewrite E, E1. now rewrite app_assoc.
Qed.

Lemma sub_think_no_close (s : pystr) :
  is_substring (str "</think>") s = false -> re_sub_empty think_re s = s.
Proof.
  unfold re_sub_empty. induction s as [|c s IH]; intros H; [reflexivity|].
  rewrite sub_del_cons_none by now apply think_no_close.
  apply is_substring_cons in H as [_ H]. now rewrite IH.
Qed.

Lemma str_think_no_lbrace : lacks lbrace (str "<think>").
Proof. apply absent_lacks. reflexivity. Qed.

(** X14: a reasoning block that is never closed is not removed, and a JSON
    object drafted inside it is returned: for a text <think> a obj b without
    closing tag and without backtick, where a has no opening brace and the
    decoder gives v on obj, the fast normalizer returns v when the braces of
    obj nest at most one level, and the thorough one when b has no closing
    brace. *)
Theorem unclosed_think_block_searched (loads : decoder) (a mid b : pystr) (v : pyvalue) :
  let text := str "<think>" ++ a ++ braced mid ++ b in
  is_substring (str "</think>") text = false ->
  absent backtick text = true ->
  absent lbrace a = true ->
  loads (braced mid) = Some v ->
  (one_level (braced mid) = true -> FastDocumentProcessor._parse_json loads text = v) /\
  (absent rbrace b = true -> SimpleDocumentProcessor._parse_response loads text = v).
Proof.
  intros text Hclose Htick Ha Hl.
  apply absent_lacks in Htick, Ha.
  assert (Hpre : lacks lbrace (str "<think>" ++ a))
    by (apply Forall_app; split; [apply str_think_no_lbrace|exact Ha]).
  split.
  - intros Hone. unfold FastDocumentProcessor._parse_json.
    rewrite (@sub_think_no_close text Hclose), (@sub_fence_id text Htick).
    assert (Hs : re_search json_re text = Some (braced mid)).
    { unfold text. rewrite app_assoc.
      rewrite (@search_skip json_re (fun z => z <> lbrace)); [| |exact Hpre].
      2:{ intros c t Hc. rewrite json_match_cons, neq_eqb; congruence. }
      apply search_hit.
      destruct (one_level_inv _ Hone) as (body & Eb & Hspan). rewrite Eb.
      cbn [app]. rewrite json_match_cons, N.eqb_refl. now apply span_end_app. }
    now rewrite Hs, Hl.
  - intros Hb. apply absent_lacks in Hb.
    unfold SimpleDocumentProcessor._parse_response.
    rewrite (@sub_fence_json_id text Htick), (@sub_fence_any_id text Htick),
      (@sub_think_no_close text Hclose).
    assert (Hs : re_search json_greedy_re text = Some (braced mid)).
    { unfold text. rewrite app_assoc.
      rewrite (@search_skip json_greedy_re (fun z => z <> lbrace)); [| |exact Hpre].
      2:{ intros c t Hc. rewrite json_greedy_match_cons, neq_eqb; congruence. }
      apply search_hit. unfold braced. cbn [app].
      rewrite json_greedy_match_cons, N.eqb_refl. rewrite <- app_assoc. cbn [app].
      now apply after_last_rbrace_app. }
    now rewrite Hs, Hl.
Qed.

Lemma unclosed_think_block_searched_witness :
  let text := jstr "<think>The page shows an invoice, so {'type': 'invoice'} could be" in
  let v := PyDict [(str "type", PyStr (str "invoice"))] in
  FastDocumentProcessor._parse_json json_loads text = v /\
  SimpleDocumentProcessor._parse_response json_loads text = v.
Proof.
  intros text v.
  destruct (@unclosed_think_block_searched json_loads
              (str "The page shows an invoice, so ")
              (jstr "'type': 'invoice'")
              (str " could be") v eq_refl eq_refl eq_refl eq_refl) as [H1 H2].
  split; [exact (H1 eq_refl)|exact (H2 eq_refl)].
Defined.

(* ================================================================== *)
(** ** Objects nested more than one level deep *)
(* ================================================================== *)

Lemma span_end_plain (p s : pystr) (inner : bool) :
  forallb is_plain p = true -> span_end inner (p ++ s) = span_end inner s.
Proof.
  induction p as [|c p IH]; intros H; [reflexivity|].
  cbn [forallb] in H. apply andb_true_iff in H as [Hc Hp].
  apply is_plain_true in Hc as [H1 H2]. cbn [app span_end].
  rewrite (neq_eqb H1), (neq_eqb H2). auto.
Qed.

Lemma plain_lacks_lbrace (p : pystr) : forallb is_plain p = true -> lacks lbrace p.
Proof.
  induction p as [|c p IH]; intros H; [constructor|].
  cbn [forallb] in H. apply andb_true_iff in H as [Hc Hp].
  apply is_plain_true in Hc as [H1 _]. constructor; [exact H1|exact (IH Hp)].
Qed.

(** X15: of an object that nests three levels deep the fast normalizer takes
    the object on the second level as the brace span: for a text { a { b { c }
    d } rest without [<] and backtick, a, b, c, d without braces, the span
    found is { b { c } d }, and the normalizer returns what the decoder gives
    on it (the degraded record when it raises). *)
Theorem deep_nesting_returns_inner (loads : decoder) (a b c d rest : pystr) :
  let inner := lbrace :: b ++ lbrace :: c ++ rbrace :: d ++ [rbrace] in
  let text := lbrace :: a ++ inner ++ rest in
  forallb is_plain a = true -> forallb is_plain b = true ->
  forallb is_plain c = true -> forallb is_plain d = true ->
  absent lt_char text = true -> absent backtick text = true ->
  re_search json_re text = Some inner /\
  FastDocumentProcessor._parse_json loads text
  = match loads inner with
    | Some v => v
    | None => PyDict [(str "type", PyStr (str "document"));
                      (str "confidence", PyFloat 0.5%float);
                      (str "raw", PyStr (slice_to 200 text))]
    end.
Proof.
  intros inner text Ha Hb Hc Hd Hlt Htick.
  assert (Hs : re_search json_re text = Some inner).
  { unfold text. rewrite re_search_eq, json_match_cons, N.eqb_refl.
    assert (H0 : span_end false (a ++ inner ++ rest) = None).
    { rewrite (@span_end_plain a _ false Ha). unfold inner. cbn [app span_end].
      rewrite N.eqb_refl, <- app_assoc. rewrite (@span_end_plain b _ true Hb).
      cbn [app span_end]. now rewrite N.eqb_refl. }
    rewrite H0.
    rewrite (@search_skip json_re (fun z => z <> lbrace));
      [| |exact (@plain_lacks_lbrace a Ha)].
    2:{ intros x t Hx. rewrite json_match_cons, neq_eqb; congruence. }
    apply search_hit. unfold inner. cbn [app].
    rewrite json_match_cons, N.eqb_refl.
    rewrite <- app_assoc. rewrite (@span_end_plain b _ false Hb). cbn [app span_end].
    rewrite N.eqb_refl. rewrite <- app_assoc. rewrite (@span_end_plain c _ true Hc).
    cbn [app span_end]. rewrite (neq_eqb brace_neq), N.eqb_refl.
    rewrite <- app_assoc. rewrite (@span_end_plain d _ false Hd).
    cbn [app span_end]. now rewrite (neq_eqb brace_neq), N.eqb_refl. }
  split; [exact Hs|].
  unfold FastDocumentProcessor._parse_json.
  rewrite (@sub_think_id text (absent_lacks _ _ Hlt)), (@sub_fence_id text (absent_lacks _ _ Htick)).
  rewrite Hs. destruct (loads inner); reflexivity.
Qed.

Lemma deep_nesting_returns_inner_witness :
  FastDocumentProcessor._parse_json json_loads
    (jstr "{'type': 'invoice', 'key_data': {'address': {'city': 'Paris'}}, 'confidence': 0.9}")
  = PyDict [(str "address", PyDict [(str "city", PyStr (str "Paris"))])].
Proof.
  exact (proj2 (@deep_nesting_returns_inner json_loads
                  (jstr "'type': 'invoice', 'key_data': ")
                  (jstr "'address': ")
                  (jstr "'city': 'Paris'")
                  []
                  (jstr ", 'confidence': 0.9}")
                  eq_refl eq_refl eq_refl eq_refl eq_refl eq_refl)).
Defined.

(* ================================================================== *)
(** ** The request of the client *)
(* ================================================================== *)

Section Request.
Context {image response : Type}.
Variable env : Qwen3VLClient.environment image response.
Variable self : Qwen3VLClient.client.

Lemma add_images_parts (imgs : list (Qwen3VLClient.image_input image)) (b64s : list pystr) :
  Forall2 (fun img b => Qwen3VLClient._image_to_base64 env img = Ok b) imgs b64s ->
  forall content,
    Qwen3VLClient.add_images env imgs content = Ok (content ++ map image_part b64s).
Proof.
  induction 1 as [|img b imgs b64s Hb _ IH]; intros content.
  - cbn [Qwen3VLClient.add_images map]. now rewrite app_nil_r.
  - cbn [Qwen3VLClient.add_images map]. rewrite Hb. cbn [bind].
    rewrite IH, <- app_assoc. reflexivity.
Qed.

Lemma add_images_first_failure (pre : list (Qwen3VLClient.image_input image))
  (bad : Qwen3VLClient.image_input image) (rest : list (Qwen3VLClient.image_input image))
  (e : exc) :
  Forall (fun img => exists b, Qwen3VLClient._image_to_base64 env img = Ok b) pre ->
  Qwen3VLClient._image_to_base64 env bad = Raise e ->
  forall content, Qwen3VLClient.add_images env (pre ++ bad :: rest) content = Raise e.
Proof.
  induction 1 as [|img pre (b & Hb) _ IH]; intros Hbad content.
  - cbn [app Qwen3VLClient.add_images]. now rewrite Hbad.
  - cbn [app Qwen3VLClient.add_images]. rewrite Hb. cbn [bind]. now apply IH.
Qed.

End Request.

Lemma query_try_request {image response : Type}
  (env : Qwen3VLClient.environment image response) (self : Qwen3VLClient.client)
  (text : pystr) (imgs : list (Qwen3VLClient.image_input image)) (b64s : list pystr)
  (max_tokens : Z) (temperature : float) (stream : bool) (kwargs : list (pystr * pyvalue)) :
  Forall2 (fun img b => Qwen3VLClient._image_to_base64 env img = Ok b) imgs b64s ->
  Qwen3VLClient.query_try env self text (Some imgs) max_tokens temperature stream kwargs
  = (resp <- Qwen3VLClient.session_post env
               (Qwen3VLClient.base_url self ++ str "/chat/completions")
               (PyDict (payload self (text_part text :: map image_part b64s)
                                max_tokens temperature stream kwargs))
               (Qwen3VLClient.timeout self) ;;
     _ <- Qwen3VLClient.raise_for_status env resp ;;
     result <- Qwen3VLClient.response_json env resp ;;
     read_response self result).
Proof.
  intros H. unfold Qwen3VLClient.query_try.
  assert (Hc : match imgs with
               | i :: rest =>
                   Qwen3VLClient.add_images env (i :: rest)
                     [PyDict (dict_of [(str "type", PyStr (str "text"));
                                       (str "text", PyStr text)])]
               | [] => Ok [PyDict (dict_of [(str "type", PyStr (str "text"));
                                            (str "text", PyStr text)])]
               end = Ok (text_part text :: map image_part b64s)).
  { destruct H as [|img b imgs b64s Hb Hrest]; [reflexivity|].
    apply (@add_images_parts image response env (img :: imgs) (b :: b64s)
             (Forall2_cons _ _ Hb Hrest)). }
  rewrite Hc. reflexivity.
Qed.

(** X16: what query posts when every image can be encoded: to
    base_url/chat/completions, with the timeout of the client, the body whose
    one user message has the text part first and then one image_url part per
    image, in order, each with the data URL of that image; the content has one
    part more than there are images. *)
Theorem request_sent {image response : Type}
  (env : Qwen3VLClient.environment image response) (self : Qwen3VLClient.client)
  (text : pystr) (imgs : list (Qwen3VLClient.image_input image)) (b64s : list pystr)
  (max_tokens : Z) (temperature : float) (stream : bool) (kwargs : list (pystr * pyvalue)) :
  Forall2 (fun img b => Qwen3VLClient._image_to_base64 env img = Ok b) imgs b64s ->
  Qwen3VLClient.query_try env self text (Some imgs) max_tokens temperature stream kwargs
  = (resp <- Qwen3VLClient.session_post env
               (Qwen3VLClient.base_url self ++ str "/chat/completions")
               (PyDict (payload self (text_part text :: map image_part b64s)
                                max_tokens temperature stream kwargs))
               (Qwen3VLClient.timeout self) ;;
     _ <- Qwen3VLClient.raise_for_status env resp ;;
     result <- Qwen3VLClient.response_json env resp ;;
     read_response self result) /\
  length (text_part text :: map image_part b64s) = S (length imgs).
Proof.
  intros H. split; [now apply query_try_request|].
  cbn [length]. rewrite length_map. f_equal. symmetry. eapply Forall2_length; eauto.
Qed.

Lemma request_sent_witness :
  let env := answering_env (PyStr (str "4")) in
  let self := Qwen3VLClient.default_client in
  Qwen3VLClient.query_try env self (str "What is on this page?")
    (Some [Qwen3VLClient.InImage tt; Qwen3VLClient.InPath (str "scan.jpg")])
    500 0.1%float false []
  = (resp <- Qwen3VLClient.session_post env
               (str "http://localhost:1234/v1/chat/completions")
               (PyDict (payload self
                          [text_part (str "What is on this page?");
                           image_part (str "iVBORw=="); image_part (str "iVBORw==")]
                          500 0.1%float false []))
               240 ;;
     _ <- Qwen3VLClient.raise_for_status env resp ;;
     result <- Qwen3VLClient.response_json env resp ;;
     read_response self result) /\
  length [text_part (str "What is on this page?");
          image_part (str "iVBORw=="); image_part (str "iVBORw==")] = 3%nat.
Proof.
  intros env self.
  apply (@request_sent unit unit env self (str "What is on this page?")
           [Qwen3VLClient.InImage tt; Qwen3VLClient.InPath (str "scan.jpg")]
           [str "iVBORw=="; str "iVBORw=="] 500 0.1%float false []).
  repeat constructor.
Defined.

Lemma dict_get_set (d : pydict) (k k' : pystr) (v : pyvalue) :
  dict_get (dict_set d k v) k' = if str_eqb k k' then Some v else dict_get d k'.
Proof.
  destruct (str_eqb k k') eqn:E.
  - apply str_eqb_eq in E. subst. apply dict_get_set_same.
  - now apply dict_get_set_other.
Qed.

Lemma dict_get_fold (kvs : list (pystr * pyvalue)) (k : pystr) :
  forall d,
    dict_get (fold_left (fun d kv => dict_set d (fst kv) (snd kv)) kvs d) k
    = match dict_get (dict_of kvs) k with
      | Some v => Some v
      | None => dict_get d k
      end.
Proof.
  unfold dict_of. induction kvs as [|[k' v'] kvs IH]; intros d; [reflexivity|].
  cbn [fold_left fst snd]. rewrite IH, (IH (dict_set [] k' v')), !dict_get_set.
  cbn [dict_get].
  destruct (dict_get _ k); [reflexivity|]. now destruct (str_eqb k' k).
Qed.

(** X17: a keyword argument replaces the entry of the same name in the body of
    the request: the body has, under every key, the value the keyword
    arguments give it when they have that key (model and messages included),
    and the value of the body without keyword arguments otherwise. *)
Theorem keyword_arguments_override (self : Qwen3VLClient.client) (content : list pyvalue)
  (max_tokens : Z) (temperature : float) (stream : bool)
  (kwargs : list (pystr * pyvalue)) (k : pystr) :
  dict_get (payload self content max_tokens temperature stream kwargs) k
  = match dict_get (dict_of kwargs) k with
    | Some v => Some v
    | None => dict_get (payload self content max_tokens temperature stream []) k
    end.
Proof.
  unfold payload, dict_of at 1. rewrite fold_left_app, dict_get_fold.
  now rewrite app_nil_r.
Qed.

(** X18: when an image cannot be encoded and the images before it can, query
    returns the failure whose reason is that of the exception of
    _image_to_base64 (Request timeout for a timeout), whatever the endpoint
    would answer; for an input that is neither a path nor an image the reason
    is [Unsupported image input type: ] followed by the type. *)
Theorem image_failure_reported {image response : Type}
  (env : Qwen3VLClient.environment image response) (self : Qwen3VLClient.client)
  (text : pystr) (pre : list (Qwen3VLClient.image_input image))
  (bad : Qwen3VLClient.image_input image) (rest : list (Qwen3VLClient.image_input image))
  (max_tokens : Z) (temperature : float) (stream : bool) (kwargs : list (pystr * pyvalue)) :
  Forall (fun img => exists b, Qwen3VLClient._image_to_base64 env img = Ok b) pre ->
  (forall e, Qwen3VLClient._image_to_base64 env bad = Raise e ->
     Qwen3VLClient.query env self text (Some (pre ++ bad :: rest))
       max_tokens temperature stream kwargs
     = Ok (Qwen3VLClient.failure (reason_of e))) /\
  (forall type_name, bad = Qwen3VLClient.InOther type_name ->
     Qwen3VLClient.query env self text (Some (pre ++ bad :: rest))
       max_tokens temperature stream kwargs
     = Ok (Qwen3VLClient.failure (str "Unsupported image input type: " ++ type_name))).
Proof.
  intros Hpre.
  assert (Hgen : forall e, Qwen3VLClient._image_to_base64 env bad = Raise e ->
            Qwen3VLClient.query env self text (Some (pre ++ bad :: rest))
              max_tokens temperature stream kwargs
            = Ok (Qwen3VLClient.failure (reason_of e))).
  { intros e Hbad. rewrite query_handlers. unfold Qwen3VLClient.query_try.
    assert (Hc : forall content,
              match pre ++ bad :: rest with
              | i :: r => Qwen3VLClient.add_images env (i :: r) content
              | [] => Ok content
              end = Raise e).
    { intros content.
      rewrite <- (@add_images_first_failure image response env pre bad rest e Hpre Hbad content).
      destruct (pre ++ bad :: rest) eqn:E; [|reflexivity].
      destruct pre; discriminate. }
    rewrite Hc. reflexivity. }
  split; [exact Hgen|].
  intros type_name ->. now rewrite (Hgen _ eq_refl).
Qed.

Lemma image_failure_reported_witness :
  Qwen3VLClient.query (answering_env (PyStr (str "4"))) Qwen3VLClient.default_client
    (str "What is on this page?")
    (Some [Qwen3VLClient.InImage tt; Qwen3VLClient.InOther (str "<class 'bytes'>");
           Qwen3VLClient.InImage tt])
    500 0.1%float false []
  = Ok (Qwen3VLClient.failure (str "Unsupported image input type: <class 'bytes'>")).
Proof.
  apply (@image_failure_reported unit unit (answering_env (PyStr (str "4")))
           Qwen3VLClient.default_client (str "What is on this page?")
           [Qwen3VLClient.InImage tt] (Qwen3VLClient.InOther (str "<class 'bytes'>"))
           [Qwen3VLClient.InImage tt] 500 0.1%float false []).
  - constructor; [|constructor]. exists (str "iVBORw=="). reflexivity.
  - reflexivity.
Defined.

(* ================================================================== *)
(** ** The list of models *)
(* ================================================================== *)

Section ModelList.
Context {response : Type}.
Variable env : Qwen3VLClient.models_endpoint response.
Variable self : Qwen3VLClient.client.

Lemma model_ids_ok (ms ids : list pyvalue) :
  Forall2 entry_id ms ids -> Qwen3VLClient.model_ids ms = Ok ids.
Proof.
  induction 1 as [|m id ms ids (dm & -> & Hid) _ IH]; [reflexivity|].
  cbn [Qwen3VLClient.model_ids py_getitem_str]. unfold dict_getitem. rewrite Hid.
  cbn [bind]. now rewrite IH.
Qed.

Lemma model_ids_bad (ms : list pyvalue) (m : pyvalue) :
  In m ms -> (forall id, ~ entry_id m id) ->
  exists e, Qwen3VLClient.model_ids ms = Raise e.
Proof.
  intros Hin Hbad. induction ms as [|m0 ms IH]; [contradiction|].
  cbn [Qwen3VLClient.model_ids].
  destruct (py_getitem_str m0 (str "id")) as [id|e] eqn:E; cbn [bind]; [|eauto].
  destruct Hin as [-> | Hin].
  - exfalso. apply (Hbad id).
    destruct m as [| | | | | |dm]; cbn [py_getitem_str] in E; unfold raise_ in E;
      try discriminate.
    exists dm. split; [reflexivity|]. unfold dict_getitem in E.
    destruct (dict_get dm (str "id")); [now inversion E|discriminate].
  - destruct (IH Hin) as (e & ->). cbn [bind]. eauto.
Qed.

End ModelList.

(** X19: whenever test_connection is false, get_available_models returns the
    empty list. *)
Theorem models_require_connection {response : Type}
  (env : Qwen3VLClient.models_endpoint response) (self : Qwen3VLClient.client) :
  Qwen3VLClient.test_connection env self = false ->
  Qwen3VLClient.get_available_models env self = [].
Proof.
  unfold Qwen3VLClient.test_connection, Qwen3VLClient.get_available_models,
    Qwen3VLClient.get_available_models_try.
  destruct (Qwen3VLClient.session_get env _ 5) as [resp|e]; cbn [bind]; [|reflexivity].
  now intros ->.
Qed.

Lemma models_require_connection_witness :
  Qwen3VLClient.get_available_models
    (unreachable_models_env {| exc_cls := ExcRequestException;
                               exc_str := str "Connection refused" |})
    Qwen3VLClient.default_client = [].
Proof.
  exact (@models_require_connection unit
           (unreachable_models_env {| exc_cls := ExcRequestException;
                                      exc_str := str "Connection refused" |})
           Qwen3VLClient.default_client eq_refl).
Defined.

(** X20: for an answer with status 200 whose body is a mapping,
    get_available_models returns the identifiers of all entries of data, in
    order, when each entry is a mapping with the key id; the empty list as
    soon as one entry is not; and the empty list when there is no data. *)
Theorem model_list_all_or_nothing {response : Type}
  (env : Qwen3VLClient.models_endpoint response) (self : Qwen3VLClient.client)
  (resp : response) (d : pydict) :
  Qwen3VLClient.session_get env (Qwen3VLClient.base_url self ++ str "/models") 5 = Ok resp ->
  Qwen3VLClient.status_code env resp = 200%Z ->
  Qwen3VLClient.models_json env resp = Ok (PyDict d) ->
  (forall ms ids, dict_get d (str "data") = Some (PyList ms) -> Forall2 entry_id ms ids ->
     Qwen3VLClient.get_available_models env self = ids) /\
  (forall ms m, dict_get d (str "data") = Some (PyList ms) ->
     In m ms -> (forall id, ~ entry_id m id) ->
     Qwen3VLClient.get_available_models env self = []) /\
  (dict_get d (str "data") = None -> Qwen3VLClient.get_available_models env self = []).
Proof.
  intros Hget Hstatus Hjson.
  unfold Qwen3VLClient.get_available_models, Qwen3VLClient.get_available_models_try.
  rewrite Hget. cbn [bind]. rewrite Hstatus, Hjson. cbn [Z.eqb Pos.eqb bind py_get].
  unfold dict_get_default. split; [|split].
  - intros ms ids Hd Hids. rewrite Hd. cbn [py_iter bind]. now rewrite (@model_ids_ok ms ids Hids).
  - intros ms m Hd Hin Hbad. rewrite Hd. cbn [py_iter bind].
    now destruct (@model_ids_bad ms m Hin Hbad) as (e & ->).
  - intros Hd. rewrite Hd. reflexivity.
Qed.

Lemma model_list_all_or_nothing_witness :
  Qwen3VLClient.get_available_models
    (models_env 200
       (PyDict [(str "data",
                 PyList [PyDict [(str "id", PyStr (str "qwen3vl-4b"))];
                         PyDict [(str "object", PyStr (str "model"))]])]))
    Qwen3VLClient.default_client = [].
Proof.
  destruct (@model_list_all_or_nothing unit
              (models_env 200
                 (PyDict [(str "data",
                           PyList [PyDict [(str "id", PyStr (str "qwen3vl-4b"))];
                                   PyDict [(str "object", PyStr (str "model"))]])]))
              Qwen3VLClient.default_client tt
              [(str "data",
                PyList [PyDict [(str "id", PyStr (str "qwen3vl-4b"))];
                        PyDict [(str "object", PyStr (str "model"))]])]
              eq_refl eq_refl eq_refl) as (_ & Hbad & _).
  apply (Hbad _ (PyDict [(str "object", PyStr (str "model"))]) eq_refl).
  - right. left. reflexivity.
  - intros id (dm & E1 & E2). inversion E1; subst dm. discriminate.
Defined.

(* ================================================================== *)
(** ** The answer of the endpoint *)
(* ================================================================== *)

Section Answer.
Context {image response : Type}.
Variable env : Qwen3VLClient.environment image response.
Variable self : Qwen3VLClient.client.
Variables (text : pystr) (imgs : list (Qwen3VLClient.image_input image)) (b64s : list pystr).
Variables (max_tokens : Z) (temperature : float) (stream : bool).
Variable kwargs : list (pystr * pyvalue).
Variables (resp : response) (d : pydict).

Hypothesis Hencode :
  Forall2 (fun img b => Qwen3VLClient._image_to_base64 env img = Ok b) imgs b64s.
Hypothesis Hpost :
  Qwen3VLClient.session_post env (Qwen3VLClient.base_url self ++ str "/chat/completions")
    (PyDict (payload self (text_part text :: map image_part b64s)
                     max_tokens temperature stream kwargs))
    (Qwen3VLClient.timeout self) = Ok resp.
Hypothesis Hstatus : Qwen3VLClient.raise_for_status env resp = Ok tt.
Hypothesis Hjson : Qwen3VLClient.response_json env resp = Ok (PyDict d).

Lemma query_try_answered :
  Qwen3VLClient.query_try env self text (Some imgs) max_tokens temperature stream kwargs
  = read_response self (PyDict d).
Proof.
  rewrite (@query_try_request image response env self text imgs b64s
             max_tokens temperature stream kwargs Hencode).
  rewrite Hpost. cbn [bind]. rewrite Hstatus. cbn [bind]. rewrite Hjson. reflexivity.
Qed.

Lemma query_answered :
  Qwen3VLClient.query env self text (Some imgs) max_tokens temperature stream kwargs
  = match read_response self (PyDict d) with
    | Ok r => Ok r
    | Raise e => Ok (Qwen3VLClient.failure (reason_of e))
    end.
Proof. rewrite query_handlers, query_try_answered. reflexivity. Qed.

End Answer.

(** X21: for a decoded answer that is a mapping whose first choice is a
    mapping with a message that has a content, query returns exactly success
    true, that content, the model of the answer (the model name of the client
    when the answer names none), its usage (the empty mapping when it has
    none) and the answer itself as raw_response. *)
Theorem answer_fields {image response : Type}
  (env : Qwen3VLClient.environment image response) (self : Qwen3VLClient.client)
  (text : pystr) (imgs : list (Qwen3VLClient.image_input image)) (b64s : list pystr)
  (max_tokens : Z) (temperature : float) (stream : bool) (kwargs : list (pystr * pyvalue))
  (resp : response) (d ch m : pydict) (rest : list pyvalue) (c : pyvalue) :
  Forall2 (fun img b => Qwen3VLClient._image_to_base64 env img = Ok b) imgs b64s ->
  Qwen3VLClient.session_post env (Qwen3VLClient.base_url self ++ str "/chat/completions")
    (PyDict (payload self (text_part text :: map image_part b64s)
                     max_tokens temperature stream kwargs))
    (Qwen3VLClient.timeout self) = Ok resp ->
  Qwen3VLClient.raise_for_status env resp = Ok tt ->
  Qwen3VLClient.response_json env resp = Ok (PyDict d) ->
  dict_get d (str "choices") = Some (PyList (PyDict ch :: rest)) ->
  dict_get ch (str "message") = Some (PyDict m) ->
  dict_get m (str "content") = Some c ->
  Qwen3VLClient.query env self text (Some imgs) max_tokens temperature stream kwargs
  = Ok [(str "success", PyBool true);
        (str "content", c);
        (str "model", dict_get_default d (str "model")
                        (PyStr (Qwen3VLClient.model_name self)));
        (str "usage", dict_get_default d (str "usage") (PyDict []));
        (str "raw_response", PyDict d)].
Proof.
  intros He Hp Hs Hj Hd Hch Hm.
  rewrite (@query_answered image response env self text imgs b64s max_tokens temperature
             stream kwargs resp d He Hp Hs Hj).
  unfold read_response. cbn [py_contains bind py_getitem_str]. unfold dict_has, dict_getitem.
  rewrite Hd. cbn [bind py_len length Nat.ltb Nat.leb py_getitem_0 py_getitem_str].
  unfold dict_getitem. rewrite Hch. cbn [bind py_getitem_str]. unfold dict_getitem.
  rewrite Hm. reflexivity.
Qed.

Lemma answer_fields_witness :
  Qwen3VLClient.query (answering_env (PyStr (str "4"))) Qwen3VLClient.default_client
    (str "What is 2+2?") (Some [Qwen3VLClient.InImage tt]) 50 0.1%float false []
  = Ok [(str "success", PyBool true);
        (str "content", PyStr (str "4"));
        (str "model", PyStr (str "qwen3vl-4b"));
        (str "usage", PyDict []);
        (str "raw_response",
          PyDict [(str "choices",
                   PyList [PyDict [(str "message", PyDict [(str "content", PyStr (str "4"))])]])])].
Proof.
  apply (@answer_fields unit unit (answering_env (PyStr (str "4"))) Qwen3VLClient.default_client
           (str "What is 2+2?") [Qwen3VLClient.InImage tt] [str "iVBORw=="]
           50 0.1%float false [] tt
           [(str "choices",
             PyList [PyDict [(str "message", PyDict [(str "content", PyStr (str "4"))])]])]
           [(str "message", PyDict [(str "content", PyStr (str "4"))])]
           [(str "content", PyStr (str "4"))] [] (PyStr (str "4")));
    try reflexivity.
  repeat constructor.
Defined.

(** X22: when the first choice of the answer is a mapping without message,
    query returns the failure whose reason is the text 'message' in quotes,
    the message of the KeyError; when the message is a mapping without
    content, the reason is 'content' in quotes. *)
Theorem missing_key_reason {image response : Type}
  (env : Qwen3VLClient.environment image response) (self : Qwen3VLClient.client)
  (text : pystr) (imgs : list (Qwen3VLClient.image_input image)) (b64s : list pystr)
  (max_tokens : Z) (temperature : float) (stream : bool) (kwargs : list (pystr * pyvalue))
  (resp : response) (d ch : pydict) (rest : list pyvalue) :
  Forall2 (fun img b => Qwen3VLClient._image_to_base64 env img = Ok b) imgs b64s ->
  Qwen3VLClient.session_post env (Qwen3VLClient.base_url self ++ str "/chat/completions")
    (PyDict (payload self (text_part text :: map image_part b64s)
                     max_tokens temperature stream kwargs))
    (Qwen3VLClient.timeout self) = Ok resp ->
  Qwen3VLClient.raise_for_status env resp = Ok tt ->
  Qwen3VLClient.response_json env resp = Ok (PyDict d) ->
  dict_get d (str "choices") = Some (PyList (PyDict ch :: rest)) ->
  (dict_get ch (str "message") = None ->
   Qwen3VLClient.query env self text (Some imgs) max_tokens temperature stream kwargs
   = Ok (Qwen3VLClient.failure (squote :: str "message" ++ [squote]))) /\
  (forall m, dict_get ch (str "message") = Some (PyDict m) ->
     dict_get m (str "content") = None ->
     Qwen3VLClient.query env self text (Some imgs) max_tokens temperature stream kwargs
     = Ok (Qwen3VLClient.failure (squote :: str "content" ++ [squote]))).
Proof.
  intros He Hp Hs Hj Hd.
  rewrite (@query_answered image response env self text imgs b64s max_tokens temperature
             stream kwargs resp d He Hp Hs Hj).
  unfold read_response. cbn [py_contains bind py_getitem_str]. unfold dict_has, dict_getitem.
  rewrite Hd. cbn [bind py_len length Nat.ltb Nat.leb py_getitem_0 py_getitem_str].
  unfold dict_getitem. split.
  - intros Hch. rewrite Hch. reflexivity.
  - intros m Hch Hm. rewrite Hch. cbn [bind py_getitem_str]. unfold dict_getitem.
    rewrite Hm. reflexivity.
Qed.

Lemma missing_key_reason_witness :
  Qwen3VLClient.query
    (replying_env (PyDict [(str "choices",
                            PyList [PyDict [(str "finish_reason", PyStr (str "length"))]])]))
    Qwen3VLClient.default_client
    (str "What is 2+2?") (Some [Qwen3VLClient.InImage tt]) 50 0.1%float false []
  = Ok (Qwen3VLClient.failure (str "'message'")).
Proof.
  apply (@missing_key_reason unit unit
           (replying_env (PyDict [(str "choices",
                                   PyList [PyDict [(str "finish_reason",
                                                    PyStr (str "length"))]])]))
           Qwen3VLClient.default_client
           (str "What is 2+2?") [Qwen3VLClient.InImage tt] [str "iVBORw=="]
           50 0.1%float false [] tt
           [(str "choices", PyList [PyDict [(str "finish_reason", PyStr (str "length"))]])]
           [(str "finish_reason", PyStr (str "length"))] []);
    try reflexivity.
  repeat constructor.
Defined.

(* ================================================================== *)
(** ** Loading a document *)
(* ================================================================== *)

Section Loading.
Context {image : Type}.
Variable env : DocumentProcessor.environment image.

Lemma page_texts_ok (pages : list (outcome (option pystr))) :
  Forall page_read pages ->
  forall texts,
    DocumentProcessor.page_texts pages texts = Ok (texts ++ map page_text pages).
Proof.
  induction 1 as [|page pages (t & ->) _ IH]; intros texts.
  - cbn [DocumentProcessor.page_texts map]. now rewrite app_nil_r.
  - cbn [DocumentProcessor.page_texts bind map]. rewrite IH, <- app_assoc.
    do 2 f_equal. cbn [app page_text]. f_equal. now destruct t as [[|c t]|].
Qed.

Lemma page_texts_bad (pages : list (outcome (option pystr))) :
  Exists (fun page => ~ page_read page) pages ->
  forall texts, exists e, DocumentProcessor.page_texts pages texts = Raise e.
Proof.
  induction 1 as [[t|e] pages Hbad|page pages _ IH]; intros texts.
  - exfalso. apply Hbad. now exists t.
  - exists e. reflexivity.
  - cbn [DocumentProcessor.page_texts]. destruct page as [t|e]; cbn [bind]; eauto.
Qed.

End Loading.

(** X23: extract_text_pdfplumber returns the texts of all pages, in order,
    with the empty text for a page that has none, when the document opens,
    every page is read and the document closes; it returns the empty list as
    soon as one page cannot be read, and when the document does not open. *)
Theorem page_texts_all_or_nothing {image : Type}
  (env : DocumentProcessor.environment image) (pdf_path : pystr) :
  (forall pages,
     DocumentProcessor.pdfplumber_open env pdf_path = Ok pages ->
     Forall page_read pages ->
     DocumentProcessor.pdfplumber_close env pdf_path = Ok tt ->
     DocumentProcessor.extract_text_pdfplumber env pdf_path = map page_text pages) /\
  (forall pages,
     DocumentProcessor.pdfplumber_open env pdf_path = Ok pages ->
     Exists (fun page => ~ page_read page) pages ->
     DocumentProcessor.extract_text_pdfplumber env pdf_path = []) /\
  (forall e, DocumentProcessor.pdfplumber_open env pdf_path = Raise e ->
     DocumentProcessor.extract_text_pdfplumber env pdf_path = []).
Proof.
  unfold DocumentProcessor.extract_text_pdfplumber. split; [|split].
  - intros pages Ho Hp Hc. rewrite Ho. cbn [bind].
    rewrite (@page_texts_ok pages Hp []), Hc. reflexivity.
  - intros pages Ho Hb. rewrite Ho. cbn [bind].
    destruct (@page_texts_bad pages Hb []) as (e & ->).
    now destruct (DocumentProcessor.pdfplumber_close env pdf_path).
  - intros e Ho. now rewrite Ho.
Qed.

Lemma page_texts_all_or_nothing_witness :
  DocumentProcessor.extract_text_pdfplumber
    (sample_docs 2 [Ok (Some (str "INVOICE #123")); Ok None]) (str "scan.pdf")
  = [str "INVOICE #123"; []].
Proof.
  apply (proj1 (@page_texts_all_or_nothing unit
                  (sample_docs 2 [Ok (Some (str "INVOICE #123")); Ok None]) (str "scan.pdf"))
               [Ok (Some (str "INVOICE #123")); Ok None]); try reflexivity.
  repeat constructor; eexists; reflexivity.
Defined.

(** X24: process_document of the document utilities, by the lower-cased suffix
    of the file: outside the six supported ones it raises ValueError with
    [Unsupported file type: ] and the suffix as written; for .pdf it returns
    the page images whenever the conversion succeeds, with texts that are
    either empty or one per page of the text layer, so that a failure of the
    text extraction never fails the call; for another supported suffix it
    returns the loaded image alone and no text. *)
Theorem document_loading_cases {image : Type}
  (env : DocumentProcessor.environment image) (self : DocumentProcessor.processor)
  (file_path : pystr) :
  let suffix := DocumentProcessor.str_lower env (DocumentProcessor.path_suffix env file_path) in
  (~ In suffix DocumentProcessor.supported_extensions ->
   DocumentProcessor.process_document env self file_path
   = Raise {| exc_cls := ExcValueError;
              exc_str := str "Unsupported file type: "
                         ++ DocumentProcessor.path_suffix env file_path |}) /\
  (suffix = str ".pdf" ->
   forall images,
     DocumentProcessor.convert_from_path env file_path (DocumentProcessor.dpi self)
       (DocumentProcessor.poppler_path self) = Ok images ->
     exists texts,
       DocumentProcessor.process_document env self file_path = Ok (images, texts) /\
       (texts = [] \/
        exists pages, DocumentProcessor.pdfplumber_open env file_path = Ok pages /\
                      length texts = length pages)) /\
  (In suffix DocumentProcessor.supported_extensions -> suffix <> str ".pdf" ->
   forall img, DocumentProcessor.load_image env file_path = Ok img ->
     DocumentProcessor.process_document env self file_path = Ok ([img], [])).
Proof.
  intros suffix.
  assert (Hsup : DocumentProcessor.is_supported env file_path = true <->
                 In suffix DocumentProcessor.supported_extensions).
  { unfold DocumentProcessor.is_supported. rewrite existsb_exists. fold suffix. split.
    - intros (x & Hin & Hx). apply str_eqb_eq in Hx. now subst.
    - intros Hin. exists suffix. split; [exact Hin|apply str_eqb_refl]. }
  unfold DocumentProcessor.process_document. fold suffix. split; [|split].
  - intros Hn. destruct (DocumentProcessor.is_supported env file_path) eqn:E; [|reflexivity].
    exfalso. apply Hn. now apply Hsup.
  - intros Hpdf images Hconv.
    assert (E : DocumentProcessor.is_supported env file_path = true).
    { apply Hsup. rewrite Hpdf. left. reflexivity. }
    rewrite E, Hpdf. cbn [negb]. rewrite str_eqb_refl.
    unfold DocumentProcessor.pdf_to_images. rewrite Hconv. cbn [bind].
    eexists. split; [reflexivity|].
    unfold DocumentProcessor.extract_text_pdfplumber.
    destruct (DocumentProcessor.pdfplumber_open env file_path) as [pages|e]; cbn [bind];
      [|now left].
    destruct (DocumentProcessor.page_texts pages []) as [texts|e] eqn:Et.
    + destruct (DocumentProcessor.pdfplumber_close env file_path); cbn [bind]; [|now left].
      right. exists pages. split; [reflexivity|].
      assert (Hlen : forall ps acc ts,
                DocumentProcessor.page_texts ps acc = Ok ts ->
                length ts = (length acc + length ps)%nat).
      { induction ps as [|pg ps IH]; intros acc ts H; cbn [DocumentProcessor.page_texts] in H.
        - inversion H; subst. cbn [length]. lia.
        - destruct pg as [t|x]; cbn [bind] in H; [|discriminate].
          apply IH in H. rewrite H, length_app. cbn [length]. lia. }
      apply Hlen in Et. exact Et.
    + left. now destruct (DocumentProcessor.pdfplumber_close env file_path).
  - intros Hin Hn img Hload.
    assert (E : DocumentProcessor.is_supported env file_path = true) by now apply Hsup.
    rewrite E. cbn [negb]. rewrite (str_eqb_neq Hn), Hload. reflexivity.
Qed.

Lemma document_loading_cases_witness :
  exists texts,
    DocumentProcessor.process_document
      (sample_docs 2 [Ok (Some (str "INVOICE #123"));
                      Raise {| exc_cls := ExcOther; exc_str := str "broken page" |}])
      DocumentProcessor.default_processor (str "scan.PDF")
    = Ok ([tt; tt], texts) /\
    (texts = [] \/
     exists pages,
       DocumentProcessor.pdfplumber_open
         (sample_docs 2 [Ok (Some (str "INVOICE #123"));
                         Raise {| exc_cls := ExcOther; exc_str := str "broken page" |}])
         (str "scan.PDF") = Ok pages /\
       length texts = length pages).
Proof.
  exact (proj1 (proj2 (@document_loading_cases unit
           (sample_docs 2 [Ok (Some (str "INVOICE #123"));
                           Raise {| exc_cls := ExcOther; exc_str := str "broken page" |}])
           DocumentProcessor.default_processor (str "scan.PDF")))
         eq_refl [tt; tt] eq_refl).
Defined.

(* ================================================================== *)
(** ** The entry point of the demo *)
(* ================================================================== *)

(** X25: when the demo processes a file without error, the status line counts
    every page of the document as processed: the number it formats is the
    number of loaded pages, while processed_pages of the result is min(P, 3);
    the other outputs are the dumped extracted_content, the confidence of the
    result and the elapsed time. *)
Theorem status_counts_all_pages {py : interpreter} {world image : Type} (env : DemoFast.environment)
  (docs : DocumentProcessor.environment image) (query : gateway world image)
  (loads : decoder) (w : world) (file_name : pystr) (images : list image)
  (result : pydict) (w' : world) (doc_type pages_text extracted : pystr) :
  (forall x desc, DemoFast.progress env x desc = Ok tt) ->
  DemoFast.load docs file_name = Ok images ->
  FastDocumentProcessor.process_document query loads w images = (Ok result, w') ->
  dict_get result (str "document_type") = Some (PyStr doc_type) ->
  DemoFast.format_value env (PyInt (Z.of_nat (length images))) = Ok pages_text ->
  DemoFast.json_dumps env (dict_get_default result (str "extracted_content") (PyDict []))
  = Ok extracted ->
  DemoFast.process_file env docs query loads w (Some file_name)
  = ((DemoFast.check_mark ++ str " **" ++ pages_text ++ str " page(s)** processed in **"
      ++ DemoFast.format_1f env (DemoFast.time env 1 - DemoFast.time env 0)%float
      ++ str "s** | Type: **" ++ DemoFast.str_upper env doc_type ++ str "**",
      extracted,
      dict_get_default result (str "confidence") (PyFloat 0%float),
      (DemoFast.time env 1 - DemoFast.time env 0)%float), w') /\
  dict_get result (str "processed_pages")
  = Some (PyInt (Z.of_nat (Nat.min (length images) 3))).
Proof.
  intros Hprog Hload Hproc Htype Hpages Hdumps.
  destruct (fast_process_fields _ _ _ _ Hproc) as (Hp & Ht & _).
  split; [|exact Hp].
  unfold DemoFast.process_file, DemoFast.process_file_try.
  rewrite !Hprog, Hload, Hproc. unfold DemoFast.format_result. rewrite Hprog. cbn [bind].
  unfold dict_get_default at 1. rewrite Ht, Hpages. cbn [bind].
  unfold dict_get_default at 1. rewrite Htype. cbn [DemoFast.upper bind].
  rewrite Hdumps. reflexivity.
Qed.

Lemma status_counts_all_pages_witness :
  let query := Qwen3VLClient.as_gateway
                 (fun _ => answering_env (PyStr (jstr "{'type': 'invoice', 'confidence': 0.9}")))
                 DemoFast.client in
  exists result,
    DemoFast.process_file sample_demo (sample_docs 5 []) query json_loads 0%nat
      (Some (str "scan.pdf"))
    = ((DemoFast.check_mark ++ str " **5 page(s)** processed in **2.5s** | Type: **INVOICE**",
        str "{}", PyFloat 0.9%float, 2.5%float), 3%nat) /\
    dict_get result (str "processed_pages") = Some (PyInt 3).
Proof.
  intros query.
  destruct (FastDocumentProcessor.process_document query json_loads 0%nat (repeat tt 5))
    as [[result|e] w'] eqn:E.
  - exists result.
    destruct (@status_counts_all_pages _ nat unit sample_demo (sample_docs 5 []) query json_loads
                0%nat (str "scan.pdf") (repeat tt 5) result w'
                (str "invoice") (str "5") (str "{}")
                (fun _ _ => eq_refl) eq_refl E) as [H1 H2].
    + vm_compute in E. inversion E. reflexivity.
    + reflexivity.
    + reflexivity.
    + split; [|exact H2]. rewrite H1. vm_compute in E. inversion E. reflexivity.
  - vm_compute in E. discriminate.
Defined.

(** X26: when the document type of the result is not a text (the model wrote a
    number or null under type), the demo reports an error although the
    document was processed: the status is the cross mark, [Error: ] and the
    message of the AttributeError of upper, and the other outputs are {}, 0.0
    and 0.0. *)
Theorem type_not_text_is_an_error {py : interpreter}
  {world image : Type} (env : DemoFast.environment)
  (docs : DocumentProcessor.environment image) (query : gateway world image)
  (loads : decoder) (w : world) (file_name : pystr) (images : list image)
  (result : pydict) (w' : world) (doc_type : pyvalue) (pages_text : pystr) :
  (forall x desc, DemoFast.progress env x desc = Ok tt) ->
  DemoFast.load docs file_name = Ok images ->
  FastDocumentProcessor.process_document query loads w images = (Ok result, w') ->
  dict_get result (str "document_type") = Some doc_type ->
  (forall s, doc_type <> PyStr s) ->
  DemoFast.format_value env (PyInt (Z.of_nat (length images))) = Ok pages_text ->
  DemoFast.process_file env docs query loads w (Some file_name)
  = ((DemoFast.cross_mark ++ str " Error: " ++ squote :: DemoFast.type_name doc_type
      ++ squote :: str " object has no attribute 'upper'",
      str "{}", PyFloat 0%float, 0%float), w').
Proof.
  intros Hprog Hload Hproc Htype Hns Hpages.
  destruct (fast_process_fields _ _ _ _ Hproc) as (_ & Ht & _).
  unfold DemoFast.process_file, DemoFast.process_file_try.
  rewrite !Hprog, Hload, Hproc. unfold DemoFast.format_result. rewrite Hprog. cbn [bind].
  unfold dict_get_default at 1. rewrite Ht, Hpages. cbn [bind].
  unfold dict_get_default at 1. rewrite Htype.
  destruct doc_type as [| | | |s| |]; try reflexivity. now destruct (Hns s).
Qed.

Lemma type_not_text_is_an_error_witness :
  let query := Qwen3VLClient.as_gateway
                 (fun _ => answering_env (PyStr (jstr "{'type': 7, 'confidence': 0.9}")))
                 DemoFast.client in
  DemoFast.process_file sample_demo (sample_docs 1 []) query json_loads 0%nat
    (Some (str "scan.png"))
  = ((DemoFast.cross_mark ++ str " Error: 'int' object has no attribute 'upper'",
      str "{}", PyFloat 0%float, 0%float), 1%nat).
Proof.
  intros query.
  destruct (FastDocumentProcessor.process_document query json_loads 0%nat [tt])
    as [[result|e] w'] eqn:E.
  - rewrite (@type_not_text_is_an_error _ nat unit sample_demo (sample_docs 1 []) query json_loads
               0%nat (str "scan.png") [tt] result w' (PyInt 7) (str "1")
               (fun _ _ => eq_refl) eq_refl E).
    + vm_compute in E. inversion E. reflexivity.
    + vm_compute in E. inversion E. reflexivity.
    + intros s H. discriminate.
    + reflexivity.
  - vm_compute in E. discriminate.
Defined.

